(** * excel_to_pdf: grouping rows of a spreadsheet and rendering one document per entity

    A shallow embedding of [src/excel_to_pdf.py]: the text shaper
    [fix_persian_text], the per-entity renderer [create_pdf_for_person] and
    the batch loop of [ExcelToPDFConverter.process_conversion], followed by
    the properties the specification states about them.

    Conventions of the embedding.
    - A Python [str] is a list of Unicode code points ([pystr]).
    - A spreadsheet cell is a missing value (pandas' NaN), a string or an
      integer ([cell]).  Floating-point and date cells are left out.
    - A column label is a string or, for a header cell that holds a
      number, a number; a column is addressed by its label.
    - Code that can raise returns a [result]; [try]/[except] is [try_except].
    - What the program takes from outside the repository (the Unicode
      tables behind [str.isalnum] beyond ASCII, the reshaping and bidi
      libraries, the wall clock, the paragraph parser and the PDF writer)
      is a [Variable] of the section that models the code using it.
    - The output directory is the list of the documents written, latest
      first; the file under a path is the latest document written to it
      ([lookup_file]).
    - [print] calls and the Tk widgets are left out; the message box of the
      missing-column branch is kept as the value of the run, as is the
      exception of the callback that was to show it. *)

From Stdlib Require Import String Ascii DecimalString.
From Stdlib Require Import List NArith ZArith Bool Lia Permutation.
Import ListNotations.

Set Implicit Arguments.

(* ------------------------------------------------------------------ *)
(** ** Python values *)

Definition codepoint := N.
Definition pystr := list codepoint.

(** An ASCII literal of the source as a [pystr]. *)
Definition lit (s : string) : pystr :=
  map N_of_ascii (list_ascii_of_string s).

Definition pystr_eq_dec : forall a b : pystr, {a = b} + {a <> b} :=
  list_eq_dec N.eq_dec.

Definition pystr_eqb (a b : pystr) : bool :=
  if pystr_eq_dec a b then true else false.

Inductive cell : Type :=
  | NaN : cell
  | Str (s : pystr) : cell
  | Int (z : Z) : cell.

Definition cell_eq_dec : forall a b : cell, {a = b} + {a <> b}.
Proof. decide equality; [apply pystr_eq_dec | apply Z.eq_dec]. Defined.

(** [pd.isna(value)]. *)
Definition isna (v : cell) : bool :=
  match v with NaN => true | _ => false end.

(** [a == b] on cells: NaN is equal to nothing, itself included. *)
Definition cell_eqb (a b : cell) : bool :=
  match a, b with
  | NaN, _ | _, NaN => false
  | _, _ => if cell_eq_dec a b then true else false
  end.

(** [str(value)]. *)
Definition py_str (v : cell) : pystr :=
  match v with
  | NaN => lit "nan"
  | Str s => s
  | Int z => lit (NilZero.string_of_int (Z.to_int z))
  end.

(** [sep.join(items)]. *)
Fixpoint join (sep : pystr) (items : list pystr) : pystr :=
  match items with
  | [] => []
  | [x] => x
  | x :: rest => x ++ sep ++ join sep rest
  end.

(* ------------------------------------------------------------------ *)
(** ** Exceptions *)

Inductive exn : Type :=
  | TypeError
  | ValueError
  | KeyError (key : cell)
  | LibraryError (code : nat).

Inductive result (A : Type) : Type :=
  | Ok (a : A)
  | Raise (e : exn).

Arguments Ok {A} a.
Arguments Raise {A} e.

Definition bind {A B} (r : result A) (k : A -> result B) : result B :=
  match r with
  | Ok a => k a
  | Raise e => Raise e
  end.

(** [try: body  except Exception as e: handler e]. *)
Definition try_except {A} (body : result A) (handler : exn -> result A)
  : result A :=
  match body with
  | Ok a => Ok a
  | Raise e => handler e
  end.

(** [try: x = body; on_ok x  except Exception as e: on_error e], for a
    body whose result is only used inside the [try]. *)
Definition try_result {A B} (body : result A) (on_ok : A -> B)
  (on_error : exn -> B) : B :=
  match body with
  | Ok a => on_ok a
  | Raise e => on_error e
  end.

Declare Scope py_scope.
Delimit Scope py_scope with py.
Notation "x <- c ;; k" := (bind c (fun x => k))
  (at level 61, c at next level, right associativity) : py_scope.
Local Open Scope py_scope.

(* ------------------------------------------------------------------ *)
(** ** The text shaper: [fix_persian_text] *)

Section TextShaper.

(** The module-level flag set once by the guarded import. *)
Variable BIDI_SUPPORT : bool.

(** [arabic_reshaper.ArabicReshaper(configuration).reshape],
    [arabic_reshaper.reshape] and [bidi.algorithm.get_display]: library
    calls that return a string or raise. *)
Variable reshape_configured : pystr -> result pystr.
Variable reshape_default : pystr -> result pystr.
Variable get_display : pystr -> result pystr.

Definition fix_persian_text (text : option cell) : result pystr :=
  match text with
  | None => Ok []
  | Some v =>
      let text := py_str v in
      if negb BIDI_SUPPORT then Ok text
      else
        try_except
          (reshaped_text <- reshape_configured text ;;
           bidi_text <- get_display reshaped_text ;;
           Ok bidi_text)
          (fun _ =>
             try_except
               (reshaped_text <- reshape_default text ;;
                bidi_text <- get_display reshaped_text ;;
                Ok bidi_text)
               (fun _ => Ok text))
  end.

(** The string [fix_persian_text] returns, as a function. *)
Definition shape (text : option cell) : pystr :=
  match fix_persian_text text with
  | Ok s => s
  | Raise _ => []
  end.

End TextShaper.

(* ------------------------------------------------------------------ *)
(** ** Character classes and the file name of a document *)

Local Open Scope N_scope.

(** [str.isspace] of one character: CPython's whitespace table. *)
Definition isspace (c : codepoint) : bool :=
  ((9 <=? c) && (c <=? 13)) || ((28 <=? c) && (c <=? 32))
  || (c =? 133) || (c =? 160) || (c =? 5760)
  || ((8192 <=? c) && (c <=? 8202))
  || (c =? 8232) || (c =? 8233) || (c =? 8239) || (c =? 8287)
  || (c =? 12288).

Definition ascii_isalnum (c : codepoint) : bool :=
  ((48 <=? c) && (c <=? 57)) || ((65 <=? c) && (c <=? 90))
  || ((97 <=? c) && (c <=? 122)).

(** [s.rstrip()]: drop the trailing whitespace. *)
Fixpoint rstrip (s : pystr) : pystr :=
  match s with
  | [] => []
  | c :: s' =>
      match rstrip s' with
      | [] => if isspace c then [] else [c]
      | r => c :: r
      end
  end.

Definition SPACE : codepoint := 32.
Definition HYPHEN : codepoint := 45.
Definition UNDERSCORE : codepoint := 95.
Definition SLASH : codepoint := 47.

Section FileName.

(** [str.isalnum] of a character outside ASCII, from the Unicode
    character database of the interpreter. *)
Variable unicode_isalnum : codepoint -> bool.

Definition isalnum (c : codepoint) : bool :=
  if c <? 128 then ascii_isalnum c else unicode_isalnum c.

(** [c.isalnum() or c in (' ', '-', '_')]. *)
Definition keeps (c : codepoint) : bool :=
  isalnum c || (c =? SPACE) || (c =? HYPHEN) || (c =? UNDERSCORE).

(** ["".join(c for c in name if ...).rstrip()] on a string. *)
Definition sanitize (name : pystr) : pystr := rstrip (filter keeps name).

(** The same expression on the value the loop passes: a name that is not
    a string cannot be iterated. *)
Definition safe_filename (person_name : cell) : result pystr :=
  match person_name with
  | Str s => Ok (sanitize s)
  | _ => Raise TypeError
  end.

End FileName.

(** [os.path.join(a, b)] (POSIX). *)
Definition path_join (a b : pystr) : pystr :=
  match b with
  | c :: _ => if c =? SLASH then b
              else match a with
                   | [] => b
                   | _ => if last a 0 =? SLASH then a ++ b
                          else a ++ [SLASH] ++ b
                   end
  | [] => match a with
          | [] => []
          | _ => if last a 0 =? SLASH then a else a ++ [SLASH]
          end
  end.

Local Close Scope N_scope.

(* ------------------------------------------------------------------ *)
(** ** Tables *)

(** A [DataFrame]: the column labels and the rows, each row with its index
    label.  Filtering keeps the labels, so a label identifies a row. *)
Record DataFrame : Type := {
  columns : list cell;
  rows : list (nat * list cell)
}.

(** A column of a frame: index labels and values. *)
Definition Series := list (nat * cell).

Fixpoint column_position (col : cell) (cols : list cell) : option nat :=
  match cols with
  | [] => None
  | c :: rest =>
      if cell_eq_dec col c then Some 0
      else option_map S (column_position col rest)
  end.

(** [df[col]]. *)
Definition getitem (df : DataFrame) (col : cell) : result Series :=
  match column_position col (columns df) with
  | None => Raise (KeyError col)
  | Some i => Ok (map (fun r => (fst r, nth i (snd r) NaN)) (rows df))
  end.

(** [series.dropna()]. *)
Definition dropna (s : Series) : Series :=
  filter (fun kv => negb (isna (snd kv))) s.

(** [series.unique()]: the values in order of first appearance. *)
Fixpoint unique_from (seen : list cell) (vals : list cell) : list cell :=
  match vals with
  | [] => []
  | v :: rest =>
      if in_dec cell_eq_dec v seen then unique_from seen rest
      else v :: unique_from (v :: seen) rest
  end.

Definition unique (s : Series) : list cell := unique_from [] (map snd s).

(** [series == name]: the boolean mask. *)
Definition eq_mask (s : Series) (name : cell) : list bool :=
  map (fun kv => cell_eqb (snd kv) name) s.

(** [df[mask]]. *)
Definition select (df : DataFrame) (mask : list bool) : DataFrame :=
  {| columns := columns df;
     rows := map snd (filter fst (combine mask (rows df))) |}.

(** [name_column in df.columns], the name being a string. *)
Definition has_column (df : DataFrame) (name_column : pystr) : bool :=
  if in_dec cell_eq_dec (Str name_column) (columns df) then true else false.

(** [df[name_column].dropna().unique()]. *)
Definition unique_names (df : DataFrame) (name_column : pystr)
  : result (list cell) :=
  s <- getitem df (Str name_column) ;;
  Ok (unique (dropna s)).

(** [df[df[name_column] == name]]. *)
Definition person_rows (df : DataFrame) (name_column : pystr) (name : cell)
  : result DataFrame :=
  s <- getitem df (Str name_column) ;;
  Ok (select df (eq_mask s name)).

(** A frame as the loader returns it: rows labelled 0, 1, 2, ... *)
Definition loaded (cols : list cell) (data : list (list cell)) : DataFrame :=
  {| columns := cols; rows := combine (seq 0 (length data)) data |}.

(* ------------------------------------------------------------------ *)
(** ** The renderer: [create_pdf_for_person] *)

(** What is handed to the PDF writer: the path, the two header paragraphs
    and the rows of the table. *)
Record document : Type := {
  pdf_filename : pystr;
  title_text : pystr;
  timestamp_text : pystr;
  table_data : list (list pystr)
}.

(** The output directory: the documents written so far, latest first. *)
Definition directory := list document.

(** The document stored under a path (a later write replaces an earlier
    one). *)
Definition lookup_file (dir : directory) (path : pystr) : option document :=
  find (fun d => pystr_eqb (pdf_filename d) path) dir.

Inductive layout : Type := Vertical | Horizontal.

(** The two paragraph styles of the header. *)
Inductive style : Type := PersianTitle | PersianNormal.

Section Renderer.

Variable BIDI_SUPPORT : bool.
Variable reshape_configured : pystr -> result pystr.
Variable reshape_default : pystr -> result pystr.
Variable get_display : pystr -> result pystr.
Variable unicode_isalnum : codepoint -> bool.

(** The two fixed labels of the header (non-ASCII literals of the
    source). *)
Variable title_label : pystr.
Variable date_label : pystr.

(** [datetime.now().strftime('%Y-%m-%d %H:%M')], read when the document
    is composed. *)
Variable now : directory -> pystr.

(** [Paragraph(text, style)]: the exception it raises, if any (the text is
    parsed as markup). *)
Variable paragraph_fault : style -> pystr -> option exn.

(** [Table(...)] and [doc.build(elements)]: the exception they raise, if
    any.  When they raise nothing the file is written. *)
Variable build_fault : directory -> document -> option exn.

Let fix_text := fix_persian_text BIDI_SUPPORT reshape_configured
                  reshape_default get_display.

(** [len(columns) > 10]. *)
Definition choose_layout (columns : list cell) : layout :=
  if Nat.ltb 10 (List.length columns) then Vertical else Horizontal.

(** [person_data[col].iloc[0] if not person_data[col].empty else ''],
    followed by the replacement of a missing value by ['-']. *)
Definition field_value (person_data : DataFrame) (col : cell)
  : result cell :=
  s <- getitem person_data col ;;
  let value := match s with
               | [] => Str []
               | (_, v) :: _ => v
               end in
  Ok (if isna value then Str (lit "-") else value).

(** The loop of the vertical layout. *)
Fixpoint vertical_rows (person_data : DataFrame) (cols : list cell)
  : result (list (list pystr)) :=
  match cols with
  | [] => Ok []
  | col :: rest =>
      value <- field_value person_data col ;;
      col_fixed <- fix_text (Some col) ;;
      value_fixed <- fix_text (Some (Str (py_str value))) ;;
      table <- vertical_rows person_data rest ;;
      Ok ([value_fixed; col_fixed] :: table)
  end.

(** The loop of the horizontal layout, appending to [headers] and
    [values]. *)
Fixpoint horizontal_loop (person_data : DataFrame) (cols : list cell)
  (headers values : list pystr) : result (list pystr * list pystr) :=
  match cols with
  | [] => Ok (headers, values)
  | col :: rest =>
      header <- fix_text (Some col) ;;
      value <- field_value person_data col ;;
      value_fixed <- fix_text (Some (Str (py_str value))) ;;
      horizontal_loop person_data rest
        (headers ++ [header]) (values ++ [value_fixed])
  end.

Definition make_table_data (person_data : DataFrame)
  (columns : list cell) : result (list (list pystr)) :=
  match choose_layout columns with
  | Vertical => vertical_rows person_data columns
  | Horizontal =>
      hv <- horizontal_loop person_data columns [] [] ;;
      Ok [rev (fst hv); rev (snd hv)]
  end.

(** [Paragraph(text, style)] as a step that raises or goes on. *)
Definition paragraph (st : style) (text : pystr) : result unit :=
  match paragraph_fault st text with
  | Some e => Raise e
  | None => Ok tt
  end.

Definition create_pdf_for_person (dir : directory)
  (person_data : DataFrame) (person_name : cell) (output_dir : pystr)
  (columns : list cell) : result (pystr * directory) :=
  safe <- safe_filename unicode_isalnum person_name ;;
  let path := path_join output_dir (safe ++ lit ".pdf") in
  title_persian <- fix_text (Some (Str title_label)) ;;
  name_persian <- fix_text (Some person_name) ;;
  let title := title_persian ++ lit ": " ++ name_persian in
  _ <- paragraph PersianTitle title ;;
  label <- fix_text (Some (Str date_label)) ;;
  let timestamp := label ++ lit ": " ++ now dir in
  _ <- paragraph PersianNormal timestamp ;;
  table <- make_table_data person_data columns ;;
  let doc := {| pdf_filename := path;
                title_text := title;
                timestamp_text := timestamp;
                table_data := table |} in
  match build_fault dir doc with
  | Some e => Raise e
  | None => Ok (path, doc :: dir)
  end.

(* ---------------------------------------------------------------- *)
(** ** The batch: [process_conversion] *)

Record batch : Type := {
  success_count : nat;
  error_count : nat;
  files : directory;
  (** the status lines shown, latest first: [(i + 1, total, name)] *)
  status : list (nat * nat * cell)
}.

Definition start (dir : directory) : batch :=
  {| success_count := 0; error_count := 0; files := dir; status := [] |}.

(** The status line at the head of a turn. *)
Definition announce (st : batch) (i total : nat) (name : cell) : batch :=
  {| success_count := success_count st;
     error_count := error_count st;
     files := files st;
     status := (i + 1, total, name) :: status st |}.

(** The rest of a turn of [for i, name in enumerate(unique_names)]: the
    filter, then the guarded call of the renderer. *)
Definition process_person (df : DataFrame) (name_column output_dir : pystr)
  (st : batch) (name : cell) : result batch :=
  person_data <- person_rows df name_column name ;;
  Ok (try_result
        (create_pdf_for_person (files st) person_data name output_dir
           (columns df))
        (fun written =>
           {| success_count := success_count st + 1;
              error_count := error_count st;
              files := snd written;
              status := status st |})
        (fun _ =>
           {| success_count := success_count st;
              error_count := error_count st + 1;
              files := files st;
              status := status st |})).

(** The loop; an exception outside the inner [try] ends it and is
    returned with the state reached. *)
Fixpoint process_people (df : DataFrame) (name_column output_dir : pystr)
  (total : nat) (st : batch) (i : nat) (names : list cell)
  : batch * option exn :=
  match names with
  | [] => (st, None)
  | name :: rest =>
      let st1 := announce st i total name in
      match process_person df name_column output_dir st1 name with
      | Ok st2 =>
          process_people df name_column output_dir total st2 (S i) rest
      | Raise e => (st1, Some e)
      end
  end.

Inductive outcome : Type :=
  | ErrorDialog (message : pystr)   (* the column is missing *)
  | NoDialog (e : exn)              (* the queued dialog callback raised *)
  | Failed (e : exn)                (* the outer [except] *)
  | Completed.

(** The items of a [join], which must all be strings. *)
Fixpoint str_items (items : list cell) : result (list pystr) :=
  match items with
  | [] => Ok []
  | Str s :: rest => strings <- str_items rest ;; Ok (s :: strings)
  | _ :: _ => Raise TypeError
  end.

(** [sep.join(items)] on a sequence of labels. *)
Definition join_items (sep : pystr) (items : list cell) : result pystr :=
  strings <- str_items items ;;
  Ok (join sep strings).

(** The text of the missing-column dialog, evaluated when the queued
    callback runs. *)
Definition column_not_found (name_column : pystr) (cols : list cell)
  : result pystr :=
  listing <- join_items (lit ", ") cols ;;
  Ok (lit "Column '" ++ name_column ++ lit "' not found."
        ++ [10%N] ++ lit "Available columns: " ++ listing).

(** [process_conversion]: [read] is what [read_excel_file] returned.  The
    result is how the run ended and the state of the loop at that
    point. *)
Definition process_conversion (read : result DataFrame)
  (name_column output_dir : pystr) (dir : directory) : outcome * batch :=
  match read with
  | Raise e => (Failed e, start dir)
  | Ok df =>
      if negb (has_column df name_column)
      then (match column_not_found name_column (columns df) with
            | Ok message => ErrorDialog message
            | Raise e => NoDialog e
            end,
            start dir)
      else
        match unique_names df name_column with
        | Raise e => (Failed e, start dir)
        | Ok names =>
            match process_people df name_column output_dir
                    (List.length names) (start dir) 0 names with
            | (st, None) => (Completed, st)
            | (st, Some e) => (Failed e, st)
            end
        end
  end.

End Renderer.

(* ------------------------------------------------------------------ *)
(** * Notions used to state the properties *)

(** ** Texts *)

Definition starts_with_whitespace (s : pystr) : bool :=
  match s with
  | [] => false
  | c :: _ => isspace c
  end.

Definition ends_with_whitespace (s : pystr) : bool :=
  match s with
  | [] => false
  | _ :: _ => isspace (last s 0%N)
  end.

(** Every character of the name is dropped by the filter or is
    whitespace. *)
Definition degenerate (unicode_isalnum : codepoint -> bool) (name : pystr)
  : Prop :=
  Forall (fun c => keeps unicode_isalnum c = false \/ isspace c = true) name.

(** [sub] occurs in [s]. *)
Definition contains (s sub : pystr) : Prop :=
  exists before after, s = before ++ sub ++ after.

(** ** Tables and groups *)

(** The cell of the first row of a group under a column (the empty string
    for a group without rows). *)
Definition first_cell (pd : DataFrame) (col : cell) : cell :=
  match column_position col (columns pd), rows pd with
  | Some i, (_, r) :: _ => nth i r NaN
  | _, _ => Str []
  end.

(** The text of a cell before shaping: a dash for a missing value. *)
Definition display (v : cell) : pystr :=
  if isna v then lit "-" else py_str v.

(** The key cell of a row. *)
Definition key_cell (df : DataFrame) (name_column : pystr)
  (row : nat * list cell) : cell :=
  match column_position (Str name_column) (columns df) with
  | Some i => nth i (snd row) NaN
  | None => NaN
  end.

(** The rows of the group of a key value. *)
Definition group_rows (df : DataFrame) (name_column : pystr) (name : cell)
  : list (nat * list cell) :=
  filter (fun row => cell_eqb (key_cell df name_column row) name) (rows df).

(** The rows whose key is present. *)
Definition keyed_rows (df : DataFrame) (name_column : pystr)
  : list (nat * list cell) :=
  filter (fun row => negb (isna (key_cell df name_column row))) (rows df).

(** The frame the loop filters out for a key value. *)
Definition frame_of (df : DataFrame) (name_column : pystr) (name : cell)
  : DataFrame :=
  {| columns := columns df; rows := group_rows df name_column name |}.

(** The groups the loop goes through: each key value with its frame. *)
Fixpoint frames_of (df : DataFrame) (name_column : pystr)
  (names : list cell) : result (list (cell * DataFrame)) :=
  match names with
  | [] => Ok []
  | name :: rest =>
      person_data <- person_rows df name_column name ;;
      others <- frames_of df name_column rest ;;
      Ok ((name, person_data) :: others)
  end.

Definition groups (df : DataFrame) (name_column : pystr)
  : result (list (cell * DataFrame)) :=
  names <- unique_names df name_column ;;
  frames_of df name_column names.

(** ** The missing-column message *)

(** The items of a text in which they are separated by [", "]
    (what [text.split(", ")] returns). *)
Fixpoint items_from (current : pystr) (text : pystr) : list pystr :=
  match text with
  | [] => [current]
  | c :: rest =>
      match rest with
      | [] => [current ++ [c]]
      | d :: rest' =>
          if ((c =? 44) && (d =? 32))%N
          then current :: items_from [] rest'
          else items_from (current ++ [c]) rest
      end
  end.

(** The fixed text in front of the list of columns. *)
Definition dialog_head (name_column : pystr) : pystr :=
  lit "Column '" ++ name_column ++ lit "' not found."
    ++ [10%N] ++ lit "Available columns: ".

(** The columns a message lists: the items after the fixed text. *)
Definition listed_columns (name_column message : pystr) : list pystr :=
  items_from [] (skipn (List.length (dialog_head name_column)) message).

(** The name does not contain the separator. *)
Definition separator_free (name : pystr) : Prop :=
  ~ contains name (lit ", ").

(** ** Documents and turns of the loop *)

Section Derived.

Variable BIDI_SUPPORT : bool.
Variables reshape_configured reshape_default get_display
  : pystr -> result pystr.
Variable unicode_isalnum : codepoint -> bool.
Variables title_label date_label : pystr.
Variable now : directory -> pystr.
Variable paragraph_fault : style -> pystr -> option exn.
Variable build_fault : directory -> document -> option exn.

Let shaped (s : pystr) : pystr :=
  shape BIDI_SUPPORT reshape_configured reshape_default get_display
    (Some (Str s)).

(** The cell the layouts emit for the value of a column, and the cell
    they emit for its header (the shaped label). *)
Definition value_cell (pd : DataFrame) (col : cell) : pystr :=
  shaped (display (first_cell pd col)).
Definition header_cell (col : cell) : pystr :=
  shape BIDI_SUPPORT reshape_configured reshape_default get_display
    (Some col).

(** The texts of the two header paragraphs. *)
Definition title_for (name : pystr) : pystr :=
  shaped title_label ++ lit ": " ++ shaped name.
Definition timestamp_for (dir : directory) : pystr :=
  shaped date_label ++ lit ": " ++ now dir.

(** The document composed for a string name, once the table is known. *)
Definition composed (dir : directory) (name output_dir : pystr)
  (table : list (list pystr)) : document :=
  {| pdf_filename :=
       path_join output_dir (sanitize unicode_isalnum name ++ lit ".pdf");
     title_text := shaped title_label ++ lit ": " ++ shaped name;
     timestamp_text := shaped date_label ++ lit ": " ++ now dir;
     table_data := table |}.

(** The state after the guarded call of the renderer for a key value. *)
Definition counted (df : DataFrame) (name_column output_dir : pystr)
  (st : batch) (name : cell) : batch :=
  match create_pdf_for_person BIDI_SUPPORT reshape_configured
          reshape_default get_display unicode_isalnum title_label
          date_label now paragraph_fault build_fault (files st)
          (frame_of df name_column name) name output_dir (columns df) with
  | Ok (_, dir') =>
      {| success_count := success_count st + 1;
         error_count := error_count st;
         files := dir';
         status := status st |}
  | Raise _ =>
      {| success_count := success_count st;
         error_count := error_count st + 1;
         files := files st;
         status := status st |}
  end.

End Derived.

(* ------------------------------------------------------------------ *)
(** ** Sample data *)

Module Sample.

(** Library stand-ins: one that leaves the text alone, one that always
    raises, one that reverses (a visible effect of shaping). *)
Definition unchanged (s : pystr) : result pystr := Ok s.
Definition broken (s : pystr) : result pystr := Raise (LibraryError 1).
Definition mirrored (s : pystr) : result pystr := Ok (rev s).

Definition ascii_only (c : codepoint) : bool := false.
Definition clock (dir : directory) : pystr := lit "2024-01-01 09:30".
Definition no_fault (dir : directory) (d : document) : option exn := None.

(** A paragraph parser that accepts every text, and one that rejects
    every text with a [<] in it. *)
Definition no_markup (st : style) (text : pystr) : option exn := None.
Definition markup_fault (st : style) (text : pystr) : option exn :=
  if existsb (N.eqb 60) text then Some ValueError else None.

(** The labels of a header row of strings. *)
Definition header (names : list pystr) : list cell := map Str names.

(** A writer that fails on one path. *)
Definition fault_on (path : pystr) (dir : directory) (d : document)
  : option exn :=
  if pystr_eqb (pdf_filename d) path then Some (LibraryError 2) else None.

(** The table of the specification's end-to-end scenario. *)
Definition people : DataFrame :=
  loaded (header [lit "name"; lit "age"; lit "city"])
    [ [Str (lit "Alice"); Int 30; Str (lit "NY")];
      [Str (lit "Bob"); Int 25; Str (lit "LA")];
      [Str (lit "Alice"); Int 31; Str (lit "SF")] ].

(** The same with a row whose key is missing. *)
Definition people_with_gap : DataFrame :=
  loaded (header [lit "name"; lit "age"; lit "city"])
    [ [Str (lit "Alice"); Int 30; Str (lit "NY")];
      [NaN; Int 40; Str (lit "SD")];
      [Str (lit "Bob"); Int 25; NaN];
      [Str (lit "Alice"); Int 31; Str (lit "SF")] ].

Definition letters (n : nat) : list cell :=
  map (fun k => Str [N.of_nat (97 + k)]) (seq 0 n).

(** A table whose header row holds two years as numbers. *)
Definition yearly : DataFrame :=
  loaded [Str (lit "name"); Int 2020; Int 2021]
    [ [Str (lit "Alice"); Int 3; Int 5];
      [Str (lit "Bob"); Int 4; Int 6] ].

End Sample.

Module Run.

Import Sample.

(** The program with shaping disabled and a writer that never fails. *)
Definition table_of := make_table_data false unchanged unchanged unchanged.
Definition render :=
  create_pdf_for_person false unchanged unchanged unchanged ascii_only
    (lit "Report") (lit "Generated") clock no_markup no_fault.
Definition convert :=
  process_conversion false unchanged unchanged unchanged ascii_only
    (lit "Report") (lit "Generated") clock no_markup no_fault.

(** The same with a writer that fails on Alice's document. *)
Definition render_faulty :=
  create_pdf_for_person false unchanged unchanged unchanged ascii_only
    (lit "Report") (lit "Generated") clock no_markup
    (fault_on (lit "out/Alice.pdf")).
Definition loop_faulty :=
  process_people false unchanged unchanged unchanged ascii_only
    (lit "Report") (lit "Generated") clock no_markup
    (fault_on (lit "out/Alice.pdf")).
Definition convert_faulty :=
  process_conversion false unchanged unchanged unchanged ascii_only
    (lit "Report") (lit "Generated") clock no_markup
    (fault_on (lit "out/Alice.pdf")).

(** The same with a paragraph parser that rejects [<]. *)
Definition render_strict :=
  create_pdf_for_person false unchanged unchanged unchanged ascii_only
    (lit "Report") (lit "Generated") clock markup_fault no_fault.
Definition convert_strict :=
  process_conversion false unchanged unchanged unchanged ascii_only
    (lit "Report") (lit "Generated") clock markup_fault no_fault.

(** A one-row table with [n] columns a, b, c, ... and values 0, 1, 2, ... *)
Definition wide (n : nat) : DataFrame :=
  loaded (letters n) [map (fun k => Int (Z.of_nat k)) (seq 0 n)].

End Run.

(* ------------------------------------------------------------------ *)
(** * The rest of the program *)

(** The functions around the pipeline: the font search, the loader and the
    methods of the window.  The file system, the font registry and pandas'
    reader are [Variable]s; an exception of the reader is kept as its text;
    the window is the fields and the widget states its methods read and
    write, the texts of its labels being left out. *)

(** ** String helpers of the remaining functions *)

(** [s[start:]] for an integer [start]: a negative start counts from the
    end, and both are clipped to the string. *)
Definition slice_from (start : Z) (s : pystr) : pystr :=
  let n := Z.of_nat (List.length s) in
  let i := if (start <? 0)%Z then Z.max (n + start) 0 else Z.min start n in
  skipn (Z.to_nat i) s.

(** [c in chars]. *)
Definition char_in (chars : list codepoint) (c : codepoint) : bool :=
  existsb (N.eqb c) chars.

(** [s.lstrip(chars)], [s.rstrip(chars)] and [s.strip(chars)]. *)
Fixpoint lstrip_chars (chars : list codepoint) (s : pystr) : pystr :=
  match s with
  | [] => []
  | c :: s' => if char_in chars c then lstrip_chars chars s' else s
  end.

Fixpoint rstrip_chars (chars : list codepoint) (s : pystr) : pystr :=
  match s with
  | [] => []
  | c :: s' =>
      match rstrip_chars chars s' with
      | [] => if char_in chars c then [] else [c]
      | r => c :: r
      end
  end.

Definition strip_chars (chars : list codepoint) (s : pystr) : pystr :=
  rstrip_chars chars (lstrip_chars chars s).

(** No character of the set at either end of [s]. *)
Definition clean_ends (chars : list codepoint) (s : pystr) : Prop :=
  match s with
  | [] => True
  | c :: _ => char_in chars c = false /\ char_in chars (last s 0%N) = false
  end.

(** [s.endswith(suffix)] and [s.endswith((suffix1, suffix2, ...))]. *)
Definition endswith (s suffix : pystr) : bool :=
  (List.length suffix <=? List.length s)%nat
  && pystr_eqb (skipn (List.length s - List.length suffix) s) suffix.

Definition endswith_any (s : pystr) (suffixes : list pystr) : bool :=
  existsb (endswith s) suffixes.

(* ------------------------------------------------------------------ *)
(** ** The font: [setup_persian_font] *)

Definition font_names : list pystr :=
  [lit "Vazir.ttf"; lit "Vazir-Regular.ttf"; lit "Vazir-Medium.ttf";
   lit "Vazir-Bold.ttf"; lit "Sahel.ttf"; lit "B-Nazanin.ttf";
   lit "IRANSans.ttf"].

Section Fonts.

(** [os.path.expanduser('~/.fonts/')]. *)
Variable home_fonts : pystr.

(** [os.path.exists], and whether
    [pdfmetrics.registerFont(TTFont('Persian', font_file))] returns
    ([true]) or raises ([false]). *)
Variable path_exists : pystr -> bool.
Variable register_font : pystr -> bool.

Definition font_paths : list pystr :=
  [ []; lit "fonts/"; lit "/usr/share/fonts/truetype/";
    lit "C:/Windows/Fonts/"; home_fonts; lit "/System/Library/Fonts/" ].

(** The body of the [try]: the file exists and is registered. *)
Definition font_loaded (font_file : pystr) : bool :=
  if path_exists font_file then register_font font_file else false.

(** The inner loop [for path in font_paths]: the font file registered, if
    any. *)
Fixpoint probe_paths (font_name : pystr) (paths : list pystr)
  : option pystr :=
  match paths with
  | [] => None
  | path :: rest =>
      let font_file := path_join path font_name in
      if font_loaded font_file then Some font_file
      else probe_paths font_name rest
  end.

(** The outer loop [for font_name in font_names]. *)
Fixpoint probe_fonts (names paths : list pystr) : option pystr :=
  match names with
  | [] => None
  | font_name :: rest =>
      match probe_paths font_name paths with
      | Some font_file => Some font_file
      | None => probe_fonts rest paths
      end
  end.

(** [setup_persian_font()]: the font name returned and the file
    registered under it. *)
Definition setup_persian_font : pystr * option pystr :=
  match probe_fonts font_names font_paths with
  | Some font_file => (lit "Persian", Some font_file)
  | None => (lit "Helvetica", None)
  end.

(** The files tried, in the order the loops reach them. *)
Definition font_candidates (names paths : list pystr) : list pystr :=
  flat_map (fun font_name =>
              map (fun path => path_join path font_name) paths) names.

End Fonts.

(* ------------------------------------------------------------------ *)
(** ** The loader: [read_excel_file] *)

Inductive engine : Type := openpyxl | xlrd | default_engine.

(** The branch [read_excel_file] takes for a path. *)
Definition engine_for (file_path : pystr) : engine :=
  if endswith_any file_path [lit ".xlsx"; lit ".xlsm"; lit ".xlsb"]
  then openpyxl
  else if endswith file_path (lit ".xls") then xlrd
  else default_engine.

Section Loader.

(** [pd.read_excel(file_path, engine=...)]: the frame, or the text of the
    exception it raised. *)
Variable read_excel : pystr -> engine -> pystr + DataFrame.

(** [read_excel_file]: the frame, or the text of the exception raised. *)
Definition read_excel_file (file_path : pystr) : pystr + DataFrame :=
  match read_excel file_path (engine_for file_path) with
  | inr df => inr df
  | inl e => inl (lit "Error reading Excel file: " ++ e)
  end.

End Loader.

(* ------------------------------------------------------------------ *)
(** ** After the loop *)

(** [if success_count > 0:] the output directory is opened. *)
Definition opens_output_dir (st : batch) : bool :=
  Nat.ltb 0 (success_count st).

(* ------------------------------------------------------------------ *)
(** ** The window: [ExcelToPDFConverter] *)

Module ExcelToPDFConverter.

(** [shorten_path(path, max_length)]. *)
Definition shorten_path (path : pystr) (max_length : Z) : pystr :=
  if (Z.of_nat (List.length path) <=? max_length)%Z then path
  else lit "..." ++ slice_from (- (max_length - 3)) path.

(** The fields the methods read and write, the state of the two widgets
    they switch, the text of the output label, the error boxes shown and
    the number of conversion threads started and not yet finished.  The
    texts of the other labels are left out. *)
Record window : Type := {
  file_path : option pystr;
  output_dir : pystr;
  convert_btn : bool;           (* state 'normal' *)
  progress : bool;              (* started *)
  output_label : pystr;
  errors : list pystr;
  running : nat
}.

(** [__init__] and [setup_ui], in the working directory [cwd]. *)
Definition init (cwd : pystr) : window :=
  let dir := path_join cwd (lit "output_pdfs") in
  {| file_path := None;
     output_dir := dir;
     convert_btn := false;
     progress := false;
     output_label := shorten_path dir 40;
     errors := [];
     running := 0 |}.

Definition load_file (w : window) (path : pystr) : window :=
  {| file_path := Some path;
     output_dir := output_dir w;
     convert_btn := true;
     progress := progress w;
     output_label := output_label w;
     errors := errors w;
     running := running w |}.

Definition show_error (w : window) (message : pystr) : window :=
  {| file_path := file_path w;
     output_dir := output_dir w;
     convert_btn := convert_btn w;
     progress := progress w;
     output_label := output_label w;
     errors := message :: errors w;
     running := running w |}.

Definition excel_suffixes : list pystr :=
  [lit ".xls"; lit ".xlsx"; lit ".xlsm"; lit ".xlsb"].

(** [drop_file(event)], [data] being [event.data]. *)
Definition drop_file (w : window) (data : pystr) : window :=
  let path := strip_chars [123%N; 125%N] data in
  if endswith_any path excel_suffixes then load_file w path
  else show_error w
         (lit "Please drop an Excel file (.xls, .xlsx, .xlsm, .xlsb)").

(** [browse_file()], [chosen] being what the file dialog returned (empty
    when it was cancelled). *)
Definition browse_file (w : window) (chosen : pystr) : window :=
  match chosen with
  | [] => w
  | _ :: _ => load_file w chosen
  end.

(** [change_output_dir()], [directory] being what the dialog returned. *)
Definition change_output_dir (w : window) (directory : pystr) : window :=
  match directory with
  | [] => w
  | _ :: _ =>
      {| file_path := file_path w;
         output_dir := directory;
         convert_btn := convert_btn w;
         progress := progress w;
         output_label := shorten_path directory 40;
         errors := errors w;
         running := running w |}
  end.

(** [not self.file_path]. *)
Definition no_file (w : window) : bool :=
  match file_path w with
  | None | Some [] => true
  | Some (_ :: _) => false
  end.

(** [convert()]: the guard, then the thread is started. *)
Definition convert (w : window) : window :=
  if no_file w then show_error w (lit "Please select an Excel file first")
  else
    {| file_path := file_path w;
       output_dir := output_dir w;
       convert_btn := false;
       progress := true;
       output_label := output_label w;
       errors := errors w;
       running := S (running w) |}.

(** The [finally] of [process_conversion], run when a thread ends. *)
Definition finished (w : window) : window :=
  {| file_path := file_path w;
     output_dir := output_dir w;
     convert_btn := true;
     progress := false;
     output_label := output_label w;
     errors := errors w;
     running := pred (running w) |}.

(** What the user and the threads can make happen.  A click on the Convert
    button reaches [convert] only while the button is enabled, and a thread
    can only end while one is running. *)
Inductive event : Type :=
  | Drop (data : pystr)
  | Browse (chosen : pystr)
  | ChangeOutputDir (directory : pystr)
  | ClickConvert
  | ThreadEnds.

Definition handle (w : window) (e : event) : window :=
  match e with
  | Drop data => drop_file w data
  | Browse chosen => browse_file w chosen
  | ChangeOutputDir directory => change_output_dir w directory
  | ClickConvert => if convert_btn w then convert w else w
  | ThreadEnds => if Nat.ltb 0 (running w) then finished w else w
  end.

Definition run (w : window) (events : list event) : window :=
  fold_left handle events w.

(** What every state the window can reach satisfies: behind an enabled
    Convert button or a running conversion there is a selected file; the
    output label shows the shortened output directory; the only error box
    shown is the one of a rejected drop. *)
Definition sound (w : window) : Prop :=
  (convert_btn w = true \/ 0 < running w -> no_file w = false)
  /\ output_label w = shorten_path (output_dir w) 40
  /\ Forall (fun message =>
               message
               = lit "Please drop an Excel file (.xls, .xlsx, .xlsm, .xlsb)")
       (errors w).

End ExcelToPDFConverter.

(* ------------------------------------------------------------------ *)
(** * Properties *)

(** ** The text shaper *)

Section TextShaperFacts.

Variable BIDI_SUPPORT : bool.
Variables reshape_configured reshape_default get_display
  : pystr -> result pystr.

Let fix_text := fix_persian_text BIDI_SUPPORT reshape_configured
                  reshape_default get_display.
Let shaped := shape BIDI_SUPPORT reshape_configured
                  reshape_default get_display.

Lemma fix_persian_text_returns (text : option cell) :
  fix_text text = Ok (shaped text).
Proof.
  unfold shaped, shape, fix_text.
  destruct text as [v|]; simpl; [|reflexivity].
  destruct BIDI_SUPPORT; simpl; [|reflexivity].
  destruct (reshape_configured (py_str v)) as [r|e]; simpl.
  - destruct (get_display r); simpl; try reflexivity.
    destruct (reshape_default (py_str v)) as [r'|]; simpl; try reflexivity.
    destruct (get_display r'); reflexivity.
  - destruct (reshape_default (py_str v)) as [r'|]; simpl; try reflexivity.
    destruct (get_display r'); reflexivity.
Qed.

End TextShaperFacts.

(** C7.  The text shaper never raises: whatever the capability flag and
    whatever the reshaping and bidi libraries do (return or raise) on
    whatever text, [fix_persian_text] returns a string; on [None] that
    string is empty. *)
Theorem fix_persian_text_never_raises :
  forall (BIDI_SUPPORT : bool)
         (reshape_configured reshape_default get_display
            : pystr -> result pystr),
    fix_persian_text BIDI_SUPPORT reshape_configured reshape_default
      get_display None = Ok []
    /\ forall text : option cell,
         exists s : pystr,
           fix_persian_text BIDI_SUPPORT reshape_configured reshape_default
             get_display text = Ok s.
Proof.
  intros B rc rd gd. split; [reflexivity|].
  intro text. eexists. apply fix_persian_text_returns.
Qed.

(** C8.  With the capability flag false the text shaper is the identity on
    strings, hence idempotent: shape(shape(x)) = shape(x) = x. *)
Theorem fix_persian_text_identity_when_disabled :
  forall (reshape_configured reshape_default get_display
            : pystr -> result pystr) (x : pystr),
    let fix_text := fix_persian_text false reshape_configured
                      reshape_default get_display in
    fix_text (Some (Str x)) = Ok x
    /\ (y <- fix_text (Some (Str x)) ;; fix_text (Some (Str y)))
       = fix_text (Some (Str x)).
Proof.
  intros rc rd gd x. simpl. split; reflexivity.
Qed.

(* ------------------------------------------------------------------ *)
(** ** File names *)

Lemma rstrip_cons (c : codepoint) (s : pystr) :
  rstrip (c :: s) =
  match rstrip s with
  | [] => if isspace c then [] else [c]
  | _ :: _ => c :: rstrip s
  end.
Proof. simpl. destruct (rstrip s); reflexivity. Qed.

Lemma rstrip_is_prefix (s : pystr) :
  exists dropped, s = rstrip s ++ dropped /\ Forall (fun c => isspace c = true) dropped.
Proof.
  induction s as [|c s [dropped [IH Hsp]]].
  - exists []. split; [reflexivity | constructor].
  - rewrite rstrip_cons. destruct (rstrip s) as [|c' r] eqn:E.
    + destruct (isspace c) eqn:Hc.
      * exists (c :: dropped). simpl in IH. subst s. split; [reflexivity|].
        constructor; assumption.
      * exists dropped. simpl in *. subst s. split; [reflexivity | assumption].
    + exists dropped. split; [|assumption]. simpl. f_equal. exact IH.
Qed.

Lemma rstrip_Forall (P : codepoint -> Prop) (s : pystr) :
  Forall P s -> Forall P (rstrip s).
Proof.
  intro H. destruct (rstrip_is_prefix s) as [dropped [E _]].
  rewrite E in H. apply Forall_app in H. tauto.
Qed.

Lemma rstrip_no_trailing_whitespace (s : pystr) :
  ends_with_whitespace (rstrip s) = false.
Proof.
  induction s as [|c s IH]; [reflexivity|].
  rewrite rstrip_cons. destruct (rstrip s) as [|c' r] eqn:E.
  - destruct (isspace c) eqn:Hc; simpl; [reflexivity | exact Hc].
  - exact IH.
Qed.

Lemma rstrip_whitespace_only (s : pystr) :
  Forall (fun c => isspace c = true) s -> rstrip s = [].
Proof.
  induction 1 as [|c s Hc _ IH]; [reflexivity|].
  rewrite rstrip_cons, IH, Hc. reflexivity.
Qed.

Section FileNameFacts.

Variable unicode_isalnum : codepoint -> bool.

Lemma keeps_spec (c : codepoint) :
  keeps unicode_isalnum c = true <->
  isalnum unicode_isalnum c = true
  \/ c = SPACE \/ c = HYPHEN \/ c = UNDERSCORE.
Proof.
  unfold keeps. rewrite !orb_true_iff, !N.eqb_eq. tauto.
Qed.

Lemma sanitize_only_kept (name : pystr) :
  Forall (fun c => keeps unicode_isalnum c = true)
    (sanitize unicode_isalnum name).
Proof.
  unfold sanitize. apply rstrip_Forall, Forall_forall.
  intros c Hc. apply filter_In in Hc. tauto.
Qed.

(** A name whose every character is either dropped by the filter or is
    whitespace has the empty file name. *)
Lemma sanitize_degenerate (name : pystr) :
  Forall (fun c => keeps unicode_isalnum c = false \/ isspace c = true) name ->
  sanitize unicode_isalnum name = [].
Proof.
  intro H. unfold sanitize. apply rstrip_whitespace_only, Forall_forall.
  intros c Hc. apply filter_In in Hc. destruct Hc as [Hin Hk].
  rewrite Forall_forall in H. destruct (H c Hin) as [Hd|Hs]; [congruence | exact Hs].
Qed.

End FileNameFacts.

(** C2, as the specification states it, fails at the name [" a"]: the
    leading space passes the filter, and [rstrip] only removes trailing
    whitespace, so the file name starts with whitespace (whatever the
    Unicode tables say about non-ASCII characters). *)
Lemma sanitize_keeps_leading_space :
  (forall unicode_isalnum,
      safe_filename unicode_isalnum (Str (lit " a")) = Ok (lit " a"))
  /\ starts_with_whitespace (lit " a") = true.
Proof. split; [intro u|]; reflexivity. Qed.

(** C2, amended.  Sanitisation is a total function of the entity name
    string; its result contains only alphanumeric characters, spaces,
    hyphens and underscores, and does not end with whitespace. *)
Theorem sanitize_sound :
  forall (unicode_isalnum : codepoint -> bool) (name : pystr),
    safe_filename unicode_isalnum (Str name)
      = Ok (sanitize unicode_isalnum name)
    /\ Forall (fun c => isalnum unicode_isalnum c = true
                        \/ c = SPACE \/ c = HYPHEN \/ c = UNDERSCORE)
         (sanitize unicode_isalnum name)
    /\ ends_with_whitespace (sanitize unicode_isalnum name) = false.
Proof.
  intros u name. split; [reflexivity|]. split.
  - eapply Forall_impl; [|apply sanitize_only_kept].
    intros c Hc. apply keeps_spec in Hc. exact Hc.
  - apply rstrip_no_trailing_whitespace.
Qed.

(* ------------------------------------------------------------------ *)
(** ** The renderer *)

Section RendererFacts.

Variable BIDI_SUPPORT : bool.
Variables reshape_configured reshape_default get_display
  : pystr -> result pystr.
Variable unicode_isalnum : codepoint -> bool.
Variables title_label date_label : pystr.
Variable now : directory -> pystr.
Variable paragraph_fault : style -> pystr -> option exn.
Variable build_fault : directory -> document -> option exn.

Let shaped := shape BIDI_SUPPORT reshape_configured reshape_default
                get_display.
Let table_of := make_table_data BIDI_SUPPORT reshape_configured
                  reshape_default get_display.
Let render := create_pdf_for_person BIDI_SUPPORT reshape_configured
                reshape_default get_display unicode_isalnum
                title_label date_label now paragraph_fault build_fault.
Let composed_doc := composed BIDI_SUPPORT reshape_configured
                      reshape_default get_display unicode_isalnum
                      title_label date_label now.
Let title_of := title_for BIDI_SUPPORT reshape_configured
                  reshape_default get_display title_label.
Let timestamp_of := timestamp_for BIDI_SUPPORT reshape_configured
                      reshape_default get_display date_label now.

Lemma create_pdf_for_person_unfold (dir : directory) (pd : DataFrame)
  (person_name : cell) (output_dir : pystr) (cols : list cell) :
  render dir pd person_name output_dir cols =
  match person_name with
  | Str name =>
      match paragraph_fault PersianTitle (title_of name) with
      | Some e => Raise e
      | None =>
          match paragraph_fault PersianNormal (timestamp_of dir) with
          | Some e => Raise e
          | None =>
              match table_of pd cols with
              | Ok table =>
                  let doc := composed_doc dir name output_dir table in
                  match build_fault dir doc with
                  | Some e => Raise e
                  | None => Ok (pdf_filename doc, doc :: dir)
                  end
              | Raise e => Raise e
              end
          end
      end
  | _ => Raise TypeError
  end.
Proof.
  unfold render, create_pdf_for_person, table_of, composed_doc, composed,
    title_of, title_for, timestamp_of, timestamp_for, paragraph, shaped.
  destruct person_name as [|name|z]; try reflexivity.
  unfold safe_filename, bind at 1.
  rewrite !fix_persian_text_returns. unfold bind at 1 2.
  destruct (paragraph_fault PersianTitle _); [reflexivity|].
  unfold bind at 1 2.
  destruct (paragraph_fault PersianNormal _); [reflexivity|].
  unfold bind at 1.
  destruct (make_table_data _ _ _ _ pd cols); reflexivity.
Qed.

(** A name that is not a string makes the renderer raise before anything
    is written. *)
Lemma create_pdf_for_person_not_a_string (dir : directory)
  (pd : DataFrame) (z : Z) (output_dir : pystr) (cols : list cell) :
  render dir pd (Int z) output_dir cols = Raise TypeError.
Proof. apply create_pdf_for_person_unfold. Qed.

Lemma create_pdf_for_person_writes (dir dir' : directory)
  (pd : DataFrame) (person_name : cell) (output_dir path : pystr)
  (cols : list cell) :
  render dir pd person_name output_dir cols = Ok (path, dir') ->
  exists doc, dir' = doc :: dir /\ pdf_filename doc = path.
Proof.
  rewrite create_pdf_for_person_unfold.
  destruct person_name as [|name|z]; try discriminate.
  destruct (paragraph_fault PersianTitle _); try discriminate.
  destruct (paragraph_fault PersianNormal _); try discriminate.
  destruct (table_of pd cols) as [table|]; try discriminate. simpl.
  destruct (build_fault _ _); try discriminate.
  intro H. injection H as <- <-. eexists. split; reflexivity.
Qed.

End RendererFacts.

Lemma path_join_dot_pdf (output_dir : pystr) :
  output_dir <> [] -> last output_dir 0%N <> SLASH ->
  path_join output_dir (lit ".pdf") = output_dir ++ lit "/.pdf".
Proof.
  intros Hne Hlast. unfold path_join. simpl.
  destruct output_dir as [|c rest]; [congruence|].
  destruct (N.eqb_spec (last (c :: rest) 0%N) SLASH); [contradiction|].
  reflexivity.
Qed.

(** C10.  There are distinct non-empty names (["?!"] and two spaces, among
    others) all of whose characters are dropped by the filter or stripped as
    trailing whitespace; for every such name the sanitised file name is
    empty, the renderer composes the document for the path
    [output_dir/.pdf] and, when the table is built and neither the two
    header paragraphs nor the writer raise, writes it there; so any two such
    names are written to the same file. *)
Theorem empty_file_name_collision :
  forall (BIDI_SUPPORT : bool)
         (reshape_configured reshape_default get_display
            : pystr -> result pystr)
         (unicode_isalnum : codepoint -> bool)
         (title_label date_label : pystr) (now : directory -> pystr)
         (paragraph_fault : style -> pystr -> option exn)
         (build_fault : directory -> document -> option exn),
    let render := create_pdf_for_person BIDI_SUPPORT reshape_configured
                    reshape_default get_display unicode_isalnum
                    title_label date_label now paragraph_fault build_fault in
    let table_of := make_table_data BIDI_SUPPORT reshape_configured
                    reshape_default get_display in
    (lit "?!" <> [] /\ lit "  " <> [] /\ lit "?!" <> lit "  "
     /\ degenerate unicode_isalnum (lit "?!")
     /\ degenerate unicode_isalnum (lit "  "))
    /\ forall name : pystr,
         degenerate unicode_isalnum name ->
         safe_filename unicode_isalnum (Str name) = Ok []
         /\ forall (output_dir : pystr),
              let target := path_join output_dir (lit ".pdf") in
              (output_dir <> [] -> last output_dir 0%N <> SLASH ->
               target = output_dir ++ lit "/.pdf")
              /\ forall (dir : directory) (pd : DataFrame)
                        (cols : list cell) (table : list (list pystr)),
                   table_of pd cols = Ok table ->
                   let doc := composed BIDI_SUPPORT reshape_configured
                                reshape_default get_display unicode_isalnum
                                title_label date_label now dir name
                                output_dir table in
                   pdf_filename doc = target
                   /\ (paragraph_fault PersianTitle (title_text doc) = None ->
                       paragraph_fault PersianNormal (timestamp_text doc)
                       = None ->
                       build_fault dir doc = None ->
                       render dir pd (Str name) output_dir cols
                         = Ok (target, doc :: dir)
                       /\ lookup_file (doc :: dir) target = Some doc).
Proof.
  intros B rc rd gd u tl dl now pf bf render table_of. split.
  - repeat split; try discriminate.
    + repeat (constructor; [left; reflexivity|]). constructor.
    + repeat (constructor; [right; reflexivity|]). constructor.
  - intros name Hdeg.
    pose proof (@sanitize_degenerate u name Hdeg) as Hs.
    split; [simpl; rewrite Hs; reflexivity|].
    intros out target. split; [apply path_join_dot_pdf|].
    intros dir pd cols table Htab doc.
    assert (Hpath : pdf_filename doc = target).
    { unfold doc, composed, target. simpl. rewrite Hs. reflexivity. }
    split; [exact Hpath|]. intros Htitle Hstamp Hok. split.
    + unfold render. rewrite create_pdf_for_person_unfold.
      change (title_for B rc rd gd tl name) with (title_text doc).
      change (timestamp_for B rc rd gd dl now dir) with (timestamp_text doc).
      rewrite Htitle, Hstamp.
      fold table_of. rewrite Htab. cbv zeta. fold doc.
      rewrite Hok, Hpath. reflexivity.
    + unfold lookup_file. cbn [find]. rewrite Hpath. unfold pystr_eqb.
      destruct (pystr_eq_dec target target); [reflexivity | congruence].
Qed.

(* ------------------------------------------------------------------ *)
(** ** The table of a document *)

Lemma column_position_In (col : cell) (cols : list cell) :
  In col cols <-> exists i, column_position col cols = Some i.
Proof.
  induction cols as [|c cols IH]; simpl.
  - split; [tauto | intros [i H]; discriminate].
  - destruct (cell_eq_dec col c) as [->|Hne].
    + split; [eauto | tauto].
    + rewrite IH. split.
      * intros [Heq|[i Hi]]; [congruence|]. rewrite Hi. simpl. eauto.
      * intros [i Hi]. right.
        destruct (column_position col cols) as [j|]; [eauto | discriminate].
  Qed.

Lemma getitem_present (df : DataFrame) (col : cell) :
  In col (columns df) -> exists s, getitem df col = Ok s.
Proof.
  intro H. apply column_position_In in H. destruct H as [i Hi].
  unfold getitem. rewrite Hi. eauto.
Qed.

Section TableFacts.

Variable BIDI_SUPPORT : bool.
Variables reshape_configured reshape_default get_display
  : pystr -> result pystr.

Let shaped (s : pystr) : pystr :=
  shape BIDI_SUPPORT reshape_configured reshape_default get_display
    (Some (Str s)).
Let vertical := vertical_rows BIDI_SUPPORT reshape_configured
                  reshape_default get_display.
Let horizontal := horizontal_loop BIDI_SUPPORT reshape_configured
                    reshape_default get_display.
Let table_of := make_table_data BIDI_SUPPORT reshape_configured
                  reshape_default get_display.
Let value_of := value_cell BIDI_SUPPORT reshape_configured
                  reshape_default get_display.
Let header_of := header_cell BIDI_SUPPORT reshape_configured
                   reshape_default get_display.

Lemma field_value_present (pd : DataFrame) (col : cell) :
  In col (columns pd) ->
  field_value pd col =
  Ok (if isna (first_cell pd col) then Str (lit "-")
      else first_cell pd col).
Proof.
  intro H. apply column_position_In in H. destruct H as [i Hi].
  unfold field_value, getitem, first_cell. rewrite Hi. simpl.
  destruct (rows pd) as [|[k r] rest]; reflexivity.
Qed.

Lemma py_str_dash (v : cell) :
  py_str (if isna v then Str (lit "-") else v) = display v.
Proof. unfold display. destruct (isna v); reflexivity. Qed.

Lemma vertical_rows_present (pd : DataFrame) (cols : list cell) :
  incl cols (columns pd) ->
  vertical pd cols =
  Ok (map (fun col => [value_of pd col; header_of col]) cols).
Proof.
  unfold vertical. induction cols as [|col cols IH]; intro Hin;
    [reflexivity|].
  cbn [vertical_rows map].
  rewrite field_value_present by (apply Hin; left; reflexivity).
  unfold bind at 1. rewrite !fix_persian_text_returns.
  unfold bind at 1 2. rewrite IH by (intros c Hc; apply Hin; right; exact Hc).
  unfold bind. rewrite py_str_dash. reflexivity.
Qed.

Lemma horizontal_loop_present (pd : DataFrame) (cols : list cell)
  (headers values : list pystr) :
  incl cols (columns pd) ->
  horizontal pd cols headers values =
  Ok (headers ++ map header_of cols,
      values ++ map (value_of pd) cols).
Proof.
  unfold horizontal. revert headers values.
  induction cols as [|col cols IH]; intros headers values Hin.
  - simpl. rewrite !app_nil_r. reflexivity.
  - cbn [horizontal_loop map].
    rewrite fix_persian_text_returns. unfold bind at 1.
    rewrite field_value_present by (apply Hin; left; reflexivity).
    unfold bind at 1. rewrite fix_persian_text_returns. unfold bind at 1.
    rewrite IH by (intros c Hc; apply Hin; right; exact Hc).
    rewrite py_str_dash, <- !app_assoc. reflexivity.
Qed.

Lemma choose_layout_spec (cols : list cell) :
  choose_layout cols = Vertical <-> 10 < List.length cols.
Proof.
  unfold choose_layout.
  destruct (Nat.ltb_spec 10 (List.length cols)); split;
    intro; (lia || congruence).
Qed.

Lemma make_table_data_vertical (pd : DataFrame) (cols : list cell) :
  incl cols (columns pd) -> 10 < List.length cols ->
  table_of pd cols =
  Ok (map (fun col => [value_of pd col; header_of col]) cols).
Proof.
  intros Hin Hlen. unfold table_of, make_table_data.
  apply choose_layout_spec in Hlen. rewrite Hlen.
  apply vertical_rows_present, Hin.
Qed.

Lemma make_table_data_horizontal (pd : DataFrame) (cols : list cell) :
  incl cols (columns pd) -> List.length cols <= 10 ->
  table_of pd cols =
  Ok [rev (map header_of cols); rev (map (value_of pd) cols)].
Proof.
  intros Hin Hlen. unfold table_of, make_table_data.
  destruct (choose_layout cols) eqn:E.
  - apply choose_layout_spec in E. lia.
  - fold horizontal. rewrite horizontal_loop_present by exact Hin.
    reflexivity.
Qed.

(** Only the first row of a group is read. *)
Lemma field_value_first_row (cols_pd : list cell)
  (first : nat * list cell) (rest : list (nat * list cell))
  (col : cell) :
  field_value {| columns := cols_pd; rows := first :: rest |} col =
  field_value {| columns := cols_pd; rows := [first] |} col.
Proof.
  unfold field_value, getitem. simpl.
  destruct (column_position col cols_pd); reflexivity.
Qed.

Lemma make_table_data_first_row (cols_pd : list cell)
  (first : nat * list cell) (rest : list (nat * list cell))
  (cols : list cell) :
  table_of {| columns := cols_pd; rows := first :: rest |} cols =
  table_of {| columns := cols_pd; rows := [first] |} cols.
Proof.
  unfold table_of, make_table_data.
  destruct (choose_layout cols).
  - induction cols as [|col cols IH]; [reflexivity|].
    cbn [vertical_rows]. rewrite field_value_first_row, IH. reflexivity.
  - f_equal. generalize (@nil pystr) at 1 3. generalize (@nil pystr).
    induction cols as [|col cols IH]; intros hs vs; [reflexivity|].
    cbn [horizontal_loop]. rewrite field_value_first_row.
    destruct (fix_persian_text _ _ _ _ (Some col)); [|reflexivity].
    unfold bind at 1 3.
    destruct (field_value _ col) as [v|]; [|reflexivity].
    unfold bind at 1 3.
    destruct (fix_persian_text _ _ _ _ _); [|reflexivity].
    unfold bind at 1 2. apply IH.
Qed.

End TableFacts.

(** C3.  The layout is decided by [len(columns) > 10] on the column list
    handed to the renderer: the vertical layout is chosen exactly when there
    are more than 10 columns; with exactly 10 columns the table is the two
    rows (headers, values) of the horizontal layout, each 10 cells wide; with
    11 columns it is the 11 two-cell rows of the vertical layout. *)
Theorem layout_threshold :
  forall (BIDI_SUPPORT : bool)
         (reshape_configured reshape_default get_display
            : pystr -> result pystr)
         (pd : DataFrame) (cols : list cell),
    let table_of := make_table_data BIDI_SUPPORT reshape_configured
                      reshape_default get_display in
    incl cols (columns pd) ->
    (choose_layout cols = Vertical <-> 10 < List.length cols)
    /\ (List.length cols = 10 ->
        choose_layout cols = Horizontal
        /\ exists headers values,
             table_of pd cols = Ok [headers; values]
             /\ List.length headers = 10 /\ List.length values = 10)
    /\ (List.length cols = 11 ->
        choose_layout cols = Vertical
        /\ exists table,
             table_of pd cols = Ok table
             /\ List.length table = 11
             /\ Forall (fun row => List.length row = 2) table).
Proof.
  intros B rc rd gd pd cols table_of Hin.
  split; [apply choose_layout_spec|]. split; intro Hlen.
  - split.
    + destruct (choose_layout cols) eqn:E; [|reflexivity].
      apply choose_layout_spec in E. lia.
    + do 2 eexists. split.
      * apply make_table_data_horizontal; [exact Hin | lia].
      * rewrite !length_rev, !length_map. split; exact Hlen.
  - split; [apply choose_layout_spec; lia|].
    eexists. split; [|split].
    + apply make_table_data_vertical; [exact Hin | lia].
    + rewrite length_map. exact Hlen.
    + apply Forall_forall. intros row Hrow. apply in_map_iff in Hrow.
      destruct Hrow as [col [<- _]]. reflexivity.
Qed.

(** C4.  For a group with at least one row the renderer draws every
    field value from the first row only.  For a render request whose columns
    are columns of the group, the table is made of the shaped headers and,
    for every column, of the shaped text of the cell the first row has under
    that column (a dash when that cell is missing), laid out vertically or
    horizontally: no cell of a later row occurs in it.  The table, and the
    whole result of the renderer, are the same as for the group cut down to
    its first row. *)
Theorem renderer_reads_first_row_only :
  forall (BIDI_SUPPORT : bool)
         (reshape_configured reshape_default get_display
            : pystr -> result pystr)
         (unicode_isalnum : codepoint -> bool)
         (title_label date_label : pystr) (now : directory -> pystr)
         (paragraph_fault : style -> pystr -> option exn)
         (build_fault : directory -> document -> option exn)
         (cols_pd : list cell) (label : nat) (first : list cell)
         (rest : list (nat * list cell)) (cols : list cell),
    let render := create_pdf_for_person BIDI_SUPPORT reshape_configured
                    reshape_default get_display unicode_isalnum
                    title_label date_label now paragraph_fault build_fault in
    let table_of := make_table_data BIDI_SUPPORT reshape_configured
                      reshape_default get_display in
    let shaped := fun s : pystr =>
                    shape BIDI_SUPPORT reshape_configured reshape_default
                      get_display (Some (Str s)) in
    let header := fun col : cell =>
                    shape BIDI_SUPPORT reshape_configured reshape_default
                      get_display (Some col) in
    let group := {| columns := cols_pd; rows := (label, first) :: rest |} in
    let first_only := {| columns := cols_pd; rows := [(label, first)] |} in
    let drawn := fun col : cell =>
                   shaped (display
                             match column_position col cols_pd with
                             | Some i => nth i first NaN
                             | None => Str []
                             end) in
    incl cols cols_pd ->
    table_of group cols
    = Ok (if Nat.ltb 10 (List.length cols)
          then map (fun col => [drawn col; header col]) cols
          else [rev (map header cols); rev (map drawn cols)])
    /\ (forall col i,
          column_position col cols_pd = Some i ->
          field_value group col
          = Ok (if isna (nth i first NaN) then Str (lit "-")
                else nth i first NaN)
          /\ drawn col = shaped (display (nth i first NaN)))
    /\ (forall any, table_of group any = table_of first_only any)
    /\ (forall dir name output_dir any,
          render dir group name output_dir any
          = render dir first_only name output_dir any).
Proof.
  intros B rc rd gd u tl dl now pf bf cols_pd label first rest cols
    render table_of shaped header group first_only drawn Hin.
  assert (Hdrawn : forall col, value_cell B rc rd gd group col = drawn col).
  { intro col. unfold value_cell, drawn, first_cell, group. simpl.
    destruct (column_position col cols_pd); reflexivity. }
  split; [|split; [|split]].
  - unfold table_of. destruct (Nat.ltb_spec 10 (List.length cols)) as [H|H].
    + rewrite make_table_data_vertical by assumption.
      apply f_equal, map_ext. intro col. rewrite Hdrawn. reflexivity.
    + rewrite make_table_data_horizontal by assumption.
      apply f_equal. apply f_equal. apply f_equal2; [|reflexivity].
      apply f_equal, map_ext. exact Hdrawn.
  - intros col i Hi. split.
    + unfold field_value, getitem, group. simpl. rewrite Hi. reflexivity.
    + unfold drawn. rewrite Hi. reflexivity.
  - intro any. apply make_table_data_first_row.
  - intros dir name out any. unfold render.
    rewrite !create_pdf_for_person_unfold. unfold group, first_only.
    rewrite make_table_data_first_row. reflexivity.
Qed.

(** C5.  For a render request whose columns are columns of the group:
    with more than 10 columns the table has one row per column, in the
    columns' order, each row being [shaped value; shaped column name] (the
    name being the text of the column's label); with
    at most 10 columns the table is exactly two rows, the shaped headers and
    the shaped values, both in reversed column order; and the value of a
    missing cell is the text ["-"] put through the shaper, which is ["-"]
    itself whenever the shaper leaves that text unchanged (as it does when
    shaping is disabled). *)
Theorem table_layouts :
  forall (BIDI_SUPPORT : bool)
         (reshape_configured reshape_default get_display
            : pystr -> result pystr)
         (pd : DataFrame) (cols : list cell),
    let shaped := fun s : pystr =>
                    shape BIDI_SUPPORT reshape_configured reshape_default
                      get_display (Some (Str s)) in
    let name := fun col : cell =>
                  shape BIDI_SUPPORT reshape_configured reshape_default
                    get_display (Some col) in
    let table_of := make_table_data BIDI_SUPPORT reshape_configured
                      reshape_default get_display in
    let value := fun col => shaped (display (first_cell pd col)) in
    incl cols (columns pd) ->
    (10 < List.length cols ->
     table_of pd cols = Ok (map (fun col => [value col; name col]) cols))
    /\ (List.length cols <= 10 ->
        table_of pd cols = Ok [rev (map name cols); rev (map value cols)])
    /\ (forall col,
          isna (first_cell pd col) = true ->
          value col = shaped (lit "-")
          /\ (shaped (lit "-") = lit "-" -> value col = lit "-")
          /\ (BIDI_SUPPORT = false -> value col = lit "-")).
Proof.
  intros B rc rd gd pd cols shaped name table_of value Hin.
  split; [|split].
  - intro Hlen. apply make_table_data_vertical; assumption.
  - intro Hlen. apply make_table_data_horizontal; assumption.
  - intros col Hna. unfold value, display. rewrite Hna.
    split; [reflexivity|]. split; [tauto|].
    intros ->. reflexivity.
Qed.

(* ------------------------------------------------------------------ *)
(** ** Grouping *)

Lemma cell_eqb_true (a b : cell) :
  cell_eqb a b = true <-> a = b /\ isna b = false.
Proof.
  unfold cell_eqb.
  destruct a, b; cbv beta iota;
    try (split; [discriminate | intros [? ?]; discriminate]);
    match goal with
    | |- context [cell_eq_dec ?x ?y] => destruct (cell_eq_dec x y)
    end; split; try discriminate; try (intros [? ?]; congruence);
    intros _; split; (assumption || reflexivity).
Qed.

Lemma mask_select {A : Type} (p : A -> bool) (l : list A) :
  map snd (filter fst (combine (map p l) l)) = filter p l.
Proof.
  induction l as [|x l IH]; [reflexivity|].
  simpl. destruct (p x); simpl; rewrite IH; reflexivity.
Qed.

Lemma person_rows_present (df : DataFrame) (name_column : pystr)
  (name : cell) :
  In (Str name_column) (columns df) ->
  person_rows df name_column name =
  Ok {| columns := columns df; rows := group_rows df name_column name |}.
Proof.
  intro H. apply column_position_In in H. destruct H as [i Hi].
  unfold person_rows, getitem, group_rows, key_cell, select, eq_mask.
  rewrite Hi. simpl. rewrite map_map. simpl.
  rewrite mask_select. reflexivity.
Qed.

Lemma getitem_key_cells (df : DataFrame) (name_column : pystr) :
  In (Str name_column) (columns df) ->
  getitem df (Str name_column) =
  Ok (map (fun row => (fst row, key_cell df name_column row)) (rows df)).
Proof.
  intro H. apply column_position_In in H. destruct H as [i Hi].
  unfold getitem, key_cell. rewrite Hi. reflexivity.
Qed.

(** *** [unique] *)

Lemma unique_from_In (seen vals : list cell) (v : cell) :
  In v (unique_from seen vals) <-> In v vals /\ ~ In v seen.
Proof.
  revert seen. induction vals as [|x vals IH]; intro seen; simpl.
  - tauto.
  - destruct (in_dec cell_eq_dec x seen) as [Hx|Hx].
    + rewrite IH. split; [tauto|]. intros [[->|H] Hn]; tauto.
    + simpl. rewrite IH. simpl. split.
      * intros [->|[H Hn]]; tauto.
      * intros [[->|H] Hn]; [tauto|].
        destruct (cell_eq_dec x v); [tauto|]. right. tauto.
Qed.

Lemma unique_from_NoDup (seen vals : list cell) :
  NoDup (unique_from seen vals).
Proof.
  revert seen. induction vals as [|x vals IH]; intro seen; simpl.
  - constructor.
  - destruct (in_dec cell_eq_dec x seen); [apply IH|].
    constructor; [|apply IH].
    rewrite unique_from_In. simpl. tauto.
Qed.

(** [unique] keeps the order of first appearance: it is what is left of
    the values when every repeated occurrence is erased. *)
Lemma unique_from_first_appearance (seen vals : list cell) :
  forall v before after,
    vals = before ++ v :: after -> ~ In v before -> ~ In v seen ->
    exists front back,
      unique_from seen vals = front ++ v :: back
      /\ (forall w, In w front -> In w before).
Proof.
  revert seen. induction vals as [|x vals IH]; intros seen v before after E Hb Hs.
  - destruct before; discriminate.
  - destruct before as [|b before]; simpl in E; injection E as -> ->.
    + simpl. destruct (in_dec cell_eq_dec v seen); [contradiction|].
      exists [], (unique_from (v :: seen) after). split; [reflexivity|].
      intros w [].
    + simpl in Hb. simpl.
      destruct (in_dec cell_eq_dec b seen).
      * destruct (IH seen v before after eq_refl) as [f [k [E Hf]]];
          [tauto | exact Hs |].
        exists f, k. split; [exact E|]. intros w Hw. right. auto.
      * destruct (IH (b :: seen) v before after eq_refl) as [f [k [E Hf]]];
          [tauto | simpl; intros [?|?]; [subst; tauto | tauto] |].
        exists (b :: f), k. split; [simpl; rewrite E; reflexivity|].
        intros w [->|Hw]; [left; reflexivity | right; auto].
Qed.

Lemma unique_count (vals : list cell) :
  List.length (unique_from [] vals)
  = List.length (nodup cell_eq_dec vals).
Proof.
  apply Permutation_length, NoDup_Permutation.
  - apply unique_from_NoDup.
  - apply NoDup_nodup.
  - intro v. rewrite unique_from_In, nodup_In. simpl. tauto.
Qed.

(** *** Filtering by each key value partitions the keyed rows *)

Section Partition.

Variable row : Type.
Variable key : row -> cell.

Let of_key (v : cell) (r : row) : bool := cell_eqb (key r) v.
Let split_by (names : list cell) (l : list row) : list row :=
  concat (map (fun v => filter (of_key v) l) names).

Lemma split_by_nil (names : list cell) : split_by names [] = [].
Proof. unfold split_by. induction names; simpl; auto. Qed.

Lemma split_by_cons (v : cell) (names : list cell) (l : list row) :
  split_by (v :: names) l = filter (of_key v) l ++ split_by names l.
Proof. reflexivity. Qed.

Lemma filter_cons (p : row -> bool) (x : row) (l : list row) :
  filter p (x :: l) = if p x then x :: filter p l else filter p l.
Proof. reflexivity. Qed.

Lemma split_by_skip (names : list cell) (x : row) (l : list row) :
  (isna (key x) = true \/ ~ In (key x) names) ->
  split_by names (x :: l) = split_by names l.
Proof.
  induction names as [|v names IH]; intro H; [reflexivity|].
  rewrite !split_by_cons, IH by (simpl in H; tauto). f_equal.
  rewrite filter_cons.
  destruct (of_key v x) eqn:E; [|reflexivity].
  apply cell_eqb_true in E. destruct E as [E1 E2]. exfalso.
  destruct H as [H|H]; [congruence|]. apply H. left. auto.
Qed.

Lemma split_by_take (names : list cell) (x : row) (l : list row) :
  NoDup names -> In (key x) names -> isna (key x) = false ->
  Permutation (split_by names (x :: l)) (x :: split_by names l).
Proof.
  induction names as [|v names IH]; intros Hnd Hin Hna;
    [contradiction|].
  inversion Hnd as [|? ? Hv Hnd']; subst.
  rewrite !split_by_cons, filter_cons.
  destruct (of_key v x) eqn:E.
  - apply cell_eqb_true in E. destruct E as [E _]. subst v.
    rewrite split_by_skip by tauto. reflexivity.
  - destruct Hin as [Hin|Hin].
    + exfalso. assert (of_key v x = true); [|congruence].
      apply cell_eqb_true. split; congruence.
    + rewrite (IH Hnd' Hin Hna). symmetry. apply Permutation_middle.
Qed.

Lemma split_by_partition (names : list cell) (l : list row) :
  NoDup names ->
  (forall r, In r l -> isna (key r) = false -> In (key r) names) ->
  Permutation (split_by names l)
    (filter (fun r => negb (isna (key r))) l).
Proof.
  intro Hnd. induction l as [|x l IH]; intro Hall.
  - rewrite split_by_nil. constructor.
  - cbn [filter]. destruct (isna (key x)) eqn:Hna; cbn [negb].
    + rewrite split_by_skip by tauto.
      apply IH. intros r Hr. apply Hall. right. exact Hr.
    + rewrite split_by_take;
        [| exact Hnd | apply Hall; [left; reflexivity | exact Hna]
         | exact Hna].
      constructor. apply IH. intros r Hr. apply Hall. right. exact Hr.
Qed.

End Partition.

Lemma filter_keeps_labels_distinct (keep : nat * list cell -> bool)
  (table : list (nat * list cell)) :
  NoDup (map fst table) -> NoDup (map fst (filter keep table)).
Proof.
  intro Hnd. induction table as [|r table IH]; [constructor|].
  simpl in Hnd. apply NoDup_cons_iff in Hnd. destruct Hnd as [Hr Hnd].
  simpl. destruct (keep r); simpl; [|exact (IH Hnd)].
  apply NoDup_cons; [|exact (IH Hnd)].
  rewrite in_map_iff. intros [r' [Heq Hin]].
  apply filter_In in Hin. apply Hr. rewrite <- Heq.
  apply in_map. tauto.
Qed.

Lemma frames_of_present (df : DataFrame) (name_column : pystr)
  (names : list cell) :
  In (Str name_column) (columns df) ->
  frames_of df name_column names =
  Ok (map (fun name =>
             (name, {| columns := columns df;
                       rows := group_rows df name_column name |}))
        names).
Proof.
  intro H. induction names as [|name names IH]; [reflexivity|].
  cbn [frames_of map]. rewrite person_rows_present by exact H.
  unfold bind at 1. rewrite IH. reflexivity.
Qed.

Lemma unique_names_present (df : DataFrame) (name_column : pystr) :
  In (Str name_column) (columns df) ->
  unique_names df name_column =
  Ok (unique_from []
        (filter (fun v => negb (isna v))
           (map (key_cell df name_column) (rows df)))).
Proof.
  intro H. unfold unique_names. rewrite getitem_key_cells by exact H.
  unfold bind, unique, dropna. f_equal. f_equal.
  induction (rows df) as [|r l IH]; [reflexivity|].
  simpl. destruct (isna (key_cell df name_column r)); simpl;
    rewrite IH; reflexivity.
Qed.

(** C1.  For a table whose rows carry distinct index labels and a key
    column among its columns, grouping succeeds; the rows of all groups
    together are, up to order, exactly the rows of the table whose key cell
    is not missing; no index label occurs twice among them (so no row is in
    two groups, nor twice in one); every group shares the table's columns;
    and there are as many groups as distinct non-missing key values. *)
Theorem grouping_partitions_keyed_rows :
  forall (df : DataFrame) (name_column : pystr),
    In (Str name_column) (columns df) ->
    NoDup (map fst (rows df)) ->
    exists gs : list (cell * DataFrame),
      groups df name_column = Ok gs
      /\ unique_names df name_column = Ok (map fst gs)
      /\ Forall (fun g => person_rows df name_column (fst g) = Ok (snd g)
                          /\ columns (snd g) = columns df) gs
      /\ Permutation (concat (map (fun g => rows (snd g)) gs))
           (keyed_rows df name_column)
      /\ NoDup (map fst (concat (map (fun g => rows (snd g)) gs)))
      /\ NoDup (map fst gs)
      /\ (forall v, In v (map fst gs) <->
                    isna v = false
                    /\ In v (map (key_cell df name_column) (rows df)))
      /\ List.length gs
         = List.length
             (nodup cell_eq_dec
                (filter (fun v => negb (isna v))
                   (map (key_cell df name_column) (rows df)))).
Proof.
  intros df K HK Hnd.
  set (keys := filter (fun v => negb (isna v))
                 (map (key_cell df K) (rows df))).
  set (names := unique_from [] keys).
  set (frame := fun name => (name, {| columns := columns df;
                                      rows := group_rows df K name |})).
  assert (Hfst : map fst (map frame names) = names).
  { rewrite map_map. simpl. apply map_id. }
  assert (Hnames : forall v, In v names <->
                     isna v = false /\ In v (map (key_cell df K) (rows df))).
  { intro v. unfold names. rewrite unique_from_In. unfold keys.
    rewrite filter_In, negb_true_iff. simpl. tauto. }
  assert (Hrows : concat (map (fun g => rows (snd g)) (map frame names))
                  = concat (map (fun v => filter
                       (fun r => cell_eqb (key_cell df K r) v) (rows df))
                       names)).
  { rewrite map_map. reflexivity. }
  assert (Hperm : Permutation
                    (concat (map (fun g => rows (snd g)) (map frame names)))
                    (keyed_rows df K)).
  { rewrite Hrows. apply split_by_partition.
    - apply unique_from_NoDup.
    - intros r Hr Hna. apply Hnames. split; [exact Hna|].
      apply in_map. exact Hr. }
  exists (map frame names).
  split; [|split; [|split; [|split; [|split; [|split; [|split]]]]]].
  - unfold groups. rewrite unique_names_present by exact HK.
    unfold bind. apply frames_of_present. exact HK.
  - rewrite Hfst. apply unique_names_present. exact HK.
  - apply Forall_forall. intros g Hg. apply in_map_iff in Hg.
    destruct Hg as [name [<- _]]. simpl. split; [|reflexivity].
    apply person_rows_present. exact HK.
  - exact Hperm.
  - eapply Permutation_NoDup.
    + apply Permutation_map. symmetry. exact Hperm.
    + apply filter_keeps_labels_distinct. exact Hnd.
  - rewrite Hfst. apply unique_from_NoDup.
  - rewrite Hfst. exact Hnames.
  - rewrite length_map. apply unique_count.
Qed.

(* ------------------------------------------------------------------ *)
(** ** The batch *)

Lemma contains_app_r (s t sub : pystr) :
  contains t sub -> contains (s ++ t) sub.
Proof.
  intros [b [a ->]]. exists (s ++ b), a. rewrite <- app_assoc. reflexivity.
Qed.

Lemma contains_app_l (s t sub : pystr) :
  contains s sub -> contains (s ++ t) sub.
Proof.
  intros [b [a ->]]. exists b, (a ++ t). rewrite <- !app_assoc. reflexivity.
Qed.

Lemma contains_self (s : pystr) : contains s s.
Proof. exists [], []. rewrite app_nil_r. reflexivity. Qed.

Lemma join_cons (sep x y : pystr) (rest : list pystr) :
  join sep (x :: y :: rest) = x ++ sep ++ join sep (y :: rest).
Proof. reflexivity. Qed.

Lemma join_contains (sep : pystr) (items : list pystr) (x : pystr) :
  In x items -> contains (join sep items) x.
Proof.
  induction items as [|y items IH]; [contradiction|].
  intros [->|Hin].
  - destruct items as [|z items]; [apply contains_self|].
    rewrite join_cons. apply contains_app_l, contains_self.
  - destruct items as [|z items]; [contradiction|].
    rewrite join_cons. apply contains_app_r, contains_app_r, IH, Hin.
Qed.

(** *** Reading the list of columns back from the message *)

Lemma items_from_step (current : pystr) (c d : codepoint) (rest : pystr) :
  items_from current (c :: d :: rest)
  = if ((c =? 44) && (d =? 32))%N
    then current :: items_from [] rest
    else items_from (current ++ [c]) (d :: rest).
Proof. reflexivity. Qed.

Lemma separator_free_tail (c : codepoint) (name : pystr) :
  separator_free (c :: name) -> separator_free name.
Proof.
  intros H [b [a E]]. apply H. exists (c :: b), a. rewrite E. reflexivity.
Qed.

Lemma items_from_item (name : pystr) :
  forall (current tail : pystr),
    separator_free name ->
    items_from current (name ++ lit ", " ++ tail)
    = (current ++ name) :: items_from [] tail.
Proof.
  induction name as [|c name IH]; intros current tail Hfree.
  - simpl. rewrite app_nil_r. reflexivity.
  - change ((c :: name) ++ lit ", " ++ tail)
      with (c :: (name ++ lit ", " ++ tail)).
    destruct (name ++ lit ", " ++ tail) as [|d rest] eqn:E.
    + destruct name; discriminate.
    + rewrite items_from_step.
      destruct ((c =? 44) && (d =? 32))%N eqn:Hsep.
      * exfalso. apply andb_true_iff in Hsep. destruct Hsep as [Hc Hd].
        apply N.eqb_eq in Hc. apply N.eqb_eq in Hd. subst c d.
        destruct name as [|d' name'].
        -- simpl in E. discriminate.
        -- simpl in E. injection E as -> _.
           apply Hfree. exists [], name'. reflexivity.
      * rewrite <- E, IH by (eapply separator_free_tail; exact Hfree).
        rewrite <- app_assoc. reflexivity.
Qed.

Lemma items_from_last (name : pystr) :
  forall current : pystr,
    separator_free name ->
    items_from current name = [current ++ name].
Proof.
  induction name as [|c name IH]; intros current Hfree.
  - simpl. rewrite app_nil_r. reflexivity.
  - destruct name as [|d rest].
    + reflexivity.
    + rewrite items_from_step.
      destruct ((c =? 44) && (d =? 32))%N eqn:Hsep.
      * exfalso. apply andb_true_iff in Hsep. destruct Hsep as [Hc Hd].
        apply N.eqb_eq in Hc. apply N.eqb_eq in Hd. subst c d.
        apply Hfree. exists [], rest. reflexivity.
      * rewrite IH by (eapply separator_free_tail; exact Hfree).
        rewrite <- app_assoc. reflexivity.
Qed.

Lemma items_from_join (names : list pystr) :
  names <> [] -> Forall separator_free names ->
  items_from [] (join (lit ", ") names) = names.
Proof.
  induction names as [|name names IH]; intros Hne Hfree; [congruence|].
  inversion Hfree as [|? ? Hname Hrest]; subst.
  destruct names as [|next names].
  - simpl. apply items_from_last. exact Hname.
  - rewrite join_cons, items_from_item by exact Hname.
    rewrite IH by (congruence || exact Hrest). reflexivity.
Qed.

Lemma listed_columns_of_dialog (name_column : pystr) (cols : list pystr) :
  cols <> [] -> Forall separator_free cols ->
  listed_columns name_column (dialog_head name_column ++ join (lit ", ") cols)
  = cols.
Proof.
  intros Hne Hfree. unfold listed_columns.
  rewrite skipn_app, skipn_all, Nat.sub_diag. simpl.
  apply items_from_join; assumption.
Qed.

Section BatchFacts.

Variable BIDI_SUPPORT : bool.
Variables reshape_configured reshape_default get_display
  : pystr -> result pystr.
Variable unicode_isalnum : codepoint -> bool.
Variables title_label date_label : pystr.
Variable now : directory -> pystr.
Variable paragraph_fault : style -> pystr -> option exn.
Variable build_fault : directory -> document -> option exn.

Let render := create_pdf_for_person BIDI_SUPPORT reshape_configured
                reshape_default get_display unicode_isalnum
                title_label date_label now paragraph_fault build_fault.
Let person := process_person BIDI_SUPPORT reshape_configured
                reshape_default get_display unicode_isalnum
                title_label date_label now paragraph_fault build_fault.
Let loop := process_people BIDI_SUPPORT reshape_configured
              reshape_default get_display unicode_isalnum
              title_label date_label now paragraph_fault build_fault.

Variable df : DataFrame.
Variables name_column output_dir : pystr.
Hypothesis key_present : In (Str name_column) (columns df).

Let tally := counted BIDI_SUPPORT reshape_configured reshape_default
               get_display unicode_isalnum title_label date_label now
               paragraph_fault
               build_fault df name_column output_dir.

Lemma process_person_counted (st : batch) (name : cell) :
  person df name_column output_dir st name = Ok (tally st name).
Proof.
  unfold person, process_person, tally, counted.
  rewrite person_rows_present by exact key_present.
  unfold bind, try_result. fold (frame_of df name_column name).
  fold render.
  destruct (render _ _ _ _ _) as [[p d]|]; reflexivity.
Qed.

Lemma process_people_cons (total : nat) (st : batch) (i : nat)
  (name : cell) (rest : list cell) :
  loop df name_column output_dir total st i (name :: rest) =
  loop df name_column output_dir total
    (tally (announce st i total name) name) (S i) rest.
Proof.
  unfold loop. cbn [process_people]. fold person.
  rewrite process_person_counted. reflexivity.
Qed.

Lemma process_people_app (total : nat) (a b : list cell) :
  forall (st : batch) (i : nat),
    loop df name_column output_dir total st i (a ++ b) =
    loop df name_column output_dir total
      (fst (loop df name_column output_dir total st i a))
      (i + List.length a) b.
Proof.
  induction a as [|name a IH]; intros st i.
  - simpl. rewrite Nat.add_0_r. reflexivity.
  - rewrite <- app_comm_cons, !process_people_cons, IH. simpl.
    rewrite Nat.add_succ_r. reflexivity.
Qed.

Lemma process_people_completes (total : nat) (names : list cell) :
  forall (st : batch) (i : nat),
    snd (loop df name_column output_dir total st i names) = None.
Proof.
  induction names as [|name names IH]; intros st i; [reflexivity|].
  rewrite process_people_cons. apply IH.
Qed.

Lemma counted_counts (st : batch) (name : cell) :
  success_count (tally st name) + error_count (tally st name)
  = success_count st + error_count st + 1.
Proof.
  unfold tally, counted. fold render.
  destruct (render _ _ _ _ _) as [[p d]|]; simpl; lia.
Qed.

Lemma counted_status (st : batch) (name : cell) :
  status (tally st name) = status st.
Proof.
  unfold tally, counted. fold render.
  destruct (render _ _ _ _ _) as [[p d]|]; reflexivity.
Qed.

Lemma counted_files (st : batch) (name : cell) :
  exists later, files (tally st name) = later ++ files st.
Proof.
  unfold tally, counted. fold render.
  destruct (render _ _ _ _ _) as [[p d]|] eqn:E; simpl.
  - apply create_pdf_for_person_writes in E. destruct E as [doc [-> _]].
    exists [doc]. reflexivity.
  - exists []. reflexivity.
Qed.

Lemma process_people_counts (total : nat) (names : list cell) :
  forall (st : batch) (i : nat),
    success_count (fst (loop df name_column output_dir total st i names))
    + error_count (fst (loop df name_column output_dir total st i names))
    = success_count st + error_count st + List.length names.
Proof.
  induction names as [|name names IH]; intros st i.
  - simpl. lia.
  - rewrite process_people_cons, IH, counted_counts.
    cbn [announce success_count error_count List.length]. lia.
Qed.

Lemma process_people_status (total : nat) (names : list cell) :
  forall (st : batch) (i : nat),
    exists shown,
      status (fst (loop df name_column output_dir total st i names))
      = shown ++ status st
      /\ map snd (rev shown) = names.
Proof.
  induction names as [|name names IH]; intros st i.
  - exists []. split; reflexivity.
  - rewrite process_people_cons.
    destruct (IH (tally (announce st i total name) name) (S i))
      as [shown [E1 E2]].
    exists (shown ++ [(i + 1, total, name)]). split.
    + rewrite E1, counted_status. simpl. rewrite <- app_assoc. reflexivity.
    + rewrite rev_app_distr. simpl. rewrite E2. reflexivity.
Qed.

Lemma process_people_files (total : nat) (names : list cell) :
  forall (st : batch) (i : nat),
    exists later,
      files (fst (loop df name_column output_dir total st i names))
      = later ++ files st.
Proof.
  induction names as [|name names IH]; intros st i.
  - exists []. reflexivity.
  - rewrite process_people_cons.
    destruct (IH (tally (announce st i total name) name) (S i))
      as [later E].
    destruct (counted_files (announce st i total name) name)
      as [later' E'].
    exists (later ++ later'). rewrite E, E', <- app_assoc. reflexivity.
Qed.

End BatchFacts.

(** *** The items of the dialog's [join] *)

Lemma str_items_strings (names : list pystr) :
  str_items (map Str names) = Ok names.
Proof.
  induction names as [|name names IH]; [reflexivity|].
  cbn [map str_items]. rewrite IH. reflexivity.
Qed.

Lemma str_items_not_a_string (cols : list cell) (label : cell) :
  In label cols -> (forall s, label <> Str s) ->
  str_items cols = Raise TypeError.
Proof.
  intros Hin Hlabel. induction cols as [|c cols IH]; [contradiction|].
  destruct Hin as [->|Hin].
  - destruct label; try reflexivity. exfalso. eapply Hlabel. reflexivity.
  - destruct c; try reflexivity. cbn [str_items].
    rewrite (IH Hin). reflexivity.
Qed.

Lemma column_not_found_strings (name_column : pystr) (names : list pystr) :
  column_not_found name_column (map Str names)
  = Ok (dialog_head name_column ++ join (lit ", ") names).
Proof.
  unfold column_not_found, join_items, dialog_head.
  rewrite str_items_strings. unfold bind.
  rewrite <- !app_assoc. reflexivity.
Qed.

Lemma column_not_found_not_a_string (name_column : pystr)
  (cols : list cell) (label : cell) :
  In label cols -> (forall s, label <> Str s) ->
  column_not_found name_column cols = Raise TypeError.
Proof.
  intros Hin Hlabel. unfold column_not_found, join_items.
  rewrite (str_items_not_a_string cols Hin Hlabel). reflexivity.
Qed.

(** C6.  When the requested key column is not among the table's columns
    the loop never starts (no status line, no file, both counters zero).
    What the user is told depends on the column labels.  When all of them
    are strings the run ends with the missing-column dialog: its message is
    ["Column 'K' not found."], a line break, and ["Available columns: "]
    followed by the labels joined by [", "]; it contains the requested name
    and every column name, and, when no name contains the separator, the
    list read back from the message by splitting at [", "] is the table's
    list of columns, where each name occurs once if the names are distinct.
    When some label is not a string (a numeric header), the [join] raises
    [TypeError] inside the queued callback and no message is shown. *)
Theorem missing_column_message_or_type_error :
  forall (BIDI_SUPPORT : bool)
         (reshape_configured reshape_default get_display
            : pystr -> result pystr)
         (unicode_isalnum : codepoint -> bool)
         (title_label date_label : pystr) (now : directory -> pystr)
         (paragraph_fault : style -> pystr -> option exn)
         (build_fault : directory -> document -> option exn)
         (df : DataFrame) (name_column output_dir : pystr)
         (dir : directory),
    ~ In (Str name_column) (columns df) ->
    let run := process_conversion BIDI_SUPPORT reshape_configured
                 reshape_default get_display unicode_isalnum title_label
                 date_label now paragraph_fault build_fault (Ok df)
                 name_column output_dir dir in
    snd run = start dir
    /\ status (snd run) = [] /\ files (snd run) = dir
    /\ success_count (snd run) = 0 /\ error_count (snd run) = 0
    /\ (forall names : list pystr,
          columns df = map Str names ->
          let message := lit "Column '" ++ name_column ++ lit "' not found."
                           ++ [10%N] ++ lit "Available columns: "
                           ++ join (lit ", ") names in
          fst run = ErrorDialog message
          /\ contains message name_column
          /\ (forall col, In col names -> contains message col)
          /\ (names <> [] -> Forall separator_free names ->
              listed_columns name_column message = names
              /\ (NoDup names ->
                  forall col, In col names ->
                    count_occ pystr_eq_dec
                      (listed_columns name_column message) col = 1)))
    /\ (forall label : cell,
          In label (columns df) -> (forall s, label <> Str s) ->
          fst run = NoDialog TypeError).
Proof.
  intros B rc rd gd u tl dl now pf bf df K out dir Hmiss run.
  assert (Hrun : run = (match column_not_found K (columns df) with
                        | Ok message => ErrorDialog message
                        | Raise e => NoDialog e
                        end, start dir)).
  { unfold run, process_conversion, has_column.
    destruct (in_dec cell_eq_dec (Str K) (columns df)); [contradiction|].
    reflexivity. }
  rewrite Hrun. cbn [fst snd].
  split; [reflexivity|]. do 4 (split; [reflexivity|]). split.
  - intros names Hcols.
    set (message := lit "Column '" ++ K ++ lit "' not found."
                      ++ [10%N] ++ lit "Available columns: "
                      ++ join (lit ", ") names).
    assert (Hmessage : message = dialog_head K ++ join (lit ", ") names).
    { unfold message, dialog_head. rewrite <- !app_assoc. reflexivity. }
    rewrite Hcols, column_not_found_strings, <- Hmessage.
    split; [reflexivity|]. split; [|split].
    + unfold message. apply contains_app_r, contains_app_l, contains_self.
    + intros col Hin. unfold message.
      do 5 apply contains_app_r. apply join_contains, Hin.
    + intros Hne Hfree.
      assert (Hread : listed_columns K message = names).
      { rewrite Hmessage. apply listed_columns_of_dialog; assumption. }
      split; [exact Hread|].
      intros Hnd col Hin. rewrite Hread.
      apply NoDup_count_occ'; assumption.
  - intros label Hin Hlabel.
    rewrite (column_not_found_not_a_string K (columns df) Hin Hlabel).
    reflexivity.
Qed.

(** C9.  When the renderer raises for one group, that turn of the loop
    ends normally with the error counter one higher and the success counter
    and the output directory unchanged; the loop goes on with the groups
    after it and completes without an exception; every group of the list
    gets its status line, every group is counted once as a success or an
    error, and each later group whose own render succeeds has its document
    in the final directory. *)
Theorem render_failure_does_not_abort :
  forall (BIDI_SUPPORT : bool)
         (reshape_configured reshape_default get_display
            : pystr -> result pystr)
         (unicode_isalnum : codepoint -> bool)
         (title_label date_label : pystr) (now : directory -> pystr)
         (paragraph_fault : style -> pystr -> option exn)
         (build_fault : directory -> document -> option exn)
         (df : DataFrame) (name_column output_dir : pystr)
         (total : nat) (st : batch) (i : nat)
         (before : list cell) (name : cell) (after : list cell) (e : exn),
    let render := create_pdf_for_person BIDI_SUPPORT reshape_configured
                    reshape_default get_display unicode_isalnum
                    title_label date_label now paragraph_fault build_fault in
    let person := process_person BIDI_SUPPORT reshape_configured
                    reshape_default get_display unicode_isalnum
                    title_label date_label now paragraph_fault build_fault
                    df name_column output_dir in
    let loop := process_people BIDI_SUPPORT reshape_configured
                  reshape_default get_display unicode_isalnum
                  title_label date_label now paragraph_fault build_fault
                  df name_column output_dir total in
    let st0 := fst (loop st i before) in
    let st1 := announce st0 (i + List.length before) total name in
    let j := S (i + List.length before) in
    In (Str name_column) (columns df) ->
    render (files st1) (frame_of df name_column name) name output_dir
      (columns df) = Raise e ->
    exists st2 final,
      person st1 name = Ok st2
      /\ error_count st2 = error_count st0 + 1
      /\ success_count st2 = success_count st0
      /\ files st2 = files st0
      /\ loop st i (before ++ name :: after) = loop st2 j after
      /\ loop st i (before ++ name :: after) = (final, None)
      /\ (exists shown,
            status final = shown ++ status st
            /\ map snd (rev shown) = before ++ name :: after)
      /\ success_count final + error_count final
         = success_count st + error_count st
           + List.length (before ++ name :: after)
      /\ (forall mid next tail path dir',
            after = mid ++ next :: tail ->
            let st3 := announce (fst (loop st2 j mid))
                         (j + List.length mid) total next in
            render (files st3) (frame_of df name_column next) next
              output_dir (columns df) = Ok (path, dir') ->
            exists doc later st4,
              dir' = doc :: files st3 /\ pdf_filename doc = path
              /\ person st3 next = Ok st4
              /\ success_count st4 = success_count st3 + 1
              /\ error_count st4 = error_count st3
              /\ files final = later ++ doc :: files st3).
Proof.
  intros B rc rd gd u tl dl now pf bf df K out total st i before name after e
    render person loop st0 st1 j HK Hfail.
  set (st2 := counted B rc rd gd u tl dl now pf bf df K out st1 name).
  assert (Hst2 : st2 = {| success_count := success_count st1;
                          error_count := error_count st1 + 1;
                          files := files st1;
                          status := status st1 |}).
  { unfold st2, counted. fold render. rewrite Hfail. reflexivity. }
  assert (Hloop : loop st i (before ++ name :: after) = loop st2 j after).
  { unfold loop. rewrite process_people_app by exact HK.
    rewrite process_people_cons by exact HK. reflexivity. }
  exists st2, (fst (loop st i (before ++ name :: after))).
  split; [apply process_person_counted; exact HK|].
  split; [rewrite Hst2; reflexivity|].
  split; [rewrite Hst2; reflexivity|].
  split; [rewrite Hst2; reflexivity|].
  split; [exact Hloop|].
  split.
  { rewrite (surjective_pairing (loop st i (before ++ name :: after))) at 1.
    f_equal. apply process_people_completes. exact HK. }
  split; [apply process_people_status; exact HK|].
  split; [apply process_people_counts; exact HK|].
  intros mid next tail path dir' Hafter st3 Hok.
  pose proof Hok as Hw. apply create_pdf_for_person_writes in Hw.
  destruct Hw as [doc [Hdir Hpath]].
  set (st4 := counted B rc rd gd u tl dl now pf bf df K out st3 next).
  assert (Hst4 : st4 = {| success_count := success_count st3 + 1;
                          error_count := error_count st3;
                          files := dir';
                          status := status st3 |}).
  { unfold st4, counted. fold render. rewrite Hok. reflexivity. }
  assert (Hrest : loop st i (before ++ name :: after)
                  = loop st4 (S (j + List.length mid)) tail).
  { rewrite Hloop, Hafter. unfold loop.
    rewrite process_people_app by exact HK.
    rewrite process_people_cons by exact HK. reflexivity. }
  destruct (@process_people_files B rc rd gd u tl dl now pf bf df K out HK
              total tail st4 (S (j + List.length mid))) as [later Hlater].
  exists doc, later, st4.
  split; [exact Hdir|]. split; [exact Hpath|].
  split; [apply process_person_counted; exact HK|].
  split; [rewrite Hst4; reflexivity|].
  split; [rewrite Hst4; reflexivity|].
  rewrite Hrest. fold loop in Hlater. rewrite Hlater, Hst4. simpl.
  rewrite Hdir. reflexivity.
Qed.

(* ------------------------------------------------------------------ *)
(** ** The properties on the sample data *)

Lemma loaded_labels (cols : list cell) (data : list (list cell)) :
  map fst (rows (loaded cols data)) = seq 0 (List.length data).
Proof.
  unfold loaded. simpl. generalize 0.
  induction data as [|r data IH]; intro k; [reflexivity|].
  simpl. rewrite IH. reflexivity.
Qed.

Lemma loaded_labels_NoDup (cols : list cell) (data : list (list cell)) :
  NoDup (map fst (rows (loaded cols data))).
Proof. rewrite loaded_labels. apply seq_NoDup. Qed.

Lemma In_by_computation (x : cell) (l : list cell) :
  (if in_dec cell_eq_dec x l then true else false) = true -> In x l.
Proof. destruct (in_dec cell_eq_dec x l); [tauto | discriminate]. Qed.

Lemma not_In_by_computation (x : cell) (l : list cell) :
  (if in_dec cell_eq_dec x l then true else false) = false -> ~ In x l.
Proof. destruct (in_dec cell_eq_dec x l); [discriminate | tauto]. Qed.

Lemma incl_by_computation (l m : list cell) :
  forallb (fun x => if in_dec cell_eq_dec x m then true else false) l = true ->
  incl l m.
Proof.
  intros H x Hx. rewrite forallb_forall in H.
  apply In_by_computation, H, Hx.
Qed.

(** The end-to-end scenario of the specification: two groups, Alice first;
    two documents; Alice's document shows her first row. *)
Example scenario_two_groups :
  unique_names Sample.people (lit "name")
    = Ok [Str (lit "Alice"); Str (lit "Bob")]
  /\ (let run := Run.convert (Ok Sample.people) (lit "name") (lit "out") [] in
      fst run = Completed
      /\ success_count (snd run) = 2 /\ error_count (snd run) = 0
      /\ map pdf_filename (files (snd run))
         = [lit "out/Bob.pdf"; lit "out/Alice.pdf"]
      /\ option_map (@table_data)
           (lookup_file (files (snd run)) (lit "out/Alice.pdf"))
         = Some [[lit "city"; lit "age"; lit "name"];
                 [lit "NY"; lit "30"; lit "Alice"]]).
Proof. vm_compute. repeat split. Qed.

(** A row without a key is in no group; the others are split in two. *)
Example scenario_missing_key :
  groups Sample.people_with_gap (lit "name")
  = Ok [ (Str (lit "Alice"),
          {| columns := Sample.header [lit "name"; lit "age"; lit "city"];
             rows := [ (0, [Str (lit "Alice"); Int 30; Str (lit "NY")]);
                       (3, [Str (lit "Alice"); Int 31; Str (lit "SF")]) ] |});
         (Str (lit "Bob"),
          {| columns := Sample.header [lit "name"; lit "age"; lit "city"];
             rows := [ (2, [Str (lit "Bob"); Int 25; NaN]) ] |}) ].
Proof. vm_compute. reflexivity. Qed.

(** A failing writer for Alice: one error, Bob's document is written. *)
Example scenario_injected_fault :
  let run := Run.convert_faulty (Ok Sample.people) (lit "name") (lit "out") []
  in fst run = Completed
     /\ success_count (snd run) = 1 /\ error_count (snd run) = 1
     /\ map pdf_filename (files (snd run)) = [lit "out/Bob.pdf"].
Proof. vm_compute. repeat split. Qed.

(** A numeric key makes the renderer raise, and is counted as an error. *)
Example scenario_numeric_key :
  let run := Run.convert
               (Ok (loaded [Str (lit "id")] [[Int 7]; [Str (lit "x")]]))
               (lit "id") (lit "out") []
  in fst run = Completed
     /\ success_count (snd run) = 1 /\ error_count (snd run) = 1.
Proof. vm_compute. repeat split. Qed.

(** The partition property on the table with a missing key. *)
Lemma grouping_partitions_keyed_rows_witness :
  exists gs : list (cell * DataFrame),
    groups Sample.people_with_gap (lit "name") = Ok gs
    /\ Permutation (concat (map (fun g => rows (snd g)) gs))
         (keyed_rows Sample.people_with_gap (lit "name"))
    /\ NoDup (map fst (concat (map (fun g => rows (snd g)) gs)))
    /\ List.length gs = 2.
Proof.
  destruct (@grouping_partitions_keyed_rows Sample.people_with_gap
              (lit "name"))
    as [gs [H1 [_ [_ [H4 [H5 [_ [_ H8]]]]]]]].
  - apply In_by_computation. vm_compute. reflexivity.
  - apply loaded_labels_NoDup.
  - exists gs. split; [exact H1|]. split; [exact H4|]. split; [exact H5|].
    rewrite H8. vm_compute. reflexivity.
Defined.

(** Ten columns give two rows of ten cells, eleven give eleven rows of two. *)
Lemma layout_threshold_witness :
  (exists headers values,
      Run.table_of (Run.wide 11) (Sample.letters 10) = Ok [headers; values]
      /\ List.length headers = 10 /\ List.length values = 10)
  /\ (exists table,
        Run.table_of (Run.wide 11) (Sample.letters 11) = Ok table
        /\ List.length table = 11
        /\ Forall (fun row => List.length row = 2) table).
Proof.
  split.
  - apply (@layout_threshold false Sample.unchanged Sample.unchanged
             Sample.unchanged (Run.wide 11) (Sample.letters 10)).
    + apply incl_by_computation. vm_compute. reflexivity.
    + vm_compute. reflexivity.
  - apply (@layout_threshold false Sample.unchanged Sample.unchanged
             Sample.unchanged (Run.wide 11) (Sample.letters 11)).
    + apply incl_by_computation. vm_compute. reflexivity.
    + vm_compute. reflexivity.
Defined.

(** Alice's table is made of her first row; her second row is not in
    it. *)
Lemma renderer_reads_first_row_only_witness :
  Run.table_of
    {| columns := Sample.header [lit "name"; lit "age"; lit "city"];
       rows := [ (0, [Str (lit "Alice"); Int 30; Str (lit "NY")]);
                 (2, [Str (lit "Alice"); Int 31; Str (lit "SF")]) ] |}
    (Sample.header [lit "name"; lit "age"; lit "city"])
  = Ok [ [lit "city"; lit "age"; lit "name"];
         [lit "NY"; lit "30"; lit "Alice"] ]
  /\ field_value
       {| columns := Sample.header [lit "name"; lit "age"; lit "city"];
          rows := [ (0, [Str (lit "Alice"); Int 30; Str (lit "NY")]);
                    (2, [Str (lit "Alice"); Int 31; Str (lit "SF")]) ] |}
       (Str (lit "age"))
     = Ok (Int 30).
Proof.
  destruct (@renderer_reads_first_row_only false Sample.unchanged
              Sample.unchanged Sample.unchanged Sample.ascii_only
              (lit "Report") (lit "Generated") Sample.clock
              Sample.no_markup Sample.no_fault
              (Sample.header [lit "name"; lit "age"; lit "city"]) 0
              [Str (lit "Alice"); Int 30; Str (lit "NY")]
              [(2, [Str (lit "Alice"); Int 31; Str (lit "SF")])]
              (Sample.header [lit "name"; lit "age"; lit "city"]))
    as [H1 [H2 _]].
  - apply incl_refl.
  - split.
    + exact H1.
    + apply (H2 (Str (lit "age")) 1). reflexivity.
Defined.

(** The three-column table is laid out horizontally, reversed; the missing
    city of Bob shows as a dash; the eleven-column table is laid out
    vertically. *)
Lemma table_layouts_witness :
  Run.table_of Sample.people_with_gap
    (Sample.header [lit "name"; lit "age"; lit "city"])
  = Ok [ [lit "city"; lit "age"; lit "name"];
         [lit "NY"; lit "30"; lit "Alice"] ]
  /\ Run.table_of (select Sample.people_with_gap [false; false; true; false])
       (Sample.header [lit "name"; lit "age"; lit "city"])
     = Ok [ [lit "city"; lit "age"; lit "name"];
            [lit "-"; lit "25"; lit "Bob"] ]
  /\ Run.table_of (Run.wide 11) (Sample.letters 11)
     = Ok (map (fun k => [lit (NilZero.string_of_int (Z.to_int (Z.of_nat k)));
                          [N.of_nat (97 + k)]])
             (seq 0 11)).
Proof.
  split; [|split].
  - apply (@table_layouts false Sample.unchanged Sample.unchanged
             Sample.unchanged Sample.people_with_gap
             (Sample.header [lit "name"; lit "age"; lit "city"])).
    + apply incl_by_computation. vm_compute. reflexivity.
    + vm_compute. lia.
  - apply (@table_layouts false Sample.unchanged Sample.unchanged
             Sample.unchanged
             (select Sample.people_with_gap [false; false; true; false])
             (Sample.header [lit "name"; lit "age"; lit "city"])).
    + apply incl_by_computation. vm_compute. reflexivity.
    + vm_compute. lia.
  - apply (@table_layouts false Sample.unchanged Sample.unchanged
             Sample.unchanged (Run.wide 11) (Sample.letters 11)).
    + apply incl_by_computation. vm_compute. reflexivity.
    + vm_compute. lia.
Defined.

(** Asking the sample table for the column ["nom"] gives the message;
    asking the table with the years in its header for ["person"] gives no
    message. *)
Lemma missing_column_message_or_type_error_witness :
  fst (Run.convert (Ok Sample.yearly) (lit "person") (lit "out") [])
  = NoDialog TypeError
  /\ fst (Run.convert (Ok Sample.people) (lit "nom") (lit "out") [])
     = ErrorDialog
         (lit "Column 'nom' not found." ++ [10%N]
            ++ lit "Available columns: name, age, city")
  /\ listed_columns (lit "nom")
       (lit "Column 'nom' not found." ++ [10%N]
          ++ lit "Available columns: name, age, city")
     = [lit "name"; lit "age"; lit "city"].
Proof.
  split.
  - destruct (@missing_column_message_or_type_error false Sample.unchanged
                Sample.unchanged Sample.unchanged Sample.ascii_only
                (lit "Report") (lit "Generated") Sample.clock
                Sample.no_markup Sample.no_fault
                Sample.yearly (lit "person") (lit "out") [])
      as [_ [_ [_ [_ [_ [_ H]]]]]].
    + apply not_In_by_computation. vm_compute. reflexivity.
    + apply (H (Int 2020)).
      * right. left. reflexivity.
      * discriminate.
  - destruct (@missing_column_message_or_type_error false Sample.unchanged
                Sample.unchanged Sample.unchanged Sample.ascii_only
                (lit "Report") (lit "Generated") Sample.clock
                Sample.no_markup Sample.no_fault
                Sample.people (lit "nom") (lit "out") [])
      as [_ [_ [_ [_ [_ [H _]]]]]].
    + apply not_In_by_computation. vm_compute. reflexivity.
    + destruct (H [lit "name"; lit "age"; lit "city"] eq_refl)
        as [H1 [_ [_ H4]]].
      split; [exact H1|]. apply H4; [discriminate|].
      repeat constructor; intros [b [a E]]; vm_compute in E;
        repeat (destruct b as [|? b]; try discriminate E).
Defined.

(** The writer fails on Alice's document; Bob's is still written. *)
Lemma render_failure_does_not_abort_witness :
  exists st2 final,
    process_person false Sample.unchanged Sample.unchanged Sample.unchanged
      Sample.ascii_only (lit "Report") (lit "Generated") Sample.clock
      Sample.no_markup
      (Sample.fault_on (lit "out/Alice.pdf")) Sample.people (lit "name")
      (lit "out") (announce (start []) 0 2 (Str (lit "Alice")))
      (Str (lit "Alice")) = Ok st2
    /\ error_count st2 = 1 /\ success_count st2 = 0 /\ files st2 = []
    /\ Run.loop_faulty Sample.people (lit "name") (lit "out") 2 (start []) 0
         [Str (lit "Alice"); Str (lit "Bob")] = (final, None)
    /\ success_count final + error_count final = 2
    /\ exists doc,
         pdf_filename doc = lit "out/Bob.pdf" /\ In doc (files final).
Proof.
  destruct (@render_failure_does_not_abort false Sample.unchanged
              Sample.unchanged Sample.unchanged Sample.ascii_only
              (lit "Report") (lit "Generated") Sample.clock Sample.no_markup
              (Sample.fault_on (lit "out/Alice.pdf")) Sample.people
              (lit "name") (lit "out") 2 (start []) 0 []
              (Str (lit "Alice")) [Str (lit "Bob")] (LibraryError 2))
    as [st2 [final [H1 [H2 [H3 [H4 [_ [H6 [_ [H8 H9]]]]]]]]]].
  - apply In_by_computation. vm_compute. reflexivity.
  - vm_compute. reflexivity.
  - exists st2, final.
    split; [exact H1|]. split; [exact H2|]. split; [exact H3|].
    split; [exact H4|]. split; [exact H6|]. split; [exact H8|].
    pose proof H1 as E. vm_compute in E. injection E as E. subst st2.
    destruct (H9 [] (Str (lit "Bob")) [] (lit "out/Bob.pdf")
                (match Run.render_faulty []
                         (frame_of Sample.people (lit "name")
                            (Str (lit "Bob")))
                         (Str (lit "Bob")) (lit "out")
                         (columns Sample.people) with
                 | Ok written => snd written
                 | Raise _ => []
                 end) eq_refl)
      as [doc [later [st4 [_ [Hp [_ [_ [_ Hf]]]]]]]].
    + vm_compute. reflexivity.
    + exists doc. split; [exact Hp|].
      rewrite Hf. apply in_or_app. right. left. reflexivity.
Defined.

(** The names ["?!"] and two spaces are both written to [out/.pdf]. *)
Lemma empty_file_name_collision_witness :
  safe_filename Sample.ascii_only (Str (lit "?!")) = Ok []
  /\ safe_filename Sample.ascii_only (Str (lit "  ")) = Ok []
  /\ (exists doc,
        Run.render [] Sample.people (Str (lit "?!")) (lit "out")
          (columns Sample.people) = Ok (lit "out/.pdf", [doc]))
  /\ (exists doc,
        Run.render [] Sample.people (Str (lit "  ")) (lit "out")
          (columns Sample.people) = Ok (lit "out/.pdf", [doc])).
Proof.
  destruct (@empty_file_name_collision false Sample.unchanged
              Sample.unchanged Sample.unchanged Sample.ascii_only
              (lit "Report") (lit "Generated") Sample.clock
              Sample.no_markup Sample.no_fault)
    as [[_ [_ [_ [D1 D2]]]] H].
  destruct (H (lit "?!") D1) as [S1 P1].
  destruct (H (lit "  ") D2) as [S2 P2].
  split; [exact S1|]. split; [exact S2|]. split.
  - destruct (P1 (lit "out")) as [_ R].
    destruct (R [] Sample.people (columns Sample.people)
                [ [lit "city"; lit "age"; lit "name"];
                  [lit "NY"; lit "30"; lit "Alice"] ])
      as [_ W]; [vm_compute; reflexivity|].
    destruct W as [W _];
      [reflexivity | reflexivity | vm_compute; reflexivity |].
    eexists. exact W.
  - destruct (P2 (lit "out")) as [_ R].
    destruct (R [] Sample.people (columns Sample.people)
                [ [lit "city"; lit "age"; lit "name"];
                  [lit "NY"; lit "30"; lit "Alice"] ])
      as [_ W]; [vm_compute; reflexivity|].
    destruct W as [W _];
      [reflexivity | reflexivity | vm_compute; reflexivity |].
    eexists. exact W.
Defined.

(* ------------------------------------------------------------------ *)
(** * Further properties *)

(** ** The order and the content of the groups *)

Lemma filter_present_app (l m : list cell) :
  filter (fun v => negb (isna v)) (l ++ m)
  = filter (fun v => negb (isna v)) l ++ filter (fun v => negb (isna v)) m.
Proof. apply filter_app. Qed.

Lemma unique_from_order (vals : list cell) :
  forall (seen p q r : list cell) (v w : cell),
    vals = p ++ v :: q ++ w :: r ->
    ~ In v seen -> ~ In w seen ->
    ~ In v p -> ~ In w p -> ~ In w q -> v <> w ->
    exists a b c, unique_from seen vals = a ++ v :: b ++ w :: c.
Proof.
  intros seen p q r v w E Hvs Hws Hvp Hwp Hwq Hvw.
  destruct (@unique_from_first_appearance seen vals v p (q ++ w :: r) E Hvp Hvs)
    as [front [back [Ev Hfront]]].
  assert (Hw : In w (unique_from seen vals)).
  { apply unique_from_In. split; [|exact Hws].
    rewrite E. apply in_or_app. right. right.
    apply in_or_app. right. left. reflexivity. }
  rewrite Ev in Hw. apply in_app_or in Hw.
  destruct Hw as [Hw|[Hw|Hw]].
  - exfalso. apply Hwp, Hfront, Hw.
  - congruence.
  - apply in_split in Hw. destruct Hw as [b [c ->]].
    exists front, b, c. exact Ev.
Qed.

(** X1.  The groups come in the order in which their keys first appear in
    the key column: when the first occurrence of the key [v] is above the
    first occurrence of the key [w], [v] is listed before [w]. *)
Theorem unique_names_in_order_of_first_appearance :
  forall (df : DataFrame) (name_column : pystr)
         (p q r : list cell) (v w : cell),
    In (Str name_column) (columns df) ->
    map (key_cell df name_column) (rows df) = p ++ v :: q ++ w :: r ->
    isna v = false -> isna w = false ->
    ~ In v p -> ~ In w p -> ~ In w q -> v <> w ->
    exists a b c,
      unique_names df name_column = Ok (a ++ v :: b ++ w :: c).
Proof.
  intros df K p q r v w HK Ekeys Hv Hw Hvp Hwp Hwq Hvw.
  rewrite unique_names_present by exact HK.
  rewrite Ekeys.
  destruct (@unique_from_order
              (filter (fun x => negb (isna x)) (p ++ v :: q ++ w :: r)) []
              (filter (fun x => negb (isna x)) p)
              (filter (fun x => negb (isna x)) q)
              (filter (fun x => negb (isna x)) r) v w)
    as [a [b [c E]]].
  - rewrite filter_present_app. cbn [filter]. rewrite Hv. cbn [negb].
    rewrite filter_present_app. cbn [filter]. rewrite Hw. reflexivity.
  - intros [].
  - intros [].
  - intro H. apply filter_In in H. tauto.
  - intro H. apply filter_In in H. tauto.
  - intro H. apply filter_In in H. tauto.
  - exact Hvw.
  - exists a, b, c. rewrite E. reflexivity.
Qed.

(** The order on the sample table with two more people. *)
Lemma unique_names_in_order_of_first_appearance_witness :
  exists a b c,
    unique_names
      (loaded [Str (lit "name")]
         [[Str (lit "Bob")]; [NaN]; [Str (lit "Alice")]; [Str (lit "Bob")];
          [Str (lit "Carol")]])
      (lit "name")
    = Ok (a ++ Str (lit "Bob") :: b ++ Str (lit "Carol") :: c).
Proof.
  apply (@unique_names_in_order_of_first_appearance
           (loaded [Str (lit "name")]
              [[Str (lit "Bob")]; [NaN]; [Str (lit "Alice")];
               [Str (lit "Bob")]; [Str (lit "Carol")]])
           (lit "name") [] [NaN; Str (lit "Alice"); Str (lit "Bob")] []
           (Str (lit "Bob")) (Str (lit "Carol"))).
  - apply In_by_computation. vm_compute. reflexivity.
  - vm_compute. reflexivity.
  - reflexivity.
  - reflexivity.
  - intros [].
  - intros [].
  - simpl. intros [H|[H|[H|[]]]]; discriminate H.
  - discriminate.
Defined.

(** X2.  Every group the loop goes through has at least one row, has the
    table's columns, and consists of the rows of the table, in the table's
    order, whose key cell is the group's key; the key is not missing. *)
Theorem groups_are_nonempty_and_keyed :
  forall (df : DataFrame) (name_column : pystr)
         (gs : list (cell * DataFrame)) (name : cell) (pd : DataFrame),
    In (Str name_column) (columns df) ->
    groups df name_column = Ok gs ->
    In (name, pd) gs ->
    isna name = false
    /\ rows pd <> []
    /\ columns pd = columns df
    /\ rows pd
       = filter (fun row => cell_eqb (key_cell df name_column row) name)
           (rows df)
    /\ Forall (fun row => key_cell df name_column row = name) (rows pd).
Proof.
  intros df K gs name pd HK Hgs Hin.
  unfold groups in Hgs. rewrite unique_names_present in Hgs by exact HK.
  unfold bind in Hgs. rewrite frames_of_present in Hgs by exact HK.
  injection Hgs as <-. apply in_map_iff in Hin.
  destruct Hin as [v [Ev Hv]]. injection Ev as -> <-.
  apply unique_from_In in Hv. destruct Hv as [Hv _].
  apply filter_In in Hv. destruct Hv as [Hv Hna].
  apply negb_true_iff in Hna. apply in_map_iff in Hv.
  destruct Hv as [row [Hkey Hrow]].
  split; [exact Hna|]. split; [|split; [reflexivity|split; [reflexivity|]]].
  - simpl. unfold group_rows. intro Hempty.
    assert (Hmem : In row (filter (fun r => cell_eqb (key_cell df K r) name)
                             (rows df))).
    { apply filter_In. split; [exact Hrow|].
      apply cell_eqb_true. split; assumption. }
    rewrite Hempty in Hmem. exact Hmem.
  - simpl. apply Forall_forall. intros r Hr. unfold group_rows in Hr.
    apply filter_In in Hr. destruct Hr as [_ Hr].
    apply cell_eqb_true in Hr. tauto.
Qed.

(** Alice's group in the table with a missing key. *)
Lemma groups_are_nonempty_and_keyed_witness :
  rows {| columns := columns Sample.people_with_gap;
          rows := group_rows Sample.people_with_gap (lit "name")
                    (Str (lit "Alice")) |} <> []
  /\ Forall (fun row => key_cell Sample.people_with_gap (lit "name") row
                        = Str (lit "Alice"))
       (group_rows Sample.people_with_gap (lit "name") (Str (lit "Alice"))).
Proof.
  destruct (@groups_are_nonempty_and_keyed Sample.people_with_gap
              (lit "name")
              [ (Str (lit "Alice"),
                 {| columns := columns Sample.people_with_gap;
                    rows := group_rows Sample.people_with_gap (lit "name")
                              (Str (lit "Alice")) |});
                (Str (lit "Bob"),
                 {| columns := columns Sample.people_with_gap;
                    rows := group_rows Sample.people_with_gap (lit "name")
                              (Str (lit "Bob")) |}) ]
              (Str (lit "Alice"))
              {| columns := columns Sample.people_with_gap;
                 rows := group_rows Sample.people_with_gap (lit "name")
                           (Str (lit "Alice")) |})
    as [_ [H2 [_ [_ H5]]]].
  - apply In_by_computation. vm_compute. reflexivity.
  - vm_compute. reflexivity.
  - left. reflexivity.
  - split; [exact H2 | exact H5].
Defined.

(* ------------------------------------------------------------------ *)
(** ** The whole batch *)

Section BatchMore.

Variable BIDI_SUPPORT : bool.
Variables reshape_configured reshape_default get_display
  : pystr -> result pystr.
Variable unicode_isalnum : codepoint -> bool.
Variables title_label date_label : pystr.
Variable now : directory -> pystr.
Variable paragraph_fault : style -> pystr -> option exn.
Variable build_fault : directory -> document -> option exn.

Let render := create_pdf_for_person BIDI_SUPPORT reshape_configured
                reshape_default get_display unicode_isalnum
                title_label date_label now paragraph_fault build_fault.
Let loop := process_people BIDI_SUPPORT reshape_configured
              reshape_default get_display unicode_isalnum
              title_label date_label now paragraph_fault build_fault.
Let tally := counted BIDI_SUPPORT reshape_configured reshape_default
               get_display unicode_isalnum title_label date_label now
               paragraph_fault
               build_fault.

(** What a successful call of the renderer tells. *)
Lemma create_pdf_for_person_ok_inv (dir dir' : directory) (pd : DataFrame)
  (person_name : cell) (output_dir path : pystr) (cols : list cell) :
  render dir pd person_name output_dir cols = Ok (path, dir') ->
  exists name doc,
    person_name = Str name
    /\ dir' = doc :: dir
    /\ pdf_filename doc = path
    /\ path = path_join output_dir
                (sanitize unicode_isalnum name ++ lit ".pdf").
Proof.
  unfold render. rewrite create_pdf_for_person_unfold.
  destruct person_name as [|name|z]; try discriminate.
  destruct (paragraph_fault PersianTitle _); try discriminate.
  destruct (paragraph_fault PersianNormal _); try discriminate.
  destruct (make_table_data _ _ _ _ pd cols) as [table|]; try discriminate.
  cbv zeta. destruct (build_fault _ _); try discriminate.
  intro H. injection H as <- <-.
  exists name. eexists. repeat split.
Qed.

Variable df : DataFrame.
Variables name_column output_dir : pystr.
Hypothesis key_present : In (Str name_column) (columns df).

(** The two ways a turn can end. *)
Lemma counted_cases (st : batch) (name : cell) :
  (exists text doc,
      name = Str text
      /\ pdf_filename doc
         = path_join output_dir
             (sanitize unicode_isalnum text ++ lit ".pdf")
      /\ tally df name_column output_dir st name
         = {| success_count := success_count st + 1;
              error_count := error_count st;
              files := doc :: files st;
              status := status st |})
  \/ ((exists e,
          render (files st) (frame_of df name_column name) name output_dir
            (columns df) = Raise e)
      /\ tally df name_column output_dir st name
         = {| success_count := success_count st;
              error_count := error_count st + 1;
              files := files st;
              status := status st |}).
Proof.
  unfold tally, counted. fold render.
  destruct (render (files st) (frame_of df name_column name) name
              output_dir (columns df)) as [[p d]|e] eqn:E.
  - left. apply create_pdf_for_person_ok_inv in E.
    destruct E as [text [doc [-> [-> [Hp Hpath]]]]].
    exists text, doc. split; [reflexivity|]. split; [congruence|reflexivity].
  - right. split; [eauto | reflexivity].
Qed.

(** The status lines: one per group, numbered from [i + 1], each with the
    total. *)
Lemma process_people_trace (total : nat) (names : list cell) :
  forall (st : batch) (i : nat),
    status (fst (loop df name_column output_dir total st i names))
    = rev (map (fun p => (fst p + 1, total, snd p))
             (combine (seq i (List.length names)) names))
      ++ status st.
Proof.
  induction names as [|name names IH]; intros st i; [reflexivity|].
  unfold loop. rewrite process_people_cons by exact key_present.
  fold loop. rewrite IH. rewrite counted_status.
  cbn [announce status List.length seq combine map rev fst snd].
  rewrite <- app_assoc. reflexivity.
Qed.

(** The writes of the loop: as many as successes, each for a group whose
    key is a string, under the sanitised key, put in front of the writes
    made before. *)
Lemma process_people_written (total : nat) (names : list cell) :
  forall (st : batch) (i : nat),
    exists new,
      files (fst (loop df name_column output_dir total st i names))
      = new ++ files st
      /\ success_count
           (fst (loop df name_column output_dir total st i names))
         = success_count st + List.length new
      /\ Forall (fun doc =>
                   exists text,
                     In (Str text) names
                     /\ pdf_filename doc
                        = path_join output_dir
                            (sanitize unicode_isalnum text ++ lit ".pdf"))
           new.
Proof.
  induction names as [|name names IH]; intros st i.
  - exists []. simpl. split; [reflexivity|]. split; [lia | constructor].
  - unfold loop. rewrite process_people_cons by exact key_present.
    fold loop. fold tally.
    destruct (IH (tally df name_column output_dir
                    (announce st i total name) name) (S i))
      as [new [Hfiles [Hcount Hdocs]]].
    assert (Hweaken : Forall (fun doc =>
                        exists text,
                          In (Str text) (name :: names)
                          /\ pdf_filename doc
                             = path_join output_dir
                                 (sanitize unicode_isalnum text
                                    ++ lit ".pdf")) new).
    { eapply Forall_impl; [|exact Hdocs].
      intros doc [text [Hin Hp]]. exists text. split; [right; exact Hin|].
      exact Hp. }
    destruct (counted_cases (announce st i total name) name)
      as [[text [doc [Hname [Hpath Hst]]]] | [_ Hst]].
    + exists (new ++ [doc]). rewrite Hfiles, Hcount, Hst.
      cbn [files success_count announce].
      rewrite <- app_assoc, length_app. split; [reflexivity|].
      split; [simpl; lia|].
      apply Forall_app. split; [exact Hweaken|].
      constructor; [|constructor].
      exists text. split; [left; exact Hname | exact Hpath].
    + exists new. rewrite Hfiles, Hcount, Hst.
      cbn [files success_count announce].
      split; [reflexivity|]. split; [reflexivity | exact Hweaken].
Qed.

(** A group whose key is not a string is counted as an error and leaves
    the directory alone. *)
Lemma process_people_no_strings (total : nat) (names : list cell) :
  Forall (fun name => forall text, name <> Str text) names ->
  forall (st : batch) (i : nat),
    let final := fst (loop df name_column output_dir total st i names) in
    success_count final = success_count st
    /\ error_count final = error_count st + List.length names
    /\ files final = files st.
Proof.
  induction 1 as [|name names Hname _ IH]; intros st i.
  - simpl. repeat split. lia.
  - cbv zeta. unfold loop.
    rewrite process_people_cons by exact key_present. fold loop. fold tally.
    destruct (IH (tally df name_column output_dir
                    (announce st i total name) name) (S i))
      as [H1 [H2 H3]].
    destruct (counted_cases (announce st i total name) name)
      as [[text [_ [Habs _]]] | [_ Hst]].
    + exfalso. exact (Hname text Habs).
    + rewrite H1, H2, H3, Hst. cbn [announce success_count error_count
        files List.length]. repeat split. lia.
Qed.

End BatchMore.

Lemma no_key_no_names (df : DataFrame) (name_column : pystr) :
  In (Str name_column) (columns df) ->
  Forall (fun row => isna (key_cell df name_column row) = true) (rows df) ->
  unique_names df name_column = Ok [].
Proof.
  intros HK Hall. rewrite unique_names_present by exact HK.
  replace (filter (fun v => negb (isna v))
             (map (key_cell df name_column) (rows df))) with (@nil cell);
    [reflexivity|].
  induction Hall as [|row l Hrow _ IH]; [reflexivity|].
  simpl. rewrite Hrow. exact IH.
Qed.

Lemma process_conversion_present
  (BIDI_SUPPORT : bool)
  (reshape_configured reshape_default get_display : pystr -> result pystr)
  (unicode_isalnum : codepoint -> bool) (title_label date_label : pystr)
  (now : directory -> pystr)
  (paragraph_fault : style -> pystr -> option exn)
  (build_fault : directory -> document -> option exn)
  (df : DataFrame) (name_column output_dir : pystr) (dir : directory)
  (names : list cell) :
  In (Str name_column) (columns df) ->
  unique_names df name_column = Ok names ->
  process_conversion BIDI_SUPPORT reshape_configured reshape_default
    get_display unicode_isalnum title_label date_label now
    paragraph_fault build_fault
    (Ok df) name_column output_dir dir
  = (Completed,
     fst (process_people BIDI_SUPPORT reshape_configured reshape_default
            get_display unicode_isalnum title_label date_label now
            paragraph_fault
            build_fault df name_column output_dir (List.length names)
            (start dir) 0 names)).
Proof.
  intros HK Hnames. unfold process_conversion, has_column.
  destruct (in_dec cell_eq_dec (Str name_column) (columns df));
    [|contradiction].
  cbn [negb]. rewrite Hnames.
  pose proof (@process_people_completes BIDI_SUPPORT reshape_configured
                reshape_default get_display unicode_isalnum title_label
                date_label now paragraph_fault build_fault
                df name_column output_dir HK
                (List.length names) names (start dir) 0) as Hnone.
  destruct (process_people _ _ _ _ _ _ _ _ _ _ _ _ _ _ _ _) as [st o].
  simpl in Hnone. subst o. reflexivity.
Qed.

(** X3.  With the key column present the batch always runs to completion:
    every group gets one status line, numbered 1, 2, ... in the order of the
    groups and carrying the total, and every group is counted exactly once,
    as a success or as an error. *)
Theorem batch_runs_to_completion :
  forall (BIDI_SUPPORT : bool)
         (reshape_configured reshape_default get_display
            : pystr -> result pystr)
         (unicode_isalnum : codepoint -> bool)
         (title_label date_label : pystr) (now : directory -> pystr)
         (paragraph_fault : style -> pystr -> option exn)
         (build_fault : directory -> document -> option exn)
         (df : DataFrame) (name_column output_dir : pystr)
         (dir : directory),
    In (Str name_column) (columns df) ->
    exists (names : list cell) (st : batch),
      unique_names df name_column = Ok names
      /\ process_conversion BIDI_SUPPORT reshape_configured reshape_default
           get_display unicode_isalnum title_label date_label now
           paragraph_fault
           build_fault (Ok df) name_column output_dir dir
         = (Completed, st)
      /\ success_count st + error_count st = List.length names
      /\ rev (status st)
         = map (fun p => (fst p + 1, List.length names, snd p))
             (combine (seq 0 (List.length names)) names).
Proof.
  intros B rc rd gd u tl dl now pf bf df K out dir HK.
  destruct (getitem_present df (Str K) HK) as [s Hs].
  exists (unique (dropna s)). eexists.
  assert (Hnames : unique_names df K = Ok (unique (dropna s))).
  { unfold unique_names. rewrite Hs. reflexivity. }
  split; [exact Hnames|].
  split; [exact (@process_conversion_present B rc rd gd u tl dl now pf bf df K
                   out dir _ HK Hnames)|].
  split.
  - rewrite (@process_people_counts B rc rd gd u tl dl now pf bf df K out HK).
    reflexivity.
  - rewrite (@process_people_trace B rc rd gd u tl dl now pf bf df K out HK).
    simpl. rewrite app_nil_r, rev_involutive. reflexivity.
Qed.

(** The two status lines of the people table. *)
Lemma batch_runs_to_completion_witness :
  exists st,
    Run.convert_faulty (Ok Sample.people) (lit "name") (lit "out") []
    = (Completed, st)
    /\ success_count st + error_count st = 2
    /\ rev (status st)
       = [(1, 2, Str (lit "Alice")); (2, 2, Str (lit "Bob"))].
Proof.
  destruct (@batch_runs_to_completion false Sample.unchanged
              Sample.unchanged Sample.unchanged Sample.ascii_only
              (lit "Report") (lit "Generated") Sample.clock Sample.no_markup
              (Sample.fault_on (lit "out/Alice.pdf")) Sample.people
              (lit "name") (lit "out") [])
    as [names [st [H1 [H2 [H3 H4]]]]].
  - apply In_by_computation. vm_compute. reflexivity.
  - vm_compute in H1. injection H1 as <-.
    exists st. split; [exact H2|]. split; [exact H3 | exact H4].
Defined.

(** *** What the directory holds after a series of writes *)

Lemma lookup_file_cons (doc : document) (dir : directory) (path : pystr) :
  lookup_file (doc :: dir) path
  = if pystr_eqb (pdf_filename doc) path then Some doc
    else lookup_file dir path.
Proof. reflexivity. Qed.

Lemma pystr_eqb_eq (a b : pystr) : pystr_eqb a b = true <-> a = b.
Proof.
  unfold pystr_eqb. destruct (pystr_eq_dec a b) as [E|E]; split; intro H;
    first [assumption | reflexivity | discriminate | contradiction].
Qed.

Lemma lookup_file_untouched (new dir : directory) (path : pystr) :
  (forall doc, In doc new -> pdf_filename doc <> path) ->
  lookup_file (new ++ dir) path = lookup_file dir path.
Proof.
  induction new as [|d new IH]; intro H; [reflexivity|].
  rewrite <- app_comm_cons, lookup_file_cons.
  destruct (pystr_eqb (pdf_filename d) path) eqn:E.
  - apply pystr_eqb_eq in E. exfalso. apply (H d); [left; reflexivity|exact E].
  - apply IH. intros doc Hdoc. apply H. right. exact Hdoc.
Qed.

Lemma lookup_file_replaced (new dir : directory) (path : pystr) :
  (exists doc, In doc new /\ pdf_filename doc = path) ->
  exists doc,
    In doc new /\ pdf_filename doc = path
    /\ lookup_file (new ++ dir) path = Some doc.
Proof.
  induction new as [|d new IH]; intros [doc [Hin Hpath]]; [contradiction|].
  rewrite <- app_comm_cons, lookup_file_cons.
  destruct (pystr_eqb (pdf_filename d) path) eqn:E.
  - apply pystr_eqb_eq in E. exists d.
    split; [left; reflexivity|]. split; [exact E | reflexivity].
  - destruct Hin as [->|Hin].
    + apply pystr_eqb_eq in Hpath. congruence.
    + destruct IH as [doc' [Hin' [Hpath' Hfound]]]; [eauto|].
      exists doc'. split; [right; exact Hin'|]. split; assumption.
Qed.

(** X4.  The batch runs the PDF writer once per counted success, each time
    for a group whose key is a string, at the path made of the output
    directory and the sanitised key followed by [".pdf"].  Afterwards a path
    none of these writes went to holds what it held before the batch, and a
    path one of them went to holds a document of this batch: a file that was
    there before under the same name is replaced. *)
Theorem batch_writes_one_document_per_success :
  forall (BIDI_SUPPORT : bool)
         (reshape_configured reshape_default get_display
            : pystr -> result pystr)
         (unicode_isalnum : codepoint -> bool)
         (title_label date_label : pystr) (now : directory -> pystr)
         (paragraph_fault : style -> pystr -> option exn)
         (build_fault : directory -> document -> option exn)
         (df : DataFrame) (name_column output_dir : pystr)
         (dir : directory),
    In (Str name_column) (columns df) ->
    exists (names : list cell) (st : batch) (new : list document),
      unique_names df name_column = Ok names
      /\ process_conversion BIDI_SUPPORT reshape_configured reshape_default
           get_display unicode_isalnum title_label date_label now
           paragraph_fault build_fault (Ok df) name_column output_dir dir
         = (Completed, st)
      /\ files st = new ++ dir
      /\ List.length new = success_count st
      /\ Forall (fun doc =>
                   exists text,
                     In (Str text) names
                     /\ pdf_filename doc
                        = path_join output_dir
                            (sanitize unicode_isalnum text ++ lit ".pdf"))
           new
      /\ (forall path,
            (forall doc, In doc new -> pdf_filename doc <> path) ->
            lookup_file (files st) path = lookup_file dir path)
      /\ (forall path,
            (exists doc, In doc new /\ pdf_filename doc = path) ->
            exists doc,
              In doc new /\ pdf_filename doc = path
              /\ lookup_file (files st) path = Some doc).
Proof.
  intros B rc rd gd u tl dl now pf bf df K out dir HK.
  destruct (getitem_present df (Str K) HK) as [s Hs].
  assert (Hnames : unique_names df K = Ok (unique (dropna s))).
  { unfold unique_names. rewrite Hs. reflexivity. }
  destruct (@process_people_written B rc rd gd u tl dl now pf bf df K out HK
              (List.length (unique (dropna s))) (unique (dropna s))
              (start dir) 0)
    as [new [Hfiles [Hcount Hdocs]]].
  exists (unique (dropna s)). eexists. exists new.
  split; [exact Hnames|].
  split; [exact (@process_conversion_present B rc rd gd u tl dl now pf bf df K
                   out dir _ HK Hnames)|].
  split; [exact Hfiles|]. split; [rewrite Hcount; reflexivity|].
  split; [exact Hdocs|]. split.
  - intros path Hpath. rewrite Hfiles. apply lookup_file_untouched, Hpath.
  - intros path Hpath. rewrite Hfiles. apply lookup_file_replaced, Hpath.
Qed.

(** Alice's render fails and Bob's succeeds, in a directory that already
    holds a report for Bob and one for Carol: Carol's is still there, Bob's
    has been replaced. *)
Lemma batch_writes_one_document_per_success_witness :
  exists st doc,
    Run.convert_faulty (Ok Sample.people) (lit "name") (lit "out")
      [ {| pdf_filename := lit "out/Bob.pdf"; title_text := lit "old";
           timestamp_text := []; table_data := [] |};
        {| pdf_filename := lit "out/Carol.pdf"; title_text := lit "old";
           timestamp_text := []; table_data := [] |} ]
    = (Completed, st)
    /\ success_count st = 1
    /\ lookup_file (files st) (lit "out/Carol.pdf")
       = Some {| pdf_filename := lit "out/Carol.pdf";
                 title_text := lit "old";
                 timestamp_text := []; table_data := [] |}
    /\ lookup_file (files st) (lit "out/Bob.pdf") = Some doc
    /\ title_text doc = lit "Report: Bob".
Proof.
  destruct (@batch_writes_one_document_per_success false Sample.unchanged
              Sample.unchanged Sample.unchanged Sample.ascii_only
              (lit "Report") (lit "Generated") Sample.clock Sample.no_markup
              (Sample.fault_on (lit "out/Alice.pdf")) Sample.people
              (lit "name") (lit "out")
              [ {| pdf_filename := lit "out/Bob.pdf"; title_text := lit "old";
                   timestamp_text := []; table_data := [] |};
                {| pdf_filename := lit "out/Carol.pdf";
                   title_text := lit "old";
                   timestamp_text := []; table_data := [] |} ])
    as [names [st [new [H1 [H2 [H3 [H4 [H5 [H6 H7]]]]]]]]].
  - apply In_by_computation. vm_compute. reflexivity.
  - vm_compute in H1. injection H1 as <-.
    pose proof H2 as E. vm_compute in E. injection E as E. subst st.
    eexists. eexists. split; [exact H2|]. split; [reflexivity|].
    split; [|split].
    + rewrite (H6 (lit "out/Carol.pdf")); [reflexivity|].
      intros doc Hdoc Hpath. rewrite Forall_forall in H5.
      destruct (H5 doc Hdoc) as [text [[Ht|[Ht|[]]] Hp]];
        injection Ht as <-; rewrite Hp in Hpath;
        vm_compute in Hpath; discriminate Hpath.
    + vm_compute. reflexivity.
    + reflexivity.
Defined.

(** X5.  When no row has a key (an empty table, or a key column of missing
    values only) the batch completes at once: no group, no status line, no
    document, both counters zero, and the output directory is not
    opened. *)
Theorem batch_without_keys_does_nothing :
  forall (BIDI_SUPPORT : bool)
         (reshape_configured reshape_default get_display
            : pystr -> result pystr)
         (unicode_isalnum : codepoint -> bool)
         (title_label date_label : pystr) (now : directory -> pystr)
         (paragraph_fault : style -> pystr -> option exn)
         (build_fault : directory -> document -> option exn)
         (df : DataFrame) (name_column output_dir : pystr)
         (dir : directory),
    In (Str name_column) (columns df) ->
    Forall (fun row => isna (key_cell df name_column row) = true)
      (rows df) ->
    groups df name_column = Ok []
    /\ process_conversion BIDI_SUPPORT reshape_configured reshape_default
         get_display unicode_isalnum title_label date_label now paragraph_fault
         build_fault (Ok df) name_column output_dir dir
       = (Completed, start dir)
    /\ opens_output_dir (start dir) = false.
Proof.
  intros B rc rd gd u tl dl now pf bf df K out dir HK Hall.
  pose proof (no_key_no_names df K HK Hall) as Hnames.
  split; [|split; [|reflexivity]].
  - unfold groups. rewrite Hnames. reflexivity.
  - rewrite (@process_conversion_present B rc rd gd u tl dl now pf bf df K out
               dir [] HK Hnames).
    reflexivity.
Qed.

(** A table with two rows and no key. *)
Lemma batch_without_keys_does_nothing_witness :
  Run.convert (Ok (loaded (Sample.header [lit "name"; lit "age"])
       [[NaN; Int 1]; [NaN; Int 2]]))
    (lit "name") (lit "out") []
  = (Completed, start []).
Proof.
  apply (@batch_without_keys_does_nothing false Sample.unchanged
           Sample.unchanged Sample.unchanged Sample.ascii_only
           (lit "Report") (lit "Generated") Sample.clock
           Sample.no_markup Sample.no_fault
           (loaded (Sample.header [lit "name"; lit "age"])
       [[NaN; Int 1]; [NaN; Int 2]])
           (lit "name") (lit "out") []).
  - apply In_by_computation. vm_compute. reflexivity.
  - repeat constructor.
Defined.

(** X6.  When no key of the table is a string (numbers only, say) every
    group fails: the renderer raises when it iterates over the key to build
    the file name, so the batch completes with no success, one error per
    distinct key, nothing written, and the output directory not opened. *)
Theorem batch_of_non_string_keys_only_fails :
  forall (BIDI_SUPPORT : bool)
         (reshape_configured reshape_default get_display
            : pystr -> result pystr)
         (unicode_isalnum : codepoint -> bool)
         (title_label date_label : pystr) (now : directory -> pystr)
         (paragraph_fault : style -> pystr -> option exn)
         (build_fault : directory -> document -> option exn)
         (df : DataFrame) (name_column output_dir : pystr)
         (dir : directory),
    In (Str name_column) (columns df) ->
    Forall (fun row => forall text,
              key_cell df name_column row <> Str text) (rows df) ->
    exists (names : list cell) (st : batch),
      unique_names df name_column = Ok names
      /\ process_conversion BIDI_SUPPORT reshape_configured reshape_default
           get_display unicode_isalnum title_label date_label now
           paragraph_fault
           build_fault (Ok df) name_column output_dir dir
         = (Completed, st)
      /\ success_count st = 0
      /\ error_count st = List.length names
      /\ files st = dir
      /\ opens_output_dir st = false.
Proof.
  intros B rc rd gd u tl dl now pf bf df K out dir HK Hall.
  pose proof (unique_names_present df K HK) as Hnames.
  set (names := unique_from []
                  (filter (fun v => negb (isna v))
                     (map (key_cell df K) (rows df)))) in *.
  assert (Hnot : Forall (fun name => forall text, name <> Str text) names).
  { apply Forall_forall. intros v Hv. unfold names in Hv.
    apply unique_from_In in Hv. destruct Hv as [Hv _].
    apply filter_In in Hv. destruct Hv as [Hv _].
    apply in_map_iff in Hv. destruct Hv as [row [<- Hrow]].
    rewrite Forall_forall in Hall. apply Hall, Hrow. }
  destruct (@process_people_no_strings B rc rd gd u tl dl now pf bf df K out HK
              (List.length names) names Hnot (start dir) 0)
    as [H1 [H2 H3]].
  exists names. eexists.
  split; [exact Hnames|].
  split; [exact (@process_conversion_present B rc rd gd u tl dl now pf bf df K
                   out dir _ HK Hnames)|].
  split; [exact H1|]. split; [exact H2|]. split; [exact H3|].
  unfold opens_output_dir. rewrite H1. reflexivity.
Qed.

(** Two numeric keys. *)
Lemma batch_of_non_string_keys_only_fails_witness :
  exists st,
    Run.convert (Ok (loaded [Str (lit "id")] [[Int 7]; [Int 8]; [Int 7]]))
      (lit "id") (lit "out") []
    = (Completed, st)
    /\ success_count st = 0 /\ error_count st = 2 /\ files st = [].
Proof.
  destruct (@batch_of_non_string_keys_only_fails false Sample.unchanged
              Sample.unchanged Sample.unchanged Sample.ascii_only
              (lit "Report") (lit "Generated") Sample.clock
              Sample.no_markup Sample.no_fault
              (loaded [Str (lit "id")] [[Int 7]; [Int 8]; [Int 7]])
              (lit "id") (lit "out") [])
    as [names [st [H1 [H2 [H3 [H4 [H5 _]]]]]]].
  - apply In_by_computation. vm_compute. reflexivity.
  - repeat constructor; intros text H; vm_compute in H; discriminate H.
  - vm_compute in H1. injection H1 as <-.
    exists st. split; [exact H2|]. split; [exact H3|].
    split; [exact H4 | exact H5].
Defined.

(* ------------------------------------------------------------------ *)
(** ** File names and paths *)

Lemma rstrip_fixed (s : pystr) :
  ends_with_whitespace s = false -> rstrip s = s.
Proof.
  induction s as [|c s IH]; [reflexivity|].
  intro H. rewrite rstrip_cons. destruct s as [|d s].
  - simpl in *. rewrite H. reflexivity.
  - rewrite IH by exact H. reflexivity.
Qed.

Lemma filter_fixed {A : Type} (p : A -> bool) (l : list A) :
  Forall (fun x => p x = true) l -> filter p l = l.
Proof.
  induction 1 as [|x l Hx _ IH]; [reflexivity|].
  simpl. rewrite Hx, IH. reflexivity.
Qed.

Lemma sanitize_fixed (unicode_isalnum : codepoint -> bool) (name : pystr) :
  Forall (fun c => keeps unicode_isalnum c = true) name ->
  ends_with_whitespace name = false ->
  sanitize unicode_isalnum name = name.
Proof.
  intros Hk He. unfold sanitize.
  rewrite filter_fixed by exact Hk. apply rstrip_fixed, He.
Qed.

(** X7.  Sanitising is idempotent, and a name made of letters, digits,
    spaces, hyphens and underscores that does not end with whitespace is its
    own file name. *)
Theorem sanitize_idempotent :
  forall (unicode_isalnum : codepoint -> bool) (name : pystr),
    sanitize unicode_isalnum (sanitize unicode_isalnum name)
    = sanitize unicode_isalnum name
    /\ (Forall (fun c => isalnum unicode_isalnum c = true
                         \/ c = SPACE \/ c = HYPHEN \/ c = UNDERSCORE) name ->
        ends_with_whitespace name = false ->
        sanitize unicode_isalnum name = name).
Proof.
  intros u name. split.
  - apply sanitize_fixed.
    + apply sanitize_only_kept.
    + apply rstrip_no_trailing_whitespace.
  - intros Hk He. apply sanitize_fixed; [|exact He].
    eapply Forall_impl; [|exact Hk].
    intros c Hc. apply keeps_spec. exact Hc.
Qed.

(** A clean name, and a name cleaned twice. *)
Lemma sanitize_idempotent_witness :
  sanitize Sample.ascii_only (lit "Mary-Ann Smith_2") = lit "Mary-Ann Smith_2"
  /\ sanitize Sample.ascii_only (sanitize Sample.ascii_only (lit " a/b. "))
     = sanitize Sample.ascii_only (lit " a/b. ").
Proof.
  destruct (@sanitize_idempotent Sample.ascii_only (lit "Mary-Ann Smith_2"))
    as [_ H].
  split.
  - apply H.
    + repeat (constructor;
              [vm_compute; tauto || (left; reflexivity)|]). constructor.
    + reflexivity.
  - apply (@sanitize_idempotent Sample.ascii_only (lit " a/b. ")).
Defined.






(* ------------------------------------------------------------------ *)
(** ** More on the renderer *)

Lemma lookup_file_head (doc : document) (dir : directory) :
  lookup_file (doc :: dir) (pdf_filename doc) = Some doc.
Proof.
  unfold lookup_file. cbn [find]. unfold pystr_eqb.
  destruct (pystr_eq_dec (pdf_filename doc) (pdf_filename doc));
    [reflexivity | congruence].
Qed.

(** X9.  Two keys with the same sanitised form are written to the same
    path, and the later document replaces the earlier one: after both
    renders the path holds the second document. *)
Theorem same_sanitized_name_overwrites :
  forall (BIDI_SUPPORT : bool)
         (reshape_configured reshape_default get_display
            : pystr -> result pystr)
         (unicode_isalnum : codepoint -> bool)
         (title_label date_label : pystr) (now : directory -> pystr)
         (paragraph_fault : style -> pystr -> option exn)
         (build_fault : directory -> document -> option exn)
         (dir dir1 dir2 : directory) (pd1 pd2 : DataFrame)
         (name1 name2 output_dir path1 path2 : pystr)
         (cols1 cols2 : list cell),
    let render := create_pdf_for_person BIDI_SUPPORT reshape_configured
                    reshape_default get_display unicode_isalnum
                    title_label date_label now paragraph_fault build_fault in
    sanitize unicode_isalnum name1 = sanitize unicode_isalnum name2 ->
    render dir pd1 (Str name1) output_dir cols1 = Ok (path1, dir1) ->
    render dir1 pd2 (Str name2) output_dir cols2 = Ok (path2, dir2) ->
    path1 = path2
    /\ exists doc1 doc2,
         dir1 = doc1 :: dir /\ dir2 = doc2 :: doc1 :: dir
         /\ lookup_file dir1 path1 = Some doc1
         /\ lookup_file dir2 path1 = Some doc2.
Proof.
  intros B rc rd gd u tl dl now pf bf dir dir1 dir2 pd1 pd2 n1 n2 out p1 p2
    cols1 cols2 render Hsame H1 H2.
  apply create_pdf_for_person_ok_inv in H1.
  destruct H1 as [t1 [doc1 [E1 [-> [Hf1 Hp1]]]]]. injection E1 as <-.
  apply create_pdf_for_person_ok_inv in H2.
  destruct H2 as [t2 [doc2 [E2 [-> [Hf2 Hp2]]]]]. injection E2 as <-.
  assert (Hp : p1 = p2) by (rewrite Hp1, Hp2, Hsame; reflexivity).
  split; [exact Hp|]. exists doc1, doc2.
  split; [reflexivity|]. split; [reflexivity|]. split.
  - rewrite <- Hf1. apply lookup_file_head.
  - rewrite Hp, <- Hf2. apply lookup_file_head.
Qed.

(** ["a.b"] and ["ab"] are both written to [out/ab.pdf]. *)
Lemma same_sanitized_name_overwrites_witness :
  exists doc1 doc2,
    Run.render [] Sample.people (Str (lit "a.b")) (lit "out")
      (columns Sample.people) = Ok (lit "out/ab.pdf", [doc1])
    /\ Run.render [doc1] Sample.people (Str (lit "ab")) (lit "out")
         (columns Sample.people) = Ok (lit "out/ab.pdf", [doc2; doc1])
    /\ lookup_file [doc2; doc1] (lit "out/ab.pdf") = Some doc2.
Proof.
  assert (H1 : exists doc1,
             Run.render [] Sample.people (Str (lit "a.b")) (lit "out")
               (columns Sample.people) = Ok (lit "out/ab.pdf", [doc1])).
  { eexists. vm_compute. reflexivity. }
  destruct H1 as [doc1 H1].
  assert (H2 : exists doc2,
             Run.render [doc1] Sample.people (Str (lit "ab")) (lit "out")
               (columns Sample.people) = Ok (lit "out/ab.pdf", [doc2; doc1])).
  { eexists. vm_compute. reflexivity. }
  destruct H2 as [doc2 H2].
  destruct (@same_sanitized_name_overwrites false Sample.unchanged
              Sample.unchanged Sample.unchanged Sample.ascii_only
              (lit "Report") (lit "Generated") Sample.clock
              Sample.no_markup Sample.no_fault
              [] [doc1] [doc2; doc1] Sample.people Sample.people
              (lit "a.b") (lit "ab") (lit "out") (lit "out/ab.pdf")
              (lit "out/ab.pdf") (columns Sample.people)
              (columns Sample.people) eq_refl H1 H2)
    as [_ [d1 [d2 [E1 [E2 [_ L2]]]]]].
  injection E2 as <- _.
  exists doc1, doc2. split; [exact H1|]. split; [exact H2 | exact L2].
Defined.

Section MissingColumn.

Variable BIDI_SUPPORT : bool.
Variables reshape_configured reshape_default get_display
  : pystr -> result pystr.

Let vertical := vertical_rows BIDI_SUPPORT reshape_configured
                  reshape_default get_display.
Let horizontal := horizontal_loop BIDI_SUPPORT reshape_configured
                    reshape_default get_display.

Lemma field_value_absent (pd : DataFrame) (col : cell) :
  ~ In col (columns pd) -> field_value pd col = Raise (KeyError col).
Proof.
  intro H. unfold field_value, getitem.
  destruct (column_position col (columns pd)) as [i|] eqn:E; [|reflexivity].
  exfalso. apply H. apply column_position_In. eauto.
Qed.

Lemma vertical_rows_absent (pd : DataFrame) (before : list cell)
  (col : cell) (after : list cell) :
  incl before (columns pd) -> ~ In col (columns pd) ->
  vertical pd (before ++ col :: after) = Raise (KeyError col).
Proof.
  unfold vertical. intros Hin Hmiss.
  induction before as [|c before IH].
  - cbn [app vertical_rows]. rewrite field_value_absent by exact Hmiss.
    reflexivity.
  - cbn [app vertical_rows].
    rewrite field_value_present by (apply Hin; left; reflexivity).
    unfold bind at 1. rewrite !fix_persian_text_returns.
    unfold bind at 1 2.
    rewrite IH by (intros x Hx; apply Hin; right; exact Hx).
    reflexivity.
Qed.

Lemma horizontal_loop_absent (pd : DataFrame) (before : list cell)
  (col : cell) (after : list cell) :
  incl before (columns pd) -> ~ In col (columns pd) ->
  forall headers values,
    horizontal pd (before ++ col :: after) headers values
    = Raise (KeyError col).
Proof.
  unfold horizontal. intros Hin Hmiss.
  induction before as [|c before IH]; intros headers values.
  - cbn [app horizontal_loop]. rewrite fix_persian_text_returns.
    unfold bind at 1. rewrite field_value_absent by exact Hmiss.
    reflexivity.
  - cbn [app horizontal_loop]. rewrite fix_persian_text_returns.
    unfold bind at 1.
    rewrite field_value_present by (apply Hin; left; reflexivity).
    unfold bind at 1. rewrite fix_persian_text_returns. unfold bind at 1.
    apply IH. intros x Hx. apply Hin. right. exact Hx.
Qed.

Lemma make_table_data_absent (pd : DataFrame) (before : list cell)
  (col : cell) (after : list cell) :
  incl before (columns pd) -> ~ In col (columns pd) ->
  make_table_data BIDI_SUPPORT reshape_configured reshape_default
    get_display pd (before ++ col :: after) = Raise (KeyError col).
Proof.
  intros Hin Hmiss. unfold make_table_data.
  destruct (choose_layout (before ++ col :: after)).
  - apply vertical_rows_absent; assumption.
  - fold horizontal. rewrite horizontal_loop_absent by assumption.
    reflexivity.
Qed.

End MissingColumn.

(** X10.  When the column list handed to the renderer names a column the
    group's frame does not have, the renderer raises whatever the key is,
    and nothing is written.  Building the table raises [KeyError] for the
    first such column, in either layout; the renderer raises that
    [KeyError] unless it has raised before the table is built: [TypeError]
    for a key that is not a string, or the exception of the title
    paragraph, or else that of the timestamp paragraph. *)
Theorem render_with_unknown_column_raises :
  forall (BIDI_SUPPORT : bool)
         (reshape_configured reshape_default get_display
            : pystr -> result pystr)
         (unicode_isalnum : codepoint -> bool)
         (title_label date_label : pystr) (now : directory -> pystr)
         (paragraph_fault : style -> pystr -> option exn)
         (build_fault : directory -> document -> option exn)
         (dir : directory) (pd : DataFrame) (output_dir : pystr)
         (before : list cell) (col : cell) (after : list cell),
    let render := create_pdf_for_person BIDI_SUPPORT reshape_configured
                    reshape_default get_display unicode_isalnum
                    title_label date_label now paragraph_fault build_fault in
    let title := title_for BIDI_SUPPORT reshape_configured reshape_default
                   get_display title_label in
    let timestamp := timestamp_for BIDI_SUPPORT reshape_configured
                       reshape_default get_display date_label now in
    incl before (columns pd) ->
    ~ In col (columns pd) ->
    make_table_data BIDI_SUPPORT reshape_configured reshape_default
      get_display pd (before ++ col :: after) = Raise (KeyError col)
    /\ (forall name : pystr,
          render dir pd (Str name) output_dir (before ++ col :: after)
          = match paragraph_fault PersianTitle (title name) with
            | Some e => Raise e
            | None =>
                match paragraph_fault PersianNormal (timestamp dir) with
                | Some e => Raise e
                | None => Raise (KeyError col)
                end
            end)
    /\ (forall person_name : cell,
          (forall name, person_name <> Str name) ->
          render dir pd person_name output_dir (before ++ col :: after)
          = Raise TypeError)
    /\ (forall person_name : cell,
          exists e,
            render dir pd person_name output_dir (before ++ col :: after)
            = Raise e).
Proof.
  intros B rc rd gd u tl dl now pf bf dir pd out before col after
    render title timestamp Hin Hmiss.
  pose proof (@make_table_data_absent B rc rd gd pd before col after Hin
                Hmiss) as Htable.
  assert (Hstring : forall name : pystr,
             render dir pd (Str name) out (before ++ col :: after)
             = match pf PersianTitle (title name) with
               | Some e => Raise e
               | None =>
                   match pf PersianNormal (timestamp dir) with
                   | Some e => Raise e
                   | None => Raise (KeyError col)
                   end
               end).
  { intro name. unfold render.
    rewrite create_pdf_for_person_unfold, Htable. reflexivity. }
  assert (Hother : forall person_name : cell,
             (forall name, person_name <> Str name) ->
             render dir pd person_name out (before ++ col :: after)
             = Raise TypeError).
  { intros person_name Hname. unfold render.
    rewrite create_pdf_for_person_unfold.
    destruct person_name as [|name|z]; try reflexivity.
    exfalso. exact (Hname name eq_refl). }
  split; [exact Htable|]. split; [exact Hstring|]. split; [exact Hother|].
  intros [|name|z].
  - exists TypeError. apply Hother. discriminate.
  - rewrite Hstring. destruct (pf PersianTitle _) as [e|]; [eauto|].
    destruct (pf PersianNormal _) as [e|]; eauto.
  - exists TypeError. apply Hother. discriminate.
Qed.

(** Asking for a ["phone"] column the people table does not have: the
    missing column is reported for Alice, the markup of the title for a key
    that starts a tag. *)
Lemma render_with_unknown_column_raises_witness :
  Run.render [] Sample.people (Str (lit "Alice")) (lit "out")
    (Sample.header [lit "name"; lit "phone"; lit "email"])
  = Raise (KeyError (Str (lit "phone")))
  /\ Run.render_strict [] Sample.people (Str (lit "<b")) (lit "out")
       (Sample.header [lit "name"; lit "phone"; lit "email"])
     = Raise ValueError.
Proof.
  split.
  - destruct (@render_with_unknown_column_raises false Sample.unchanged
                Sample.unchanged Sample.unchanged Sample.ascii_only
                (lit "Report") (lit "Generated") Sample.clock
                Sample.no_markup Sample.no_fault
                [] Sample.people (lit "out")
                [Str (lit "name")] (Str (lit "phone")) [Str (lit "email")])
      as [_ [H _]].
    + apply incl_by_computation. vm_compute. reflexivity.
    + apply not_In_by_computation. vm_compute. reflexivity.
    + exact (H (lit "Alice")).
  - destruct (@render_with_unknown_column_raises false Sample.unchanged
                Sample.unchanged Sample.unchanged Sample.ascii_only
                (lit "Report") (lit "Generated") Sample.clock
                Sample.markup_fault Sample.no_fault
                [] Sample.people (lit "out")
                [Str (lit "name")] (Str (lit "phone")) [Str (lit "email")])
      as [_ [H _]].
    + apply incl_by_computation. vm_compute. reflexivity.
    + apply not_In_by_computation. vm_compute. reflexivity.
    + exact (H (lit "<b")).
Defined.

Lemma rev_constant {A B : Type} (x : B) (l : list A) :
  rev (map (fun _ => x) l) = repeat x (List.length l).
Proof.
  induction l as [|a l IH]; [reflexivity|].
  simpl. rewrite IH. symmetry. apply repeat_cons.
Qed.

(** X11.  For a frame without rows the renderer draws the empty string,
    not a dash, for every column: the vertical table pairs each shaped
    column name with the shaped empty string, and the horizontal table has
    the reversed headers over a row of shaped empty strings. *)
Theorem empty_group_renders_empty_values :
  forall (BIDI_SUPPORT : bool)
         (reshape_configured reshape_default get_display
            : pystr -> result pystr)
         (pd : DataFrame) (cols : list cell),
    let shaped := fun s : pystr =>
                    shape BIDI_SUPPORT reshape_configured reshape_default
                      get_display (Some (Str s)) in
    let name := fun col : cell =>
                  shape BIDI_SUPPORT reshape_configured reshape_default
                    get_display (Some col) in
    let table_of := make_table_data BIDI_SUPPORT reshape_configured
                      reshape_default get_display in
    rows pd = [] ->
    incl cols (columns pd) ->
    (10 < List.length cols ->
     table_of pd cols = Ok (map (fun col => [shaped []; name col]) cols))
    /\ (List.length cols <= 10 ->
        table_of pd cols
        = Ok [rev (map name cols);
              repeat (shaped []) (List.length cols)]).
Proof.
  intros B rc rd gd pd cols shaped name table_of Hrows Hin.
  assert (Hvalue : forall col, value_cell B rc rd gd pd col = shaped []).
  { intro col. unfold value_cell, first_cell. rewrite Hrows.
    destruct (column_position col (columns pd)); reflexivity. }
  split; intro Hlen.
  - unfold table_of. rewrite make_table_data_vertical by assumption.
    f_equal. apply map_ext. intro col. rewrite Hvalue. reflexivity.
  - unfold table_of. rewrite make_table_data_horizontal by assumption.
    f_equal. f_equal. f_equal.
    rewrite <- rev_constant. f_equal. apply map_ext. exact Hvalue.
Qed.

(** The people table without its rows. *)
Lemma empty_group_renders_empty_values_witness :
  Run.table_of {| columns := columns Sample.people; rows := [] |}
    (columns Sample.people)
  = Ok [ [lit "city"; lit "age"; lit "name"]; [ []; []; [] ] ].
Proof.
  apply (@empty_group_renders_empty_values false Sample.unchanged
           Sample.unchanged Sample.unchanged
           {| columns := columns Sample.people; rows := [] |}
           (columns Sample.people)).
  - reflexivity.
  - apply incl_by_computation. vm_compute. reflexivity.
  - vm_compute. lia.
Defined.

(* ------------------------------------------------------------------ *)
(** ** The fallbacks of the text shaper *)

(** X12.  With shaping enabled the shaper tries the configured reshaper
    followed by the bidi algorithm; if either raises it tries the default
    reshaper followed by the bidi algorithm; if that raises too it returns
    the text as it is.  In particular, when the bidi algorithm always
    raises, every text comes back unchanged. *)
Theorem shaper_falls_back_in_order :
  forall (reshape_configured reshape_default get_display
            : pystr -> result pystr) (v : cell),
    let text := py_str v in
    let attempt := fun reshape : pystr -> result pystr =>
                     (r <- reshape text ;; get_display r) in
    let shaped := fix_persian_text true reshape_configured reshape_default
                    get_display (Some v) in
    (forall b, attempt reshape_configured = Ok b -> shaped = Ok b)
    /\ (forall e b,
          attempt reshape_configured = Raise e ->
          attempt reshape_default = Ok b -> shaped = Ok b)
    /\ (forall e e',
          attempt reshape_configured = Raise e ->
          attempt reshape_default = Raise e' -> shaped = Ok text)
    /\ ((forall s, exists e, get_display s = Raise e) -> shaped = Ok text).
Proof.
  intros rc rd gd v text attempt shaped.
  assert (Hshape : shaped
                   = match attempt rc with
                     | Ok b => Ok b
                     | Raise _ => match attempt rd with
                                  | Ok b => Ok b
                                  | Raise _ => Ok text
                                  end
                     end).
  { unfold shaped, attempt, fix_persian_text, try_except, bind. fold text.
    cbn [negb].
    destruct (rc text) as [r|]; [destruct (gd r)|]; try reflexivity;
      destruct (rd text) as [r'|]; try reflexivity;
      destruct (gd r'); reflexivity. }
  split; [|split; [|split]].
  - intros b H. rewrite Hshape, H. reflexivity.
  - intros e b H1 H2. rewrite Hshape, H1, H2. reflexivity.
  - intros e e' H1 H2. rewrite Hshape, H1, H2. reflexivity.
  - intro Hbidi. rewrite Hshape. unfold attempt, bind.
    destruct (rc text) as [r|].
    + destruct (Hbidi r) as [e ->].
      destruct (rd text) as [r'|]; [|reflexivity].
      destruct (Hbidi r') as [e' ->]. reflexivity.
    + destruct (rd text) as [r'|]; [|reflexivity].
      destruct (Hbidi r') as [e' ->]. reflexivity.
Qed.

(** A configured reshaper that raises, a default one that mirrors. *)
Lemma shaper_falls_back_in_order_witness :
  fix_persian_text true Sample.broken Sample.mirrored Sample.unchanged
    (Some (Str (lit "abc"))) = Ok (lit "cba")
  /\ fix_persian_text true Sample.mirrored Sample.mirrored Sample.broken
       (Some (Str (lit "abc"))) = Ok (lit "abc").
Proof.
  destruct (@shaper_falls_back_in_order Sample.broken Sample.mirrored
              Sample.unchanged (Str (lit "abc"))) as [_ [H2 _]].
  destruct (@shaper_falls_back_in_order Sample.mirrored Sample.mirrored
              Sample.broken (Str (lit "abc"))) as [_ [_ [_ H4]]].
  split.
  - apply (H2 (LibraryError 1) (lit "cba")); reflexivity.
  - apply H4. intro s. exists (LibraryError 1). reflexivity.
Defined.

(* ------------------------------------------------------------------ *)
(** ** [shorten_path] *)

Lemma slice_from_length (start : Z) (s : pystr) :
  Z.of_nat (List.length (slice_from start s))
  = (let n := Z.of_nat (List.length s) in
     n - (if (start <? 0)%Z then Z.max (n + start) 0 else Z.min start n))%Z.
Proof.
  unfold slice_from. cbv zeta. rewrite length_skipn.
  destruct (start <? 0)%Z eqn:E; lia.
Qed.

Lemma shorten_path_bound (path : pystr) (max_length : Z) :
  ((Z.of_nat (List.length
                (ExcelToPDFConverter.shorten_path path max_length))
    <= max_length)%Z
   <-> (Z.of_nat (List.length path) <= max_length)%Z
       \/ (3 < max_length)%Z)
  /\ ((max_length < Z.of_nat (List.length path))%Z ->
      (3 < max_length)%Z ->
      Z.of_nat (List.length
                  (ExcelToPDFConverter.shorten_path path max_length))
      = max_length).
Proof.
  unfold ExcelToPDFConverter.shorten_path.
  destruct (Z.leb_spec (Z.of_nat (List.length path)) max_length)
    as [Hfit|Hlong].
  - split; [tauto | lia].
  - rewrite length_app, Nat2Z.inj_add, slice_from_length. cbv zeta.
    change (Z.of_nat (List.length (lit "..."))) with 3%Z.
    destruct (- (max_length - 3) <? 0)%Z eqn:E.
    + apply Z.ltb_lt in E. split; [split; intro; lia | lia].
    + apply Z.ltb_ge in E. split; [split; intro; lia | lia].
Qed.

(** X13.  [shorten_path] keeps within [max_length] exactly when the path
    already fits or [max_length] is more than 3: a longer path is cut to
    [max_length] characters, but for [max_length] of 3 or less the result of
    cutting is longer than [max_length]. *)
Theorem shorten_path_length :
  forall (path : pystr) (max_length : Z),
    let short := ExcelToPDFConverter.shorten_path path max_length in
    ((Z.of_nat (List.length short) <= max_length)%Z
     <-> (Z.of_nat (List.length path) <= max_length)%Z
         \/ (3 < max_length)%Z)
    /\ ((max_length < Z.of_nat (List.length path))%Z ->
        (3 < max_length)%Z ->
        Z.of_nat (List.length short) = max_length).
Proof.
  intros path max_length short. apply shorten_path_bound.
Qed.

(** A path of 50 characters is cut to 40. *)
Lemma shorten_path_length_witness :
  Z.of_nat (List.length
              (ExcelToPDFConverter.shorten_path (repeat 97%N 50) 40)) = 40%Z.
Proof.
  apply (@shorten_path_length (repeat 97%N 50) 40); vm_compute; reflexivity.
Defined.

(** X14.  For [max_length] above 3, a path that does not fit is shown as
    three dots followed by its last [max_length - 3] characters, and
    shortening is idempotent. *)
Theorem shorten_path_keeps_the_tail :
  forall (path : pystr) (max_length : Z),
    (3 < max_length)%Z ->
    let short := ExcelToPDFConverter.shorten_path path max_length in
    ExcelToPDFConverter.shorten_path short max_length = short
    /\ ((max_length < Z.of_nat (List.length path))%Z ->
        exists head tail,
          path = head ++ tail
          /\ Z.of_nat (List.length tail) = (max_length - 3)%Z
          /\ short = lit "..." ++ tail).
Proof.
  intros path m Hm short. split.
  - destruct (shorten_path_bound path m) as [Hbound _].
    fold short in Hbound.
    assert (Hfit : (Z.of_nat (List.length short) <= m)%Z)
      by (apply Hbound; right; exact Hm).
    unfold ExcelToPDFConverter.shorten_path at 1.
    apply Z.leb_le in Hfit. rewrite Hfit. reflexivity.
  - intro Hlong. unfold short, ExcelToPDFConverter.shorten_path.
    destruct (Z.leb_spec (Z.of_nat (List.length path)) m); [lia|].
    exists (firstn (Z.to_nat (Z.of_nat (List.length path) - (m - 3))) path),
           (slice_from (- (m - 3)) path).
    split; [|split; [|reflexivity]].
    + unfold slice_from. cbv zeta.
      destruct (- (m - 3) <? 0)%Z eqn:E; [|apply Z.ltb_ge in E; lia].
      replace (Z.max (Z.of_nat (List.length path) + - (m - 3)) 0)
        with (Z.of_nat (List.length path) - (m - 3))%Z by lia.
      symmetry. apply firstn_skipn.
    + rewrite slice_from_length. cbv zeta.
      destruct (- (m - 3) <? 0)%Z eqn:E; [lia|apply Z.ltb_ge in E; lia].
Qed.

(** The tail of a long path. *)
Lemma shorten_path_keeps_the_tail_witness :
  ExcelToPDFConverter.shorten_path
    (ExcelToPDFConverter.shorten_path
       (lit "/home/user/reports/2024/output_pdfs") 12) 12
  = ExcelToPDFConverter.shorten_path
      (lit "/home/user/reports/2024/output_pdfs") 12
  /\ exists head tail,
       lit "/home/user/reports/2024/output_pdfs" = head ++ tail
       /\ Z.of_nat (List.length tail) = 9%Z
       /\ ExcelToPDFConverter.shorten_path
            (lit "/home/user/reports/2024/output_pdfs") 12
          = lit "..." ++ tail.
Proof.
  destruct (@shorten_path_keeps_the_tail
              (lit "/home/user/reports/2024/output_pdfs") 12)
    as [H1 H2]; [lia|].
  split; [exact H1|]. apply H2. vm_compute. reflexivity.
Defined.

(* ------------------------------------------------------------------ *)
(** ** Stripping the braces of a dropped path *)

Section Strip.

Variable chars : list codepoint.

Let inside (c : codepoint) : Prop := char_in chars c = true.

Lemma lstrip_chars_app (l s : pystr) :
  Forall inside l -> lstrip_chars chars (l ++ s) = lstrip_chars chars s.
Proof.
  induction 1 as [|c l Hc _ IH]; [reflexivity|].
  simpl. unfold inside in Hc. rewrite Hc. exact IH.
Qed.

Lemma lstrip_chars_clean (s : pystr) :
  match s with [] => True | c :: _ => char_in chars c = false end ->
  lstrip_chars chars s = s.
Proof. destruct s as [|c s]; [reflexivity|]. simpl. intros ->. reflexivity. Qed.

Lemma lstrip_chars_head (s : pystr) :
  match lstrip_chars chars s with
  | [] => True
  | c :: _ => char_in chars c = false
  end.
Proof.
  induction s as [|c s IH]; [exact I|].
  simpl. destruct (char_in chars c) eqn:E; [exact IH | exact E].
Qed.

Lemma rstrip_chars_cons (c : codepoint) (s : pystr) :
  rstrip_chars chars (c :: s) =
  match rstrip_chars chars s with
  | [] => if char_in chars c then [] else [c]
  | _ :: _ => c :: rstrip_chars chars s
  end.
Proof. simpl. destruct (rstrip_chars chars s); reflexivity. Qed.

Lemma rstrip_chars_all (t : pystr) :
  Forall inside t -> rstrip_chars chars t = [].
Proof.
  induction 1 as [|c t Hc _ IH]; [reflexivity|].
  unfold inside in Hc. rewrite rstrip_chars_cons, IH, Hc. reflexivity.
Qed.

Lemma rstrip_chars_app (s t : pystr) :
  Forall inside t -> rstrip_chars chars (s ++ t) = rstrip_chars chars s.
Proof.
  intro Ht. induction s as [|c s IH].
  - simpl. apply rstrip_chars_all, Ht.
  - rewrite <- app_comm_cons, !rstrip_chars_cons, IH. reflexivity.
Qed.

Lemma rstrip_chars_clean (s : pystr) :
  match s with [] => True | _ :: _ => char_in chars (last s 0%N) = false end ->
  rstrip_chars chars s = s.
Proof.
  induction s as [|c s IH]; [reflexivity|].
  intro H. rewrite rstrip_chars_cons. destruct s as [|d s].
  - simpl in *. rewrite H. reflexivity.
  - rewrite IH by exact H. reflexivity.
Qed.

Lemma rstrip_chars_last (s : pystr) :
  match rstrip_chars chars s with
  | [] => True
  | _ :: _ => char_in chars (last (rstrip_chars chars s) 0%N) = false
  end.
Proof.
  induction s as [|c s IH]; [exact I|].
  rewrite rstrip_chars_cons. destruct (rstrip_chars chars s) as [|d r] eqn:E.
  - destruct (char_in chars c) eqn:Hc; [exact I | exact Hc].
  - exact IH.
Qed.

Lemma rstrip_chars_keeps_head (c : codepoint) (s : pystr) :
  char_in chars c = false ->
  exists r, rstrip_chars chars (c :: s) = c :: r.
Proof.
  intro Hc. rewrite rstrip_chars_cons.
  destruct (rstrip_chars chars s) as [|d r].
  - rewrite Hc. eauto.
  - eauto.
Qed.

Lemma strip_chars_clean_ends (s : pystr) :
  clean_ends chars (strip_chars chars s).
Proof.
  unfold strip_chars, clean_ends.
  pose proof (lstrip_chars_head s) as Hhead.
  destruct (lstrip_chars chars s) as [|c l]; [exact I|].
  destruct (@rstrip_chars_keeps_head c l Hhead) as [r Hr].
  pose proof (rstrip_chars_last (c :: l)) as Hlast.
  rewrite Hr in *. split; assumption.
Qed.

Lemma strip_chars_fixed (s : pystr) :
  clean_ends chars s -> strip_chars chars s = s.
Proof.
  unfold clean_ends, strip_chars. destruct s as [|c s]; [reflexivity|].
  intros [Hhead Hlast].
  rewrite lstrip_chars_clean by exact Hhead.
  apply rstrip_chars_clean. exact Hlast.
Qed.

End Strip.

(** X15.  [strip(chars)] leaves no character of the set at either end, is
    idempotent, and removes exactly a wrapping made of such characters: a
    text with clean ends comes back as it is from any such wrapping. *)
Theorem strip_chars_unwraps :
  forall (chars : list codepoint) (s : pystr),
    clean_ends chars (strip_chars chars s)
    /\ strip_chars chars (strip_chars chars s) = strip_chars chars s
    /\ (forall opening closing : pystr,
          Forall (fun c => char_in chars c = true) opening ->
          Forall (fun c => char_in chars c = true) closing ->
          clean_ends chars s ->
          strip_chars chars (opening ++ s ++ closing) = s).
Proof.
  intros chars s. split; [apply strip_chars_clean_ends|]. split.
  - apply strip_chars_fixed, strip_chars_clean_ends.
  - intros opening closing Ho Hc Hs. unfold strip_chars.
    rewrite lstrip_chars_app by exact Ho.
    destruct s as [|c s].
    + simpl. rewrite <- (app_nil_r closing).
      rewrite lstrip_chars_app by exact Hc. reflexivity.
    + destruct Hs as [Hhead Hlast].
      rewrite lstrip_chars_clean by exact Hhead.
      rewrite rstrip_chars_app by exact Hc.
      apply rstrip_chars_clean. exact Hlast.
Qed.

(** A path with a space, as the drop target delivers it. *)
Lemma strip_chars_unwraps_witness :
  strip_chars [123%N; 125%N] (lit "{C:/my files/book.xlsx}")
  = lit "C:/my files/book.xlsx".
Proof.
  destruct (@strip_chars_unwraps [123%N; 125%N]
              (lit "C:/my files/book.xlsx")) as [_ [_ H]].
  apply (H (lit "{") (lit "}")).
  - repeat constructor.
  - repeat constructor.
  - split; reflexivity.
Defined.

(* ------------------------------------------------------------------ *)
(** ** Extensions, engines and the loader *)

Lemma endswith_spec (s suffix : pystr) :
  endswith s suffix = true <-> exists front, s = front ++ suffix.
Proof.
  unfold endswith, pystr_eqb. split.
  - intro H. apply andb_true_iff in H. destruct H as [_ H].
    destruct (pystr_eq_dec
                (skipn (List.length s - List.length suffix) s) suffix)
      as [E|]; [|discriminate].
    exists (firstn (List.length s - List.length suffix) s).
    rewrite <- E at 2. symmetry. apply firstn_skipn.
  - intros [front ->]. apply andb_true_iff. split.
    + apply Nat.leb_le. rewrite length_app. lia.
    + replace (List.length (front ++ suffix) - List.length suffix)
        with (List.length front + 0) by (rewrite length_app; lia).
      rewrite skipn_app, skipn_all2 by lia.
      replace (List.length front + 0 - List.length front) with 0 by lia.
      simpl.
      destruct (pystr_eq_dec suffix suffix); [reflexivity | congruence].
Qed.

Lemma endswith_last (s suffix : pystr) (c : codepoint) :
  endswith s (suffix ++ [c]) = true -> last s 0%N = c.
Proof.
  intro H. apply endswith_spec in H. destruct H as [front ->].
  rewrite app_assoc. apply last_last.
Qed.

Lemma endswith_nonempty (s suffix : pystr) :
  endswith s suffix = true -> suffix <> [] -> s <> [].
Proof.
  intros H Hs. apply endswith_spec in H. destruct H as [front ->].
  destruct front; [exact Hs | discriminate].
Qed.

(** A path ending in [".xls"] ends in none of the three other
    extensions. *)
Lemma xls_is_not_xlsx (file_path : pystr) :
  endswith file_path (lit ".xls") = true ->
  endswith_any file_path [lit ".xlsx"; lit ".xlsm"; lit ".xlsb"] = false.
Proof.
  intro H. apply (@endswith_last file_path (lit ".xl") 115%N) in H.
  unfold endswith_any. cbn [existsb].
  destruct (endswith file_path (lit ".xlsx")) eqn:E1.
  { apply (@endswith_last file_path (lit ".xls") 120%N) in E1.
    rewrite H in E1. discriminate. }
  destruct (endswith file_path (lit ".xlsm")) eqn:E2.
  { apply (@endswith_last file_path (lit ".xls") 109%N) in E2.
    rewrite H in E2. discriminate. }
  destruct (endswith file_path (lit ".xlsb")) eqn:E3.
  { apply (@endswith_last file_path (lit ".xls") 98%N) in E3.
    rewrite H in E3. discriminate. }
  reflexivity.
Qed.

Lemma engine_named_iff_excel_suffix (file_path : pystr) :
  endswith_any file_path ExcelToPDFConverter.excel_suffixes = true
  <-> engine_for file_path <> default_engine.
Proof.
  unfold engine_for, endswith_any, ExcelToPDFConverter.excel_suffixes.
  cbn [existsb].
  destruct (endswith file_path (lit ".xls")),
           (endswith file_path (lit ".xlsx")),
           (endswith file_path (lit ".xlsm")),
           (endswith file_path (lit ".xlsb")); cbn [orb];
    split; intro H; try reflexivity; try discriminate; try congruence.
Qed.

(** X16.  [read_excel_file] hands back the reader's table unchanged, and
    turns any exception of the reader into one whose text is
    ["Error reading Excel file: "] followed by the reader's text.  The
    reader is given the xlrd engine exactly for the paths ending in
    [".xls"], and the openpyxl engine exactly for those ending in
    [".xlsx"], [".xlsm"] or [".xlsb"]; no path matches both tests. *)
Theorem read_excel_file_wraps_errors :
  forall (read_excel : pystr -> engine -> pystr + DataFrame)
         (file_path : pystr),
    (forall df, read_excel_file read_excel file_path = inr df
                <-> read_excel file_path (engine_for file_path) = inr df)
    /\ (forall message,
          read_excel_file read_excel file_path = inl message
          <-> exists e,
                read_excel file_path (engine_for file_path) = inl e
                /\ message = lit "Error reading Excel file: " ++ e)
    /\ (engine_for file_path = xlrd
        <-> endswith file_path (lit ".xls") = true)
    /\ (engine_for file_path = openpyxl
        <-> endswith_any file_path [lit ".xlsx"; lit ".xlsm"; lit ".xlsb"]
            = true)
    /\ ~ (endswith file_path (lit ".xls") = true
          /\ endswith_any file_path [lit ".xlsx"; lit ".xlsm"; lit ".xlsb"]
             = true).
Proof.
  intros read_excel file_path. unfold read_excel_file.
  split; [|split; [|split; [|split]]].
  - intro df. destruct (read_excel file_path (engine_for file_path));
      split; intro H; try discriminate; congruence.
  - intro message.
    destruct (read_excel file_path (engine_for file_path)) as [e|df]; split.
    + intro H. injection H as <-. exists e. split; reflexivity.
    + intros [e' [H ->]]. injection H as ->. reflexivity.
    + discriminate.
    + intros [e' [H _]]. discriminate.
  - unfold engine_for. split.
    + destruct (endswith_any file_path _); [discriminate|].
      destruct (endswith file_path (lit ".xls")); [reflexivity|discriminate].
    + intro H. rewrite (@xls_is_not_xlsx file_path H), H. reflexivity.
  - unfold engine_for.
    destruct (endswith_any file_path _); [tauto|].
    destruct (endswith file_path (lit ".xls")); split; discriminate.
  - intros [H1 H2]. rewrite (@xls_is_not_xlsx file_path H1) in H2.
    discriminate.
Qed.

(** X17.  A dropped path is accepted exactly when, with its wrapping
    braces removed, it is one for which the loader names an engine.  An
    accepted path is stored without braces at its ends, is not empty, and
    enables the Convert button; a rejected one changes neither the selected
    file nor the button, and shows one error. *)
Theorem dropped_file_is_read_with_an_engine :
  forall (w : ExcelToPDFConverter.window) (data : pystr),
    let path := strip_chars [123%N; 125%N] data in
    let w' := ExcelToPDFConverter.drop_file w data in
    (engine_for path <> default_engine ->
     ExcelToPDFConverter.file_path w' = Some path
     /\ ExcelToPDFConverter.convert_btn w' = true
     /\ ExcelToPDFConverter.errors w' = ExcelToPDFConverter.errors w
     /\ path <> []
     /\ clean_ends [123%N; 125%N] path)
    /\ (engine_for path = default_engine ->
        ExcelToPDFConverter.file_path w' = ExcelToPDFConverter.file_path w
        /\ ExcelToPDFConverter.convert_btn w'
           = ExcelToPDFConverter.convert_btn w
        /\ ExcelToPDFConverter.errors w'
           = lit "Please drop an Excel file (.xls, .xlsx, .xlsm, .xlsb)"
               :: ExcelToPDFConverter.errors w).
Proof.
  intros w data path w'. unfold w', ExcelToPDFConverter.drop_file.
  fold path.
  destruct (endswith_any path ExcelToPDFConverter.excel_suffixes) eqn:E.
  - split.
    + intros _. split; [reflexivity|]. split; [reflexivity|].
      split; [reflexivity|]. split.
      * unfold endswith_any, ExcelToPDFConverter.excel_suffixes in E.
        apply existsb_exists in E. destruct E as [suffix [Hin Hends]].
        apply (@endswith_nonempty path suffix Hends).
        simpl in Hin. intuition (subst; discriminate).
      * apply strip_chars_clean_ends.
    + intro H. apply engine_named_iff_excel_suffix in E. contradiction.
  - split.
    + intro H. apply engine_named_iff_excel_suffix in H. congruence.
    + intros _. repeat split.
Qed.

(** A braced path is accepted, a text file is not. *)
Lemma dropped_file_is_read_with_an_engine_witness :
  ExcelToPDFConverter.file_path
    (ExcelToPDFConverter.drop_file (ExcelToPDFConverter.init (lit "/home/u"))
       (lit "{/data/my book.xls}"))
  = Some (lit "/data/my book.xls")
  /\ ExcelToPDFConverter.file_path
       (ExcelToPDFConverter.drop_file
          (ExcelToPDFConverter.init (lit "/home/u")) (lit "notes.txt"))
     = None.
Proof.
  split.
  - apply (@dropped_file_is_read_with_an_engine
             (ExcelToPDFConverter.init (lit "/home/u"))
             (lit "{/data/my book.xls}")).
    vm_compute. discriminate.
  - apply (@dropped_file_is_read_with_an_engine
             (ExcelToPDFConverter.init (lit "/home/u")) (lit "notes.txt")).
    vm_compute. reflexivity.
Defined.

(* ------------------------------------------------------------------ *)
(** ** The font *)

Lemma find_first {A : Type} (f : A -> bool) (l : list A) :
  match find f l with
  | Some x => exists before after,
                l = before ++ x :: after
                /\ f x = true
                /\ Forall (fun y => f y = false) before
  | None => Forall (fun y => f y = false) l
  end.
Proof.
  induction l as [|a l IH]; [constructor|].
  simpl. destruct (f a) eqn:E.
  - exists [], l. split; [reflexivity|]. split; [exact E | constructor].
  - destruct (find f l) as [x|].
    + destruct IH as [before [after [-> [Hx Hb]]]].
      exists (a :: before), after. split; [reflexivity|].
      split; [exact Hx|]. constructor; assumption.
    + constructor; assumption.
Qed.

Lemma find_over_app {A : Type} (f : A -> bool) (l m : list A) :
  find f (l ++ m)
  = match find f l with
    | Some x => Some x
    | None => find f m
    end.
Proof.
  induction l as [|a l IH]; [reflexivity|].
  simpl. destruct (f a); [reflexivity | exact IH].
Qed.

Section FontFacts.

Variable home_fonts : pystr.
Variables path_exists register_font : pystr -> bool.

Let loaded_ok := font_loaded path_exists register_font.

Lemma probe_paths_find (font_name : pystr) (paths : list pystr) :
  probe_paths path_exists register_font font_name paths
  = find loaded_ok (map (fun path => path_join path font_name) paths).
Proof.
  induction paths as [|path paths IH]; [reflexivity|].
  simpl. fold loaded_ok.
  destruct (loaded_ok (path_join path font_name)); [reflexivity | exact IH].
Qed.

Lemma probe_fonts_find (names paths : list pystr) :
  probe_fonts path_exists register_font names paths
  = find loaded_ok (font_candidates names paths).
Proof.
  induction names as [|font_name names IH]; [reflexivity|].
  cbn [probe_fonts font_candidates flat_map].
  rewrite find_over_app, <- probe_paths_find.
  destruct (probe_paths _ _ font_name paths); [reflexivity | exact IH].
Qed.

End FontFacts.

(** X18.  [setup_persian_font] returns ["Persian"] when one of the
    candidate files (each font name under each directory, every directory
    being tried for a font name before the next name is tried) exists and
    registers without an exception, and then the file registered is the
    first such candidate; it returns ["Helvetica"], registering nothing,
    exactly when every candidate is absent or fails to register. *)
Theorem setup_persian_font_takes_the_first_usable_file :
  forall (home_fonts : pystr) (path_exists register_font : pystr -> bool),
    let usable := fun f => path_exists f && register_font f in
    let candidates := font_candidates font_names (font_paths home_fonts) in
    let chosen := setup_persian_font home_fonts path_exists register_font in
    List.length candidates = 42
    /\ ((exists font_file before after,
            chosen = (lit "Persian", Some font_file)
            /\ candidates = before ++ font_file :: after
            /\ usable font_file = true
            /\ Forall (fun f => usable f = false) before)
        \/ (chosen = (lit "Helvetica", None)
            /\ Forall (fun f => usable f = false) candidates)).
Proof.
  intros home ex reg usable candidates chosen.
  split; [reflexivity|].
  assert (Husable : forall f, font_loaded ex reg f = usable f).
  { intro f. unfold font_loaded, usable. destruct (ex f); reflexivity. }
  unfold chosen, setup_persian_font. rewrite probe_fonts_find.
  fold candidates.
  pose proof (find_first (font_loaded ex reg) candidates) as H.
  destruct (find (font_loaded ex reg) candidates) as [font_file|].
  - left. destruct H as [before [after [E [Hf Hb]]]].
    exists font_file, before, after. split; [reflexivity|].
    split; [exact E|]. split; [rewrite <- Husable; exact Hf|].
    eapply Forall_impl; [|exact Hb].
    intros f Hff. rewrite <- Husable. exact Hff.
  - right. split; [reflexivity|].
    eapply Forall_impl; [|exact H].
    intros f Hff. rewrite <- Husable. exact Hff.
Qed.

(* ------------------------------------------------------------------ *)
(** ** The window *)

Module WindowFacts.

Import ExcelToPDFConverter.

Lemma sound_init (cwd : pystr) : sound (init cwd).
Proof.
  unfold sound, init. simpl. split; [|split].
  - intros [H|H]; [discriminate | lia].
  - reflexivity.
  - constructor.
Qed.

Lemma sound_load_file (w : window) (path : pystr) :
  path <> [] -> sound w -> sound (load_file w path).
Proof.
  intros Hp [_ [H2 H3]]. unfold sound, load_file, no_file. simpl.
  split; [|split; assumption].
  intros _. destruct path; [congruence | reflexivity].
Qed.

Lemma sound_handle (w : window) (e : event) :
  sound w -> sound (handle w e).
Proof.
  intro Hw. destruct e as [data|chosen|directory| |]; simpl.
  - unfold drop_file.
    destruct (endswith_any (strip_chars [123%N; 125%N] data) excel_suffixes)
      eqn:E.
    + apply sound_load_file; [|exact Hw].
      unfold endswith_any in E. apply existsb_exists in E.
      destruct E as [suffix [Hin Hends]].
      apply (@endswith_nonempty _ suffix Hends).
      simpl in Hin. intuition (subst; discriminate).
    + destruct Hw as [H1 [H2 H3]]. unfold sound, show_error. simpl.
      split; [exact H1|]. split; [exact H2|].
      constructor; [reflexivity | exact H3].
  - unfold browse_file. destruct chosen as [|c chosen]; [exact Hw|].
    apply sound_load_file; [discriminate | exact Hw].
  - unfold change_output_dir.
    destruct directory as [|c directory]; [exact Hw|].
    destruct Hw as [H1 [H2 H3]]. unfold sound. simpl.
    split; [exact H1|]. split; [reflexivity | exact H3].
  - destruct (convert_btn w) eqn:Hbtn; [|exact Hw].
    destruct Hw as [H1 [H2 H3]]. unfold convert.
    rewrite (H1 (or_introl Hbtn)). unfold sound. simpl.
    split; [|split; assumption].
    intros _. unfold no_file. simpl. apply H1. left. exact Hbtn.
  - destruct (Nat.ltb_spec 0 (running w)) as [Hrun|]; [|exact Hw].
    destruct Hw as [H1 [H2 H3]]. unfold sound, finished. simpl.
    split; [|split; assumption].
    intros _. unfold no_file. simpl. apply H1. right. exact Hrun.
Qed.

Lemma sound_run (events : list event) :
  forall w, sound w -> sound (run w events).
Proof.
  unfold run. induction events as [|e events IH]; intros w Hw; [exact Hw|].
  simpl. apply IH, sound_handle, Hw.
Qed.

End WindowFacts.

(** X19.  Whatever the user does (dropping, browsing, changing the output
    directory, clicking Convert) and whenever conversions end, from the
    start of the program on: the Convert button is enabled, or a conversion
    is running, only when a non-empty file path is selected, so a click on
    Convert always starts a conversion and the box "Please select an Excel
    file first" is never shown; and the output label is the shortened
    output directory, at most 40 characters long. *)
Theorem window_keeps_a_file_behind_the_convert_button :
  forall (cwd : pystr) (events : list ExcelToPDFConverter.event),
    let w := ExcelToPDFConverter.run (ExcelToPDFConverter.init cwd) events in
    (ExcelToPDFConverter.convert_btn w = true
     \/ 0 < ExcelToPDFConverter.running w ->
     exists c path, ExcelToPDFConverter.file_path w = Some (c :: path))
    /\ (ExcelToPDFConverter.convert_btn w = true ->
        ExcelToPDFConverter.running
          (ExcelToPDFConverter.handle w ExcelToPDFConverter.ClickConvert)
        = S (ExcelToPDFConverter.running w))
    /\ ~ In (lit "Please select an Excel file first")
           (ExcelToPDFConverter.errors w)
    /\ ExcelToPDFConverter.output_label w
       = ExcelToPDFConverter.shorten_path
           (ExcelToPDFConverter.output_dir w) 40
    /\ List.length (ExcelToPDFConverter.output_label w) <= 40.
Proof.
  intros cwd events w.
  destruct (WindowFacts.sound_run events (WindowFacts.sound_init cwd))
    as [H1 [H2 H3]].
  fold w in H1, H2, H3.
  assert (Hfile : ExcelToPDFConverter.no_file w = false ->
                  exists c path,
                    ExcelToPDFConverter.file_path w = Some (c :: path)).
  { unfold ExcelToPDFConverter.no_file.
    destruct (ExcelToPDFConverter.file_path w) as [[|c path]|];
      try discriminate. eauto. }
  split; [intro H; apply Hfile, H1, H|].
  split; [|split; [|split]].
  - intro Hbtn. simpl. rewrite Hbtn. unfold ExcelToPDFConverter.convert.
    rewrite (H1 (or_introl Hbtn)). reflexivity.
  - intro Hin. rewrite Forall_forall in H3. apply H3 in Hin.
    vm_compute in Hin. discriminate Hin.
  - exact H2.
  - rewrite H2.
    destruct (shorten_path_bound (ExcelToPDFConverter.output_dir w) 40)
      as [Hbound _].
    assert (Hle : (Z.of_nat (List.length
                     (ExcelToPDFConverter.shorten_path
                        (ExcelToPDFConverter.output_dir w) 40)) <= 40)%Z)
      by (apply Hbound; right; lia).
    lia.
Qed.

(** A session: a drop, a conversion, a new output directory, a click. *)
Lemma window_keeps_a_file_behind_the_convert_button_witness :
  ExcelToPDFConverter.running
    (ExcelToPDFConverter.handle
       (ExcelToPDFConverter.run (ExcelToPDFConverter.init (lit "/home/u"))
          [ExcelToPDFConverter.Drop (lit "{/data/my book.xls}");
           ExcelToPDFConverter.ClickConvert;
           ExcelToPDFConverter.ChangeOutputDir (lit "/tmp/out");
           ExcelToPDFConverter.ThreadEnds])
       ExcelToPDFConverter.ClickConvert)
  = 1.
Proof.
  apply (@window_keeps_a_file_behind_the_convert_button (lit "/home/u")
           [ExcelToPDFConverter.Drop (lit "{/data/my book.xls}");
            ExcelToPDFConverter.ClickConvert;
            ExcelToPDFConverter.ChangeOutputDir (lit "/tmp/out");
            ExcelToPDFConverter.ThreadEnds]).
  vm_compute. reflexivity.
Defined.

(* ------------------------------------------------------------------ *)
(** ** Why a group can fail *)

Section GroupOutcome.

Variable BIDI_SUPPORT : bool.
Variables reshape_configured reshape_default get_display
  : pystr -> result pystr.
Variable unicode_isalnum : codepoint -> bool.
Variables title_label date_label : pystr.
Variable now : directory -> pystr.
Variable paragraph_fault : style -> pystr -> option exn.
Variable build_fault : directory -> document -> option exn.

Let render := create_pdf_for_person BIDI_SUPPORT reshape_configured
                reshape_default get_display unicode_isalnum
                title_label date_label now paragraph_fault build_fault.
Let loop := process_people BIDI_SUPPORT reshape_configured
              reshape_default get_display unicode_isalnum
              title_label date_label now paragraph_fault build_fault.
Let tally := counted BIDI_SUPPORT reshape_configured reshape_default
               get_display unicode_isalnum title_label date_label now
               paragraph_fault
               build_fault.
Let table_of := make_table_data BIDI_SUPPORT reshape_configured
                  reshape_default get_display.
Let composed_doc := composed BIDI_SUPPORT reshape_configured
                      reshape_default get_display unicode_isalnum
                      title_label date_label now.
Let title_of := title_for BIDI_SUPPORT reshape_configured
                  reshape_default get_display title_label.
Let timestamp_of := timestamp_for BIDI_SUPPORT reshape_configured
                      reshape_default get_display date_label now.

(** With the frame's own columns the table is always built. *)
Lemma make_table_data_own_columns (pd : DataFrame) :
  exists table, table_of pd (columns pd) = Ok table.
Proof.
  destruct (Nat.le_gt_cases (List.length (columns pd)) 10) as [H|H].
  - eexists. apply make_table_data_horizontal; [apply incl_refl | exact H].
  - eexists. apply make_table_data_vertical; [apply incl_refl | exact H].
Qed.

Variable df : DataFrame.
Variables name_column output_dir : pystr.
Hypothesis key_present : In (Str name_column) (columns df).

(** The renderer on the group of a string key: the table is built, and the
    result is decided by the two paragraphs and the writer, in this
    order. *)
Lemma render_string_key (dir : directory) (text : pystr) :
  exists table,
    table_of (frame_of df name_column (Str text)) (columns df) = Ok table
    /\ render dir (frame_of df name_column (Str text)) (Str text) output_dir
         (columns df)
       = match paragraph_fault PersianTitle (title_of text) with
         | Some e => Raise e
         | None =>
             match paragraph_fault PersianNormal (timestamp_of dir) with
             | Some e => Raise e
             | None =>
                 let doc := composed_doc dir text output_dir table in
                 match build_fault dir doc with
                 | Some e => Raise e
                 | None => Ok (pdf_filename doc, doc :: dir)
                 end
             end
         end.
Proof.
  destruct (make_table_data_own_columns (frame_of df name_column (Str text)))
    as [table Htable].
  simpl columns in Htable. exists table. split; [exact Htable|].
  unfold render. rewrite create_pdf_for_person_unfold.
  unfold table_of in Htable. rewrite Htable. reflexivity.
Qed.

(** A key is rendered without an exception: it is a string, and neither
    its title nor any document composed for it is refused. *)
Let renders (name : cell) : Prop :=
  exists text,
    name = Str text
    /\ paragraph_fault PersianTitle (title_of text) = None
    /\ forall dir table,
         table_of (frame_of df name_column (Str text)) (columns df)
         = Ok table ->
         build_fault dir (composed_doc dir text output_dir table) = None.

Lemma process_people_strings (total : nat) (names : list cell) :
  (forall dir, paragraph_fault PersianNormal (timestamp_of dir) = None) ->
  Forall renders names ->
  forall (st : batch) (i : nat),
    success_count (fst (loop df name_column output_dir total st i names))
    = success_count st + List.length names
    /\ error_count (fst (loop df name_column output_dir total st i names))
       = error_count st.
Proof.
  intro Hstamp.
  induction 1 as [|name names [text [-> [Htitle Hbuild]]] _ IH]; intros st i.
  - simpl. split; [lia | reflexivity].
  - unfold loop. rewrite process_people_cons by exact key_present.
    fold loop.
    destruct (IH (counted BIDI_SUPPORT reshape_configured reshape_default
                    get_display unicode_isalnum title_label date_label now
                    paragraph_fault build_fault df name_column output_dir
                    (announce st i total (Str text)) (Str text)) (S i))
      as [H1 H2].
    rewrite H1, H2. unfold counted. fold render.
    destruct (render_string_key (files (announce st i total (Str text)))
                text) as [table [Htable ->]].
    rewrite Htitle, Hstamp. cbv zeta. rewrite (Hbuild _ _ Htable).
    cbn [success_count error_count announce List.length]. split; lia.
Qed.

End GroupOutcome.

(** X20.  In the batch the renderer is given the table's own columns, so
    the cells of the table are always built, and a group fails for exactly
    one of these reasons, tried in this order: its key is not a string
    ([TypeError] when the file name is built); the title paragraph raises
    (the title, which holds the key, is parsed as markup); the timestamp
    paragraph raises; the table object or the PDF build raises.  When none
    of them raises the document is written. *)
Theorem group_fails_on_key_paragraph_or_writer :
  forall (BIDI_SUPPORT : bool)
         (reshape_configured reshape_default get_display
            : pystr -> result pystr)
         (unicode_isalnum : codepoint -> bool)
         (title_label date_label : pystr) (now : directory -> pystr)
         (paragraph_fault : style -> pystr -> option exn)
         (build_fault : directory -> document -> option exn)
         (df : DataFrame) (name_column output_dir : pystr)
         (dir : directory) (key : cell),
    let render := create_pdf_for_person BIDI_SUPPORT reshape_configured
                    reshape_default get_display unicode_isalnum
                    title_label date_label now paragraph_fault build_fault in
    let outcome := render dir (frame_of df name_column key) key output_dir
                     (columns df) in
    ((forall text, key <> Str text) -> outcome = Raise TypeError)
    /\ (forall text, key = Str text ->
        exists table,
          make_table_data BIDI_SUPPORT reshape_configured reshape_default
            get_display (frame_of df name_column key) (columns df)
          = Ok table
          /\ let doc := composed BIDI_SUPPORT reshape_configured
                          reshape_default get_display unicode_isalnum
                          title_label date_label now dir text output_dir
                          table in
             let title_fault :=
               paragraph_fault PersianTitle (title_text doc) in
             let timestamp_fault :=
               paragraph_fault PersianNormal (timestamp_text doc) in
             (forall e, title_fault = Some e -> outcome = Raise e)
             /\ (forall e, title_fault = None ->
                           timestamp_fault = Some e -> outcome = Raise e)
             /\ (forall e, title_fault = None -> timestamp_fault = None ->
                           build_fault dir doc = Some e -> outcome = Raise e)
             /\ (title_fault = None -> timestamp_fault = None ->
                 build_fault dir doc = None ->
                 outcome = Ok (pdf_filename doc, doc :: dir))).
Proof.
  intros B rc rd gd u tl dl now pf bf df K out dir key render outcome.
  split.
  - intro Hkey. unfold outcome, render.
    rewrite create_pdf_for_person_unfold.
    destruct key as [|text|z]; try reflexivity.
    exfalso. exact (Hkey text eq_refl).
  - intros text ->.
    destruct (@render_string_key B rc rd gd u tl dl now pf bf df K out dir
                text) as [table [Htable Hrender]].
    exists table. split; [exact Htable|].
    intros doc title_fault timestamp_fault.
    unfold outcome, render. rewrite Hrender.
    change (title_for B rc rd gd tl text) with (title_text doc).
    change (timestamp_for B rc rd gd dl now dir) with (timestamp_text doc).
    fold title_fault timestamp_fault.
    change (composed B rc rd gd u tl dl now dir text out table) with doc.
    cbv zeta.
    split; [intros e ->; reflexivity|].
    split; [intros e -> ->; reflexivity|].
    split; [intros e -> -> ->; reflexivity|].
    intros -> -> ->. reflexivity.
Qed.

(** A numeric key; Alice's group with a writer that fails on her document;
    and a key that starts a tag, with a paragraph parser that rejects
    it. *)
Lemma group_fails_on_key_paragraph_or_writer_witness :
  Run.render_faulty [] (frame_of Sample.people (lit "name") (Int 7)) (Int 7)
    (lit "out") (columns Sample.people) = Raise TypeError
  /\ Run.render_faulty []
       (frame_of Sample.people (lit "name") (Str (lit "Alice")))
       (Str (lit "Alice")) (lit "out") (columns Sample.people)
     = Raise (LibraryError 2)
  /\ Run.render_strict []
       (frame_of Sample.people (lit "name") (Str (lit "<b")))
       (Str (lit "<b")) (lit "out") (columns Sample.people)
     = Raise ValueError.
Proof.
  split; [|split].
  - apply (@group_fails_on_key_paragraph_or_writer false Sample.unchanged
             Sample.unchanged Sample.unchanged Sample.ascii_only
             (lit "Report") (lit "Generated") Sample.clock Sample.no_markup
             (Sample.fault_on (lit "out/Alice.pdf")) Sample.people
             (lit "name") (lit "out") [] (Int 7)).
    intros text H. discriminate H.
  - destruct (@group_fails_on_key_paragraph_or_writer false Sample.unchanged
                Sample.unchanged Sample.unchanged Sample.ascii_only
                (lit "Report") (lit "Generated") Sample.clock
                Sample.no_markup
                (Sample.fault_on (lit "out/Alice.pdf")) Sample.people
                (lit "name") (lit "out") [] (Str (lit "Alice")))
      as [_ H].
    destruct (H (lit "Alice") eq_refl) as [table [Htable [_ [_ [Hfail _]]]]].
    apply Hfail; [reflexivity | reflexivity |].
    vm_compute in Htable. injection Htable as <-.
    vm_compute. reflexivity.
  - destruct (@group_fails_on_key_paragraph_or_writer false Sample.unchanged
                Sample.unchanged Sample.unchanged Sample.ascii_only
                (lit "Report") (lit "Generated") Sample.clock
                Sample.markup_fault Sample.no_fault Sample.people
                (lit "name") (lit "out") [] (Str (lit "<b")))
      as [_ H].
    destruct (H (lit "<b") eq_refl) as [table [_ [Hfail _]]].
    apply Hfail. vm_compute. reflexivity.
Defined.

(** X21.  When every key of the table is a string or missing and none of
    the calls this batch makes to the paragraph parser (the title of each
    key, the timestamp) and to the PDF writer (the document composed for
    each key) raises, the batch completes without an error: every group is
    a success and the writer is run once per group. *)
Theorem batch_of_string_keys_succeeds :
  forall (BIDI_SUPPORT : bool)
         (reshape_configured reshape_default get_display
            : pystr -> result pystr)
         (unicode_isalnum : codepoint -> bool)
         (title_label date_label : pystr) (now : directory -> pystr)
         (paragraph_fault : style -> pystr -> option exn)
         (build_fault : directory -> document -> option exn)
         (df : DataFrame) (name_column output_dir : pystr)
         (dir : directory),
    let title := title_for BIDI_SUPPORT reshape_configured reshape_default
                   get_display title_label in
    let timestamp := timestamp_for BIDI_SUPPORT reshape_configured
                       reshape_default get_display date_label now in
    let table_of := make_table_data BIDI_SUPPORT reshape_configured
                      reshape_default get_display in
    let document_for := composed BIDI_SUPPORT reshape_configured
                          reshape_default get_display unicode_isalnum
                          title_label date_label now in
    In (Str name_column) (columns df) ->
    Forall (fun row => isna (key_cell df name_column row) = true
                       \/ exists text,
                            key_cell df name_column row = Str text)
      (rows df) ->
    (forall row text,
       In row (rows df) -> key_cell df name_column row = Str text ->
       paragraph_fault PersianTitle (title text) = None) ->
    (forall d, paragraph_fault PersianNormal (timestamp d) = None) ->
    (forall row text d table,
       In row (rows df) -> key_cell df name_column row = Str text ->
       table_of (frame_of df name_column (Str text)) (columns df)
       = Ok table ->
       build_fault d (document_for d text output_dir table) = None) ->
    exists (names : list cell) (st : batch) (new : list document),
      unique_names df name_column = Ok names
      /\ process_conversion BIDI_SUPPORT reshape_configured reshape_default
           get_display unicode_isalnum title_label date_label now
           paragraph_fault build_fault (Ok df) name_column output_dir dir
         = (Completed, st)
      /\ success_count st = List.length names
      /\ error_count st = 0
      /\ files st = new ++ dir
      /\ List.length new = List.length names.
Proof.
  intros B rc rd gd u tl dl now pf bf df K out dir title timestamp table_of
    document_for HK Hall Htitle Hstamp Hwriter.
  pose proof (unique_names_present df K HK) as Hnames.
  set (names := unique_from []
                  (filter (fun v => negb (isna v))
                     (map (key_cell df K) (rows df)))) in *.
  assert (Hstr : Forall
                   (fun name =>
                      exists text,
                        name = Str text
                        /\ pf PersianTitle (title text) = None
                        /\ forall d table,
                             table_of (frame_of df K (Str text)) (columns df)
                             = Ok table ->
                             bf d (document_for d text out table) = None)
                   names).
  { apply Forall_forall. intros v Hv. unfold names in Hv.
    apply unique_from_In in Hv. destruct Hv as [Hv _].
    apply filter_In in Hv. destruct Hv as [Hv Hna].
    apply negb_true_iff in Hna.
    apply in_map_iff in Hv. destruct Hv as [row [<- Hrow]].
    rewrite Forall_forall in Hall.
    destruct (Hall row Hrow) as [H|[text H]]; [congruence|].
    exists text. split; [exact H|]. split.
    - exact (Htitle row text Hrow H).
    - intros d table. exact (Hwriter row text d table Hrow H). }
  destruct (@process_people_strings B rc rd gd u tl dl now pf bf df K out HK
              (List.length names) names Hstamp Hstr (start dir) 0)
    as [H1 H2].
  destruct (@process_people_written B rc rd gd u tl dl now pf bf df K out HK
              (List.length names) names (start dir) 0)
    as [new [Hfiles [Hcount _]]].
  exists names. eexists. exists new.
  split; [exact Hnames|].
  split; [exact (@process_conversion_present B rc rd gd u tl dl now pf bf df K
                   out dir _ HK Hnames)|].
  split; [exact H1|]. split; [exact H2|]. split; [exact Hfiles|].
  rewrite H1 in Hcount. simpl in Hcount. lia.
Qed.

(** The end-to-end scenario with a paragraph parser that rejects tags: no
    key holds one, so both groups succeed. *)
Lemma batch_of_string_keys_succeeds_witness :
  exists st new,
    Run.convert_strict (Ok Sample.people_with_gap) (lit "name") (lit "out")
      []
    = (Completed, st)
    /\ success_count st = 2 /\ error_count st = 0
    /\ files st = new /\ List.length new = 2.
Proof.
  destruct (@batch_of_string_keys_succeeds false Sample.unchanged
              Sample.unchanged Sample.unchanged Sample.ascii_only
              (lit "Report") (lit "Generated") Sample.clock
              Sample.markup_fault Sample.no_fault
              Sample.people_with_gap (lit "name") (lit "out") [])
    as [names [st [new [H1 [H2 [H3 [H4 [H5 H6]]]]]]]].
  - apply In_by_computation. vm_compute. reflexivity.
  - unfold Sample.people_with_gap, loaded. cbn [rows List.length seq combine].
    repeat (apply Forall_cons;
            [first [left; reflexivity | right; eexists; reflexivity]|]).
    apply Forall_nil.
  - intros row text Hrow Hkey.
    unfold Sample.people_with_gap, loaded in Hrow.
    cbn [rows List.length seq combine] in Hrow.
    destruct Hrow as [<-|[<-|[<-|[<-|[]]]]];
      vm_compute in Hkey; try discriminate Hkey;
      injection Hkey as <-; reflexivity.
  - intro d. reflexivity.
  - reflexivity.
  - vm_compute in H1. injection H1 as <-.
    exists st, new. split; [exact H2|]. split; [exact H3|].
    split; [exact H4|]. split; [rewrite app_nil_r in H5; exact H5 | exact H6].
Defined.
